(** * Session signatures, wallet signatures and targeted execution of the
      Lit node client (LitNodeClientNodeJs)

    A shallow embedding of the session machinery of the client: the re-sign
    predicate, the wallet-signature acquirer, the session key store, the
    session-signature orchestrator, the share validation of [signSessionKey]
    and the deterministic node selection of [runOnTargetedNodes].

    JavaScript values that are serialised are modelled as [JsVal]; effects
    (local storage, the clock, key generation, callbacks, requests sent to
    nodes) are threaded through a state-and-exception monad [M] over a
    [World]. *)

From Stdlib Require Import ZArith Lia Bool Ascii.
From stdpp Require Import base option list strings gmap pretty sorting.

(** ** JavaScript values and [JSON.stringify] *)

#[warnings="-register-all"]
Inductive JsVal : Type :=
| JNull
| JBool (b : bool)
| JNum (n : Z)
| JStr (s : string)
| JArr (items : list JsVal)
| JObj (props : list (string * JsVal)).

(** Property read [o.k]; [None] is JavaScript's [undefined]. *)
Fixpoint props_get (k : string) (ps : list (string * JsVal)) : option JsVal :=
  match ps with
  | [] => None
  | (k', v) :: rest => if String.eqb k k' then Some v else props_get k rest
  end.

Definition obj_get (k : string) (o : JsVal) : option JsVal :=
  match o with
  | JObj ps => props_get k ps
  | _ => None
  end.

(** Property write as done by an object literal or a spread: an existing key
    keeps its position, a new key is appended. *)
Fixpoint props_set (k : string) (v : JsVal) (ps : list (string * JsVal))
  : list (string * JsVal) :=
  match ps with
  | [] => [(k, v)]
  | (k', v') :: rest =>
      if String.eqb k k' then (k, v) :: rest else (k', v') :: props_set k v rest
  end.

Definition obj_keys (o : JsVal) : list string :=
  match o with
  | JObj ps => map fst ps
  | _ => []
  end.

Definition dquote : ascii := Eval cbv in ascii_of_nat 34.
Definition backslash : ascii := Eval cbv in ascii_of_nat 92.

Definition hex_digit (n : nat) : ascii :=
  ascii_of_nat (if Nat.ltb n 10 then 48 + n else 87 + n).

Definition escape_char (c : ascii) : string :=
  let n := nat_of_ascii c in
  if Nat.eqb n 34 then String backslash (String dquote EmptyString)
  else if Nat.eqb n 92 then String backslash (String backslash EmptyString)
  else if Nat.eqb n 8 then String backslash "b"
  else if Nat.eqb n 12 then String backslash "f"
  else if Nat.eqb n 10 then String backslash "n"
  else if Nat.eqb n 13 then String backslash "r"
  else if Nat.eqb n 9 then String backslash "t"
  else if Nat.ltb n 32 then
    String backslash
      ("u00" +:+ String (hex_digit (n / 16)) (String (hex_digit (n mod 16)) EmptyString))
  else String c EmptyString.

Fixpoint escape_string (s : string) : string :=
  match s with
  | EmptyString => EmptyString
  | String c rest => escape_char c +:+ escape_string rest
  end.

Definition quote (s : string) : string :=
  String dquote (escape_string s +:+ String dquote EmptyString).

Fixpoint join_comma (l : list string) : string :=
  match l with
  | [] => ""
  | [x] => x
  | x :: rest => x +:+ "," +:+ join_comma rest
  end.

Fixpoint JSON_stringify (v : JsVal) : string :=
  match v with
  | JNull => "null"
  | JBool true => "true"
  | JBool false => "false"
  | JNum n => pretty n
  | JStr s => quote s
  | JArr items => "[" +:+ join_comma (map JSON_stringify items) +:+ "]"
  | JObj ps =>
      "{" +:+ join_comma (map (fun p => quote (fst p) +:+ ":" +:+ JSON_stringify (snd p)) ps)
          +:+ "}"
  end.

(** Optional properties of an object literal: [...(x && { k: x })]. *)
Definition opt_prop (k : string) (v : option JsVal) : list (string * JsVal) :=
  match v with
  | Some x => [(k, x)]
  | None => []
  end.

(** Truthiness of the optional values the client tests with [!x], [x && ...]
    and [x || ...]. *)
Definition truthy_string (x : option string) : bool :=
  match x with
  | Some s => negb (String.eqb s "")
  | None => false
  end.

(** [x || d] on an optional string. *)
Definition or_else (x : option string) (d : string) : string :=
  match x with
  | Some s => if String.eqb s "" then d else s
  | None => d
  end.

(** [x ?? d]: only [undefined] (and [null]) select the right operand. *)
Definition nullish {A : Type} (x : option A) (d : A) : A :=
  match x with
  | Some a => a
  | None => d
  end.

(** [x && { k: x }] for a string: kept only when non-empty. *)
Definition keep_truthy_string (x : option string) : option string :=
  if truthy_string x then x else None.

(** [x && { k: x }] for a boolean: kept only when [true]. *)
Definition keep_truthy_bool (x : option bool) : option bool :=
  match x with
  | Some true => Some true
  | _ => None
  end.

(** ** Errors *)

Inductive LIT_ERROR : Type :=
| PARAMS_MISSING_ERROR
| INVALID_PARAM_TYPE
| INVALID_ARGUMENT_EXCEPTION
| INVALID_ETH_BLOCKHASH
| WALLET_SIGNATURE_NOT_FOUND_ERROR
| LIT_NODE_CLIENT_NOT_READY_ERROR
| UNKNOWN_ERROR.

(** What a [throw] carries: a structured error raised through [throwError],
    a native exception of the runtime, or a plain [new Error(message)]. *)
Inductive Exn : Type :=
| LitError (kind : LIT_ERROR) (message : string)
| SyntaxError
| TypeError
| Error (message : string).

Inductive Res (A : Type) : Type :=
| Ok (a : A)
| Throw (e : Exn).
Arguments Ok {A} a.
Arguments Throw {A} e.

Definition is_ok {A : Type} (r : Res A) : bool :=
  match r with
  | Ok _ => true
  | Throw _ => false
  end.

(** ** Data model *)

Record AuthSig := mkAuthSig {
  sig : string;
  derivedVia : string;
  signedMessage : string;
  address : string;
  algo : option string;
}.

Record SessionKeyPair := mkSessionKeyPair {
  publicKey : string;
  secretKey : string;
}.

(** Modelled from the spec: the constant of package constants behind the
    SessionKeyUri [lit:session:<publicKey-hex>]. *)
Definition LIT_SESSION_KEY_URI : string := "lit:session:".

(** Keys in the order in which the SDK builds an AuthSig
    (generate-auth-sig.ts, and the literal in [getSessionSigs]). *)
Definition AuthSig_toJSON (a : AuthSig) : JsVal :=
  JObj ([("sig", JStr (sig a));
         ("derivedVia", JStr (derivedVia a));
         ("signedMessage", JStr (signedMessage a));
         ("address", JStr (address a))]
        ++ opt_prop "algo" (JStr <$> algo a)).

Definition SessionKeyPair_toJSON (k : SessionKeyPair) : JsVal :=
  JObj [("publicKey", JStr (publicKey k)); ("secretKey", JStr (secretKey k))].

(** Modelled from the spec: the resource variants (PKP, Action,
    AccessControlCondition, each with an identifier that may be the wildcard
    [*]) and the ability variants of package auth-helpers and types, which
    are missing from the sources. *)
Inductive LitResourcePrefix : Type :=
| AccessControlCondition
| PKP
| LitAction.

Inductive LitAbility : Type :=
| AccessControlConditionDecryption
| AccessControlConditionSigning
| PKPSigning
| LitActionExecution.

Record ILitResource := mkLitResource {
  resourcePrefix : LitResourcePrefix;
  resource_id : string;
}.

Record LitResourceAbilityRequest := mkRequest {
  resource : ILitResource;
  ability : LitAbility;
}.

Definition LitAbility_eqb (a b : LitAbility) : bool :=
  match a, b with
  | AccessControlConditionDecryption, AccessControlConditionDecryption
  | AccessControlConditionSigning, AccessControlConditionSigning
  | PKPSigning, PKPSigning
  | LitActionExecution, LitActionExecution => true
  | _, _ => false
  end.

(** ** Capability object *)

Module Recap.

(** Modelled from the spec: the resource key of a resource
    ([getResourceKey], package auth-helpers), [<prefix>://<id>] as in the
    identity-parameter format [lit-accesscontrolcondition://...]. *)
Definition prefix_string (p : LitResourcePrefix) : string :=
  match p with
  | AccessControlCondition => "lit-accesscontrolcondition"
  | PKP => "lit-pkp"
  | LitAction => "lit-litaction"
  end.

Definition getResourceKey (r : ILitResource) : string :=
  prefix_string (resourcePrefix r) +:+ "://" +:+ resource_id r.

Definition wildcardKey (r : ILitResource) : string :=
  prefix_string (resourcePrefix r) +:+ "://*".

(** An ability tag stored under a resource key: one ability, or the wildcard. *)
Inductive Tag : Type :=
| AnyAbility
| Only (a : LitAbility).

Definition Tag_matches (a : LitAbility) (t : Tag) : bool :=
  match t with
  | AnyAbility => true
  | Only b => LitAbility_eqb a b
  end.

(** Modelled from the spec: RecapSessionCapabilityObject (package
    auth-helpers) is missing from the sources. Grants are a mapping from
    resource-key strings to a set of ability tags, and
    [verifyCapabilitiesForResource r a] is true iff a wildcard grant or an
    exact match is present. *)
Record RecapSessionCapabilityObject := mkRecap {
  attenuations : gmap string (list Tag);
  proofs : list string;
}.

Definition grants_at (c : RecapSessionCapabilityObject) (key : string) : list Tag :=
  default [] (attenuations c !! key).

Definition add_tag (key : string) (t : Tag) (c : RecapSessionCapabilityObject)
  : RecapSessionCapabilityObject :=
  mkRecap (<[key := t :: grants_at c key]> (attenuations c)) (proofs c).

Definition addCapabilityForResource (c : RecapSessionCapabilityObject)
    (r : ILitResource) (a : LitAbility) : RecapSessionCapabilityObject :=
  add_tag (getResourceKey r) (Only a) c.

Definition addAllCapabilitiesForResource (c : RecapSessionCapabilityObject)
    (r : ILitResource) : RecapSessionCapabilityObject :=
  add_tag (getResourceKey r) AnyAbility c.

Definition verifyCapabilitiesForResource (c : RecapSessionCapabilityObject)
    (r : ILitResource) (a : LitAbility) : bool :=
  existsb (Tag_matches a) (grants_at c (getResourceKey r))
  || existsb (Tag_matches a) (grants_at c (wildcardKey r)).

End Recap.

Export Recap.

(** ** The world: local storage, clock, entropy, requests sent *)

(** A command handed to [_sendCommandToNode]. *)
Record NodeCommand := mkCommand {
  cmd_url : string;
  cmd_data : JsVal;
  cmd_requestId : string;
}.

(** Modelled from the spec: the storage adapter behind [getStorageItem],
    [setStorageItem] and [removeStorageItem] (package misc-browser), a
    key/string store whose operations return a result or an error, each on
    its own. The store may be unavailable (no [localStorage], as under
    NodeJS), refuse writes, or refuse removals. *)
Record LocalStorage := mkStorage {
  available : bool;
  writable : bool;
  removable : bool;
  items : gmap string string;
}.

Record World := mkWorld {
  localStorage : LocalStorage;
  clock : nat -> Z;       (* the successive readings of [Date.now()] *)
  ticks : nat;            (* how many readings were taken *)
  entropy : nat;          (* how many key pairs were generated *)
  sent : list NodeCommand;
}.

Definition set_localStorage (s : LocalStorage) (w : World) : World :=
  mkWorld s (clock w) (ticks w) (entropy w) (sent w).

Definition M (A : Type) : Type := World -> Res A * World.

Definition ret {A : Type} (a : A) : M A := fun w => (Ok a, w).

Definition throw {A : Type} (e : Exn) : M A := fun w => (Throw e, w).

Definition bind {A B : Type} (m : M A) (k : A -> M B) : M B :=
  fun w =>
    match m w with
    | (Ok a, w') => k a w'
    | (Throw e, w') => (Throw e, w')
    end.

Definition try_catch {A : Type} (m : M A) (handler : Exn -> M A) : M A :=
  fun w =>
    match m w with
    | (Ok a, w') => (Ok a, w')
    | (Throw e, w') => handler e w'
    end.

Definition lift {A : Type} (r : Res A) : M A := fun w => (r, w).

(** [x ?? e], where [e] has effects: it runs only when [x] is [undefined]. *)
Definition nullish_else {A : Type} (x : option A) (e : M A) : M A :=
  match x with
  | Some a => ret a
  | None => e
  end.

Declare Scope js_scope.
Delimit Scope js_scope with js.
Notation "x <- c ;; k" := (bind c (fun x => k))
  (at level 100, c at next level, right associativity) : js_scope.
Notation "c ;;; k" := (bind c (fun _ => k))
  (at level 100, right associativity) : js_scope.
Open Scope js_scope.

Inductive IEither (A : Type) : Type :=
| ELeft (error : string)
| ERight (result : A).
Arguments ELeft {A} error.
Arguments ERight {A} result.

Definition is_ERROR {A : Type} (e : IEither A) : bool :=
  match e with
  | ELeft _ => true
  | ERight _ => false
  end.

Definition result_of {A : Type} (e : IEither A) : option A :=
  match e with
  | ELeft _ => None
  | ERight r => Some r
  end.

(** Modelled from the spec: the names of the two persisted slots (package
    constants). *)
Definition LOCAL_STORAGE_KEYS_WALLET_SIGNATURE : string := "lit-wallet-signature".
Definition LOCAL_STORAGE_KEYS_SESSION_KEY : string := "lit-session-key".

Definition read_slot (key : string) (s : LocalStorage) : IEither string :=
  if available s
  then match items s !! key with
       | Some v => ERight v
       | None => ELeft "Failed to get item from local storage"
       end
  else ELeft "Failed to get item from local storage".

Definition getStorageItem (key : string) : M (IEither string) :=
  fun w => (Ok (read_slot key (localStorage w)), w).

Definition setStorageItem (key value : string) : M (IEither string) :=
  fun w =>
    let s := localStorage w in
    if available s && writable s
    then (Ok (ERight value),
          set_localStorage (mkStorage (available s) (writable s) (removable s) (<[key := value]> (items s))) w)
    else (Ok (ELeft "Failed to set item in local storage"), w).

Definition removeStorageItem (key : string) : M (IEither string) :=
  fun w =>
    let s := localStorage w in
    if removable s
    then (Ok (ERight key),
          set_localStorage (mkStorage (available s) (writable s) (removable s) (delete key (items s))) w)
    else (Ok (ELeft "Failed to remove item from local storage"), w).

(** The bare [localStorage.setItem], which raises where the adapter returns
    an error. *)
Definition localStorage_setItem (key value : string) : M unit :=
  fun w =>
    let s := localStorage w in
    if available s && writable s
    then (Ok tt,
          set_localStorage (mkStorage (available s) (writable s) (removable s) (<[key := value]> (items s))) w)
    else (Throw (Error "localStorage is not available"), w).

(** The guard shared by both readers of a slot:
    [x.type === ERROR || !x.result || x.result == ''] (the last disjunct is
    [===] in [getSessionKey]; on strings the two agree). *)
Definition slot_is_missing (stored : IEither string) : bool :=
  is_ERROR stored
  || negb (truthy_string (result_of stored))
  || bool_decide (result_of stored = Some "").

Definition Date_now : M Z :=
  fun w => (Ok (clock w (ticks w)),
            mkWorld (localStorage w) (clock w) (S (ticks w)) (entropy w) (sent w)).

(** ** Parameters of the callbacks and of the client *)

Record AuthCallbackParams := mkAuthCallbackParams {
  cb_chain : string;
  cb_statement : option string;
  cb_resources : option (list string);
  cb_switchChain : option bool;
  cb_expiration : option string;
  cb_uri : option string;
  cb_sessionKey : option SessionKeyPair;
  cb_nonce : string;
  cb_resourceAbilityRequests : option (list LitResourceAbilityRequest);
  cb_litActionCode : option string;
  cb_litActionIpfsId : option string;
  cb_jsParams : option JsVal;
}.

Definition AuthCallback : Type := AuthCallbackParams -> M AuthSig.

Record LitNodeClientNodeJs := mkClient {
  defaultAuthCallback : option AuthCallback;
  latestBlockhash : option string;
  connectedNodes : list string;   (* a Set: iterated in insertion order *)
  bootstrapUrls : list string;
  minNodeCount : Z;
}.

Record GetWalletSigProps := mkGetWalletSigProps {
  ws_authNeededCallback : option AuthCallback;
  ws_chain : string;
  ws_sessionCapabilityObject : RecapSessionCapabilityObject;
  ws_switchChain : option bool;
  ws_expiration : string;
  ws_sessionKeyUri : string;
  ws_nonce : string;
  ws_resourceAbilityRequests : option (list LitResourceAbilityRequest);
  ws_litActionCode : option string;
  ws_litActionIpfsId : option string;
  ws_jsParams : option JsVal;
  ws_sessionKey : SessionKeyPair;
}.

Record GetSessionSigsProps := mkGetSessionSigsProps {
  p_sessionKey : option SessionKeyPair;
  p_sessionCapabilityObject : option RecapSessionCapabilityObject;
  p_resourceAbilityRequests : list LitResourceAbilityRequest;
  p_expiration : option string;
  p_authNeededCallback : option AuthCallback;
  p_chain : option string;
  p_switchChain : option bool;
  p_litActionCode : option string;
  p_litActionIpfsId : option string;
  p_jsParams : option JsVal;
  p_capabilityAuthSigs : option (list AuthSig);
  p_capacityDelegationAuthSig : option AuthSig;
}.

(** The parsed SIWE message, with the two fields the client reads. *)
Record SiweMessage := mkSiweMessage {
  siwe_uri : string;
  siwe_resources : option (list string);
}.

(** The collaborators outside the repository (siwe, nacl, the JSON parser,
    the Date formatter) and the helpers of sibling packages that the client
    only calls. A constructor or parser that raises returns [None]. *)
Class Externals := {
  SiweMessage_new : string -> option SiweMessage;
  SiweMessage_validate : SiweMessage -> string -> bool;
  decode : string -> option RecapSessionCapabilityObject;
  encodeAsSiweResource : RecapSessionCapabilityObject -> string;
  statement : RecapSessionCapabilityObject -> string;
  JSON_parse_AuthSig : string -> option AuthSig;
  JSON_parse_SessionKeyPair : string -> option SessionKeyPair;
  generateSessionKeyPair : nat -> SessionKeyPair;
  nacl_sign_detached : string -> string -> string;
  toISOString : Z -> string;
  LitResourceAbilityRequest_toJSON : LitResourceAbilityRequest -> JsVal;
}.

Definition new_key_pair `{Externals} : M SessionKeyPair :=
  fun w => (Ok (generateSessionKeyPair (entropy w)),
            mkWorld (localStorage w) (clock w) (ticks w) (S (entropy w)) (sent w)).

(** ** The client's private helpers *)

(** [#authCallbackAndUpdateStorageItem] *)
Definition authCallbackAndUpdateStorageItem (this : LitNodeClientNodeJs)
    (authCallbackParams : AuthCallbackParams) (authCallback : option AuthCallback)
  : M AuthSig :=
  authSig <- match authCallback with
             | Some cb => cb authCallbackParams
             | None =>
                 match defaultAuthCallback this with
                 | None => throw (LitError PARAMS_MISSING_ERROR
                                    "No default auth callback provided")
                 | Some dcb => dcb authCallbackParams
                 end
             end ;;
  storeNewWalletSigOrError <-
    setStorageItem LOCAL_STORAGE_KEYS_WALLET_SIGNATURE
      (JSON_stringify (AuthSig_toJSON authSig)) ;;
  if negb (is_ERROR storeNewWalletSigOrError) then ret authSig
  else
    _removeWalletSigOrError <- removeStorageItem LOCAL_STORAGE_KEYS_WALLET_SIGNATURE ;;
    ret authSig.

(** The loop closing [#checkNeedToResignSessionKey]: the first request the
    capability object does not cover answers [true]. *)
Fixpoint capabilities_do_not_match (cap : RecapSessionCapabilityObject)
    (resourceAbilityRequests : list LitResourceAbilityRequest) : bool :=
  match resourceAbilityRequests with
  | [] => false
  | resourceAbilityRequest :: rest =>
      if negb (verifyCapabilitiesForResource cap
                 (resource resourceAbilityRequest) (ability resourceAbilityRequest))
      then true
      else capabilities_do_not_match cap rest
  end.

(** [#checkNeedToResignSessionKey]. The constructor of the SIWE message and
    [decode] are called outside any [try]: when they raise, so does the
    check. *)
Definition checkNeedToResignSessionKey `{Externals} (authSig : AuthSig)
    (sessionKeyUri : string) (resourceAbilityRequests : list LitResourceAbilityRequest)
  : Res bool :=
  match SiweMessage_new (signedMessage authSig) with
  | None => Throw (Error "Invalid SIWE message")
  | Some authSigSiweMessage =>
      if negb (SiweMessage_validate authSigSiweMessage (sig authSig)) then Ok true
      else if negb (String.eqb (siwe_uri authSigSiweMessage) sessionKeyUri) then Ok true
      else
        match siwe_resources authSigSiweMessage with
        | None => Ok true
        | Some [] => Ok true
        | Some (first :: _) =>
            match decode first with
            | None => Throw (Error "Invalid session capability object")
            | Some authSigSessionCapabilityObject =>
                Ok (capabilities_do_not_match authSigSessionCapabilityObject
                      resourceAbilityRequests)
            end
        end
  end.

(** The body handed to the caller's callback in [#getWalletSig] (flow 1.1). *)
Definition walletSig_callback_body `{Externals} (p : GetWalletSigProps) : AuthCallbackParams :=
  {| cb_chain := ws_chain p;
     cb_statement := Some (statement (ws_sessionCapabilityObject p));
     cb_resources := Some [encodeAsSiweResource (ws_sessionCapabilityObject p)];
     cb_switchChain := keep_truthy_bool (ws_switchChain p);
     cb_expiration := Some (ws_expiration p);
     cb_uri := Some (ws_sessionKeyUri p);
     cb_sessionKey := Some (ws_sessionKey p);
     cb_nonce := ws_nonce p;
     cb_resourceAbilityRequests := ws_resourceAbilityRequests p;
     cb_litActionCode := keep_truthy_string (ws_litActionCode p);
     cb_litActionIpfsId := keep_truthy_string (ws_litActionIpfsId p);
     cb_jsParams := ws_jsParams p |}.

(** The body handed to the configured default callback (flow 1.2.2). *)
Definition walletSig_default_body `{Externals} (p : GetWalletSigProps) : AuthCallbackParams :=
  {| cb_chain := ws_chain p;
     cb_statement := Some (statement (ws_sessionCapabilityObject p));
     cb_resources := Some [encodeAsSiweResource (ws_sessionCapabilityObject p)];
     cb_switchChain := ws_switchChain p;
     cb_expiration := Some (ws_expiration p);
     cb_uri := Some (ws_sessionKeyUri p);
     cb_sessionKey := None;
     cb_nonce := ws_nonce p;
     cb_resourceAbilityRequests := None;
     cb_litActionCode := None;
     cb_litActionIpfsId := None;
     cb_jsParams := None |}.

(** [#getWalletSig]. The result is [walletSig!]: [None] is the [undefined]
    that the variable still holds when nothing was assigned to it. *)
Definition getWalletSig `{Externals} (this : LitNodeClientNodeJs) (p : GetWalletSigProps)
  : M (option AuthSig) :=
  let storageKey := LOCAL_STORAGE_KEYS_WALLET_SIGNATURE in
  storedWalletSigOrError <- getStorageItem storageKey ;;
  if slot_is_missing storedWalletSigOrError then
    walletSig <- match ws_authNeededCallback p with
                 | Some authNeededCallback =>
                     authNeededCallback (walletSig_callback_body p)
                 | None =>
                     match defaultAuthCallback this with
                     | None => throw (LitError PARAMS_MISSING_ERROR
                                        "No default auth callback provided")
                     | Some dcb => dcb (walletSig_default_body p)
                     end
                 end ;;
    _storeNewWalletSigOrError <-
      setStorageItem storageKey (JSON_stringify (AuthSig_toJSON walletSig)) ;;
    ret (Some walletSig)
  else
    try_catch
      (match JSON_parse_AuthSig (default "" (result_of storedWalletSigOrError)) with
       | Some walletSig => ret (Some walletSig)
       | None => throw SyntaxError
       end)
      (fun _e => ret None).

(** [#getSessionKeyUri] *)
Definition getSessionKeyUri (publicKey : string) : string :=
  LIT_SESSION_KEY_URI +:+ publicKey.

(** ** Sessions *)

(** [getSessionKey] *)
Definition getSessionKey `{Externals} : M SessionKeyPair :=
  let storageKey := LOCAL_STORAGE_KEYS_SESSION_KEY in
  storedSessionKeyOrError <- getStorageItem storageKey ;;
  if slot_is_missing storedSessionKeyOrError then
    newSessionKey <- new_key_pair ;;
    try_catch
      (localStorage_setItem storageKey
         (JSON_stringify (SessionKeyPair_toJSON newSessionKey)))
      (fun _e => ret tt) ;;;
    ret newSessionKey
  else
    match JSON_parse_SessionKeyPair (default "" (result_of storedSessionKeyOrError)) with
    | Some k => ret k
    | None => throw SyntaxError
    end.

(** The static [generateSessionCapabilityObjectWithWildcards]. *)
Definition generateSessionCapabilityObjectWithWildcards_static
    (litResources : list ILitResource) (addAllCapabilities : option bool)
  : RecapSessionCapabilityObject :=
  let sessionCapabilityObject := mkRecap ∅ [] in
  let _addAllCapabilities := nullish addAllCapabilities false in
  if _addAllCapabilities
  then fold_left addAllCapabilitiesForResource litResources sessionCapabilityObject
  else sessionCapabilityObject.

(** The instance method of the same name ("backward compatibility"), which
    passes the resources only. *)
Definition generateSessionCapabilityObjectWithWildcards
    (litResources : list ILitResource) : RecapSessionCapabilityObject :=
  generateSessionCapabilityObjectWithWildcards_static litResources None.

Definition day_ms : Z := 1000 * 60 * 60 * 24.
Definition five_minutes_ms : Z := 1000 * 60 * 5.

(** The static [getExpiration]. *)
Definition getExpiration `{Externals} : M string :=
  now <- Date_now ;;
  ret (toISOString (now + day_ms)).

(** The capability object [getSessionSigs] works with. *)
Definition sessionCapabilityObject_of (params : GetSessionSigsProps)
  : RecapSessionCapabilityObject :=
  match p_sessionCapabilityObject params with
  | Some c => c
  | None =>
      generateSessionCapabilityObjectWithWildcards
        (map (fun r => resource r) (p_resourceAbilityRequests params))
  end.

(** The [signingTemplate] literal of [getSessionSigs]. *)
Definition signingTemplate `{Externals} (sessionKey : SessionKeyPair)
    (resourceAbilityRequests : list LitResourceAbilityRequest)
    (capabilities : list AuthSig) (issuedAt sessionExpiration : string)
  : list (string * JsVal) :=
  [("sessionKey", JStr (publicKey sessionKey));
   ("resourceAbilityRequests",
     JArr (map LitResourceAbilityRequest_toJSON resourceAbilityRequests));
   ("capabilities", JArr (map AuthSig_toJSON capabilities));
   ("issuedAt", JStr issuedAt);
   ("expiration", JStr sessionExpiration)].

(** [{ ...signingTemplate, nodeAddress }] *)
Definition toSign_of (template : list (string * JsVal)) (nodeAddress : string) : JsVal :=
  JObj (props_set "nodeAddress" (JStr nodeAddress) template).

(** The properties of the object that is signed for a node. *)
Definition template_keys : list string :=
  ["sessionKey"; "resourceAbilityRequests"; "capabilities"; "issuedAt"; "expiration";
   "nodeAddress"].

(** The session signature made for one node in the [forEach] over the
    connected nodes. *)
Definition sessionSig_of `{Externals} (sessionKey : SessionKeyPair)
    (template : list (string * JsVal)) (nodeAddress : string) : AuthSig :=
  let toSign := toSign_of template nodeAddress in
  let signedMessage := JSON_stringify toSign in
  let signature := nacl_sign_detached signedMessage (secretKey sessionKey) in
  {| sig := signature;
     derivedVia := "litSessionSignViaNacl";
     signedMessage := signedMessage;
     address := publicKey sessionKey;
     algo := Some "ed25519" |}.

(** The body of that [forEach]: [signatures[nodeAddress] = ...]. *)
Definition sign_for_node `{Externals} (sessionKey : SessionKeyPair)
    (template : list (string * JsVal))
    (signatures : gmap string AuthSig) (nodeAddress : string) : gmap string AuthSig :=
  <[nodeAddress := sessionSig_of sessionKey template nodeAddress]> signatures.

(** The parameters of the second callback round of [getSessionSigs]. *)
Definition resign_params `{Externals} (params : GetSessionSigsProps)
    (sessionCapabilityObject : RecapSessionCapabilityObject)
    (expiration : string) (sessionKey : SessionKeyPair) (sessionKeyUri nonce : string)
  : AuthCallbackParams :=
  {| cb_chain := or_else (p_chain params) "ethereum";
     cb_statement := Some (statement sessionCapabilityObject);
     cb_resources := Some [encodeAsSiweResource sessionCapabilityObject];
     cb_switchChain := p_switchChain params;
     cb_expiration := Some expiration;
     cb_uri := Some sessionKeyUri;
     cb_sessionKey := Some sessionKey;
     cb_nonce := nonce;
     cb_resourceAbilityRequests := Some (p_resourceAbilityRequests params);
     cb_litActionCode := keep_truthy_string (p_litActionCode params);
     cb_litActionIpfsId := keep_truthy_string (p_litActionIpfsId params);
     cb_jsParams := p_jsParams params |}.

Definition walletSig_is_blank (authSig : AuthSig) : bool :=
  String.eqb (address authSig) ""
  || String.eqb (derivedVia authSig) ""
  || String.eqb (sig authSig) ""
  || String.eqb (signedMessage authSig) "".

(** [params.sessionKey ?? this.getSessionKey()] *)
Definition sessionKey_source `{Externals} (params : GetSessionSigsProps) : M SessionKeyPair :=
  match p_sessionKey params with
  | Some k => ret k
  | None => getSessionKey
  end.

(** [getSessionSigs] *)
Definition getSessionSigs `{Externals} (this : LitNodeClientNodeJs)
    (params : GetSessionSigsProps) : M (gmap string AuthSig) :=
  sessionKey <- sessionKey_source params ;;
  let sessionKeyUri := getSessionKeyUri (publicKey sessionKey) in
  let sessionCapabilityObject := sessionCapabilityObject_of params in
  expiration <- match keep_truthy_string (p_expiration params) with
                | Some e => ret e
                | None => getExpiration
                end ;;
  nonce <- match keep_truthy_string (latestBlockhash this) with
           | Some h => ret h
           | None => throw (LitError INVALID_ETH_BLOCKHASH "Eth Blockhash is undefined.")
           end ;;
  authSig <- getWalletSig this
               {| ws_authNeededCallback := p_authNeededCallback params;
                  ws_chain := or_else (p_chain params) "ethereum";
                  ws_sessionCapabilityObject := sessionCapabilityObject;
                  ws_switchChain := p_switchChain params;
                  ws_expiration := expiration;
                  ws_sessionKeyUri := sessionKeyUri;
                  ws_nonce := nonce;
                  ws_resourceAbilityRequests := Some (p_resourceAbilityRequests params);
                  ws_litActionCode := keep_truthy_string (p_litActionCode params);
                  ws_litActionIpfsId := keep_truthy_string (p_litActionIpfsId params);
                  ws_jsParams := p_jsParams params;
                  ws_sessionKey := sessionKey |} ;;
  match authSig with
  | None =>
      (* the check reads [authSig.signedMessage] of [undefined] *)
      throw TypeError
  | Some walletSig =>
      needToResignSessionKey <-
        lift (checkNeedToResignSessionKey walletSig sessionKeyUri
                (p_resourceAbilityRequests params)) ;;
      authSig <- (if needToResignSessionKey : bool
                  then authCallbackAndUpdateStorageItem this
                         (resign_params params sessionCapabilityObject expiration
                            sessionKey sessionKeyUri nonce)
                         (p_authNeededCallback params)
                  else ret walletSig) ;;
      if walletSig_is_blank authSig
      then throw (LitError WALLET_SIGNATURE_NOT_FOUND_ERROR "No wallet signature found")
      else
        (* [expiration ?? new Date(Date.now() + 1000 * 60 * 5).toISOString()],
           where [expiration] is a string *)
        sessionExpiration <-
          nullish_else (Some expiration)
            (now <- Date_now ;; ret (toISOString (now + five_minutes_ms))) ;;
        let capabilities :=
          match p_capacityDelegationAuthSig params with
          | Some capacityDelegationAuthSig =>
              nullish (p_capabilityAuthSigs params) []
                ++ [capacityDelegationAuthSig; authSig]
          | None => nullish (p_capabilityAuthSigs params) [] ++ [authSig]
          end in
        issuedAt <- Date_now ;;
        let template :=
          signingTemplate sessionKey (p_resourceAbilityRequests params) capabilities
            (toISOString issuedAt) sessionExpiration in
        ret (fold_left (sign_for_node sessionKey template) (connectedNodes this) ∅)
  end.

(** ** Targeted execution *)

Record JsonExecutionSdkParamsTargetNode := mkTargetParams {
  tn_code : option string;
  tn_ipfsId : option string;
  tn_jsParams : option JsVal;
  tn_sessionSigs : gmap string AuthSig;
  tn_targetNodeRange : Z;
}.

Definition SessionSigsMap_toJSON (sigs : gmap string AuthSig) : JsVal :=
  JObj (map (fun kv => (fst kv, AuthSig_toJSON (snd kv))) (map_to_list sigs)).

(** The caller's [params] object, with the properties it was given. *)
Definition params_props (params : JsonExecutionSdkParamsTargetNode)
  : list (string * JsVal) :=
  opt_prop "code" (JStr <$> tn_code params)
  ++ opt_prop "ipfsId" (JStr <$> tn_ipfsId params)
  ++ opt_prop "jsParams" (tn_jsParams params)
  ++ [("sessionSigs", SessionSigsMap_toJSON (tn_sessionSigs params));
      ("targetNodeRange", JNum (tn_targetNodeRange params))].

(** [{ ...params, targetNodeRange: params.targetNodeRange, authSig: sessionSig }] *)
Definition reqBody_of (params : JsonExecutionSdkParamsTargetNode) (sessionSig : AuthSig)
  : JsVal :=
  JObj (props_set "authSig" (AuthSig_toJSON sessionSig)
          (props_set "targetNodeRange" (JNum (tn_targetNodeRange params))
             (params_props params))).

(** Modelled from the spec: [_getSessionSigByUrl] (package core) is missing
    from the sources. It yields [sessionSigs[url]] and fails with
    WalletSignatureNotFound when there is none. *)
Definition _getSessionSigByUrl (sessionSigs : gmap string AuthSig) (url : string)
  : M AuthSig :=
  match sessionSigs !! url with
  | Some s => ret s
  | None => throw (LitError WALLET_SIGNATURE_NOT_FOUND_ERROR
                     "could not find session sig for node")
  end.

(** Modelled from the spec: [_sendCommandToNode] (package core) is missing
    from the sources. It posts [data] to [url] under [requestId]; here the
    command is recorded as sent. *)
Definition _sendCommandToNode (c : NodeCommand) : M unit :=
  fun w => (Ok tt,
            mkWorld (localStorage w) (clock w) (ticks w) (entropy w) (sent w ++ [c])).

(** [Array.prototype.includes] on the selected indexes. *)
Definition includes (x : Z) (l : list Z) : bool := existsb (Z.eqb x) l.

(** The hashing collaborators of [runOnTargetedNodes] (ethers): [sha256] of
    the UTF-8 bytes of a string as a hex string, and [BigNumber.from] of
    that hex string. *)
Class Hashing := {
  sha256 : string -> string;
  BigNumber_from : string -> Z;
}.

(** The index computed for one value of [nodeCounter]. *)
Definition nodeIndex_of `{Hashing} (ipfsId : string) (length_bootstrapUrls : Z)
    (nodeCounter : nat) : Z :=
  let str := pretty nodeCounter +:+ ":" +:+ ipfsId in
  let hash := sha256 str in
  let hashAsNumber := BigNumber_from hash in
  (hashAsNumber mod length_bootstrapUrls)%Z.

(** The body of the [while] loop of [runOnTargetedNodes], on the selected
    indexes: the index is pushed when it is new and below the number of
    URLs. *)
Definition select_step `{Hashing} (ipfsId : string) (length_bootstrapUrls : Z)
    (randomSelectedNodeIndexes : list Z) (nodeCounter : nat) : list Z :=
  let nodeIndex := nodeIndex_of ipfsId length_bootstrapUrls nodeCounter in
  if negb (includes nodeIndex randomSelectedNodeIndexes)
     && (nodeIndex <? length_bootstrapUrls)%Z
  then randomSelectedNodeIndexes ++ [nodeIndex]
  else randomSelectedNodeIndexes.

(** The [while] loop itself; [fuel] bounds the number of iterations, and
    [None] means that the bound was reached. *)
Fixpoint select_loop `{Hashing} (fuel : nat) (ipfsId : string)
    (length_bootstrapUrls targetNodeRange : Z)
    (randomSelectedNodeIndexes : list Z) (nodeCounter : nat) : option (list Z) :=
  if (Z.of_nat (length randomSelectedNodeIndexes) <? targetNodeRange)%Z then
    match fuel with
    | O => None
    | S fuel' =>
        select_loop fuel' ipfsId length_bootstrapUrls targetNodeRange
          (select_step ipfsId length_bootstrapUrls randomSelectedNodeIndexes nodeCounter)
          (S nodeCounter)
    end
  else Some randomSelectedNodeIndexes.

(** The selection of [runOnTargetedNodes]: [BigNumber.mod] raises on a zero
    divisor, so an empty URL list fails at the first iteration. *)
Definition selectNodeIndexes `{Hashing} (fuel : nat) (this : LitNodeClientNodeJs)
    (ipfsId : string) (targetNodeRange : Z) : option (Res (list Z)) :=
  let n := Z.of_nat (length (bootstrapUrls this)) in
  if (0 <? targetNodeRange)%Z && (n =? 0)%Z
  then Some (Throw (Error "division-by-zero"))
  else Ok <$> select_loop fuel ipfsId n targetNodeRange [] 0.

(** The [for] loop of the wrapper in [runOnTargetedNodes]: one command per
    selected index. *)
Fixpoint targeted_node_promises (this : LitNodeClientNodeJs)
    (params : JsonExecutionSdkParamsTargetNode) (id : string)
    (randomSelectedNodeIndexes : list Z) : M unit :=
  match randomSelectedNodeIndexes with
  | [] => ret tt
  | nodeIndex :: rest =>
      match bootstrapUrls this !! Z.to_nat nodeIndex with
      | None => throw (LitError WALLET_SIGNATURE_NOT_FOUND_ERROR
                         "could not find session sig for node")
      | Some url =>
          sessionSig <- _getSessionSigByUrl (tn_sessionSigs params) url ;;
          let reqBody := reqBody_of params sessionSig in
          _sendCommandToNode {| cmd_url := url;
                                cmd_data := JObj (params_props params);
                                cmd_requestId := id |} ;;;
          targeted_node_promises this params id rest
      end
  end.

(** [runOnTargetedNodes] from the guard on [targetNodeRange] to the commands
    of the first attempt, given the [ipfsId] that [getIpfsId] returned. *)
Definition runOnTargetedNodes `{Hashing} (fuel : nat) (this : LitNodeClientNodeJs)
    (params : JsonExecutionSdkParamsTargetNode) (ipfsId id : string)
  : option (M unit) :=
  if (tn_targetNodeRange params =? 0)%Z
  then Some (throw (LitError INVALID_PARAM_TYPE "targetNodeRange is required"))
  else
    match selectNodeIndexes fuel this ipfsId (tn_targetNodeRange params) with
    | None => None
    | Some (Throw e) => Some (throw e)
    | Some (Ok randomSelectedNodeIndexes) =>
        Some (targeted_node_promises this params id randomSelectedNodeIndexes)
    end.

(** ** Share validation of [signSessionKey] *)

Definition truthy (v : option JsVal) : bool :=
  match v with
  | None => false
  | Some JNull => false
  | Some (JBool b) => b
  | Some (JNum n) => negb (n =? 0)%Z
  | Some (JStr s) => negb (String.eqb s "")
  | Some (JArr _) => true
  | Some (JObj _) => true
  end.

Definition is_empty_string (v : option JsVal) : bool :=
  match v with
  | Some (JStr s) => String.eqb s ""
  | _ => false
  end.

(** Property read [v.key] on any value, for a key that no prototype
    defines: [undefined] and [null] raise, a primitive or an array has no
    such property. *)
Definition get_property (key : string) (v : option JsVal) : Res (option JsVal) :=
  match v with
  | None | Some JNull => Throw TypeError
  | Some o => Ok (obj_get key o)
  end.

Definition requiredFields : list string :=
  ["signatureShare"; "curveType"; "shareIndex"; "siweMessage"; "dataSigned";
   "blsRootPubkey"; "result"].

(** The inner [for] loop, with its test [!data[key] || data[key] === '']:
    [true] when some required field is missing. Reading a field of a
    response that is [null] raises. *)
Fixpoint some_field_missing (data : JsVal) (fields : list string) : Res bool :=
  match fields with
  | [] => Ok false
  | field :: rest =>
      match get_property field (Some data) with
      | Throw e => Throw e
      | Ok value =>
          if negb (truthy value) || is_empty_string value
          then Ok true
          else some_field_missing data rest
      end
  end.

(** [data.signatureShare.ProofOfPossession], read once [signatureShare] is
    known to be truthy. *)
Definition has_ProofOfPossession (data : JsVal) : bool :=
  truthy (match obj_get "signatureShare" data with
          | Some share => obj_get "ProofOfPossession" share
          | None => None
          end).

(** A name between double quotes, as the messages of [signSessionKey] have
    it. *)
Definition dquoted (name : string) : string :=
  String dquote (name +:+ String dquote EmptyString).

Definition ProofOfPossession_is_missing : string :=
  "[signSessionKey] Invalid signed data. " +:+ dquoted "ProofOfPossession" +:+ " is missing.".

Definition not_enough_nodes (minNodeCount validated : Z) : string :=
  "[signSessionKey] not enough nodes signed the session key.  Expected "
  +:+ pretty minNodeCount +:+ ", got " +:+ pretty validated.

(** The callback of the second [responseData.map]: [null] for a dropped
    response, the response itself when it is kept, an exception when its
    share carries no [ProofOfPossession]. *)
Definition validate_response (data : JsVal) : Res (option JsVal) :=
  match some_field_missing data requiredFields with
  | Throw e => Throw e
  | Ok true => Ok None
  | Ok false =>
      if negb (has_ProofOfPossession data)
      then Throw (Error ProofOfPossession_is_missing)
      else Ok (Some data)
  end.

(** [Array.prototype.map] with a callback that may raise. *)
Fixpoint map_res {A B : Type} (f : A -> Res B) (l : list A) : Res (list B) :=
  match l with
  | [] => Ok []
  | x :: rest =>
      match f x with
      | Throw e => Throw e
      | Ok y =>
          match map_res f rest with
          | Throw e => Throw e
          | Ok ys => Ok (y :: ys)
          end
      end
  end.

(** [.filter((item) => item !== null)] *)
Definition filter_not_null {A : Type} (l : list (option A)) : list A :=
  omap (fun x => x) l.

(** [signSessionKey] from the list of the signed data of the responses to
    the check of the number of validated shares. *)
Definition validate_shares (this : LitNodeClientNodeJs) (responseData : list JsVal)
  : Res (list JsVal) :=
  match map_res (fun s => get_property "dataSigned" (Some s)) responseData with
  | Throw e => Throw e
  | Ok signedDataList =>
      if (Z.of_nat (length signedDataList) <=? 0)%Z
      then Throw (Error "[signSessionKey] signedDataList is empty.")
      else
        match map_res validate_response responseData with
        | Throw e => Throw e
        | Ok mapped =>
            let validatedSignedDataList := filter_not_null mapped in
            if (Z.of_nat (length validatedSignedDataList) <? minNodeCount this)%Z
            then Throw (Error (not_enough_nodes (minNodeCount this)
                                 (Z.of_nat (length validatedSignedDataList))))
            else Ok validatedSignedDataList
        end
  end.

(** A response that is [null]. *)
Definition is_null (data : JsVal) : bool :=
  match data with
  | JNull => true
  | _ => false
  end.

(** A response that the inner loop lets through: each required field is
    truthy. *)
Definition every_field_truthy (data : JsVal) : bool :=
  forallb (fun field => truthy (obj_get field data)) requiredFields.

(** The [capabilities] of [getSessionSigs]: the caller's capability
    signatures, the capacity delegation when there is one, then the wallet
    signature. *)
Definition capabilities_of (params : GetSessionSigsProps) (authSig : AuthSig) : list AuthSig :=
  match p_capacityDelegationAuthSig params with
  | Some capacityDelegationAuthSig =>
      nullish (p_capabilityAuthSigs params) [] ++ [capacityDelegationAuthSig; authSig]
  | None => nullish (p_capabilityAuthSigs params) [] ++ [authSig]
  end.

(** ** Other methods of the client *)

(** [typeof]; [None] is [undefined]. *)
Definition typeof (v : option JsVal) : string :=
  match v with
  | None => "undefined"
  | Some (JBool _) => "boolean"
  | Some (JNum _) => "number"
  | Some (JStr _) => "string"
  | Some JNull | Some (JArr _) | Some (JObj _) => "object"
  end.

(** [key in obj], for a key that is neither an index nor the name of
    something inherited: an own property of an object, nothing on an array,
    and a [TypeError] on what is not an object. *)
Definition in_operator (key : string) (obj : option JsVal) : Res bool :=
  match obj with
  | Some (JObj props) => Ok (bool_decide (is_Some (props_get key props)))
  | Some (JArr _) => Ok false
  | _ => Throw TypeError
  end.

(** [isSessionKeyPair]; the conjunction is evaluated from the left and stops
    at the first [false]. *)
Definition isSessionKeyPair (obj : option JsVal) : Res bool :=
  if negb (String.eqb (typeof obj) "object") then Ok false
  else
    match in_operator "publicKey" obj with
    | Throw e => Throw e
    | Ok false => Ok false
    | Ok true =>
        match in_operator "secretKey" obj with
        | Throw e => Throw e
        | Ok false => Ok false
        | Ok true =>
            if negb (String.eqb (typeof (obj ≫= obj_get "publicKey")) "string")
            then Ok false
            else Ok (String.eqb (typeof (obj ≫= obj_get "secretKey")) "string")
        end
    end.

(** A share of the BLS network signature, as [#combineSharesAndGetJWT] reads
    it. *)
Record NodeBlsSigningShare := mkNodeBlsSigningShare {
  shareIndex : Z;
  unsignedJwt : option string;
  signatureShare : JsVal;
}.

(** What [#combineSharesAndGetJWT] calls: the combiner of package crypto,
    [mostCommonString] of package misc and the two converters of package
    uint8arrays. *)
Class Combining := {
  combineSignatureShares : list JsVal -> string;
  mostCommonString : list (option string) -> option string;
  uint8arrayFromString : string -> string -> list Byte.byte;
  uint8arrayToString : list Byte.byte -> string -> string;
}.

(** One step of [signatureShares.sort((a, b) => a.shareIndex - b.shareIndex)]:
    [a] stood before every share of [sorted], and goes behind those that the
    comparator puts first (a positive difference); the sort is stable. *)
Fixpoint insert_share (a : NodeBlsSigningShare) (sorted : list NodeBlsSigningShare)
  : list NodeBlsSigningShare :=
  match sorted with
  | [] => [a]
  | b :: rest =>
      if (0 <? shareIndex a - shareIndex b)%Z
      then b :: insert_share a rest
      else a :: b :: rest
  end.

Definition sort_by_shareIndex (signatureShares : list NodeBlsSigningShare)
  : list NodeBlsSigningShare :=
  foldr insert_share [] signatureShares.

(** A value in a template literal. *)
Definition template_string (x : option string) : string :=
  match x with
  | Some s => s
  | None => "undefined"
  end.

(** [#combineSharesAndGetJWT]. The comparison of the unsigned JWTs at its
    head only writes to the log. *)
Definition combineSharesAndGetJWT `{Combining} (signatureShares : list NodeBlsSigningShare)
  : string :=
  let signatureShares := sort_by_shareIndex signatureShares in
  let signature := combineSignatureShares (map signatureShare signatureShares) in
  let unsignedJwt := mostCommonString (map unsignedJwt signatureShares) in
  template_string unsignedJwt +:+ "."
    +:+ uint8arrayToString (uint8arrayFromString signature "base16") "base64urlpad".

(** [JSON.parse]; [None] when it raises. *)
Class Json := {
  JSON_parse : string -> option JsVal;
}.

(** [getIpfsId], from the [response] of the result of [executeJs] on. *)
Definition getIpfsId_of_response `{Json} (response : option JsVal) : Res (option JsVal) :=
  let data :=
    match response with
    | Some (JStr s) =>
        (* try { data = JSON.parse(res.response).res } catch { data = res.response } *)
        match JSON_parse s with
        | None => response
        | Some parsed =>
            match get_property "res" (Some parsed) with
            | Throw _ => response
            | Ok res => res
            end
        end
    | _ => None
    end in
  match get_property "success" data with
  | Throw e => Throw e
  | Ok _success => get_property "data" data
  end.

(** The parameters of [getPkpSessionSigs]: those of [getSessionSigs], the
    public key of the PKP and the auth methods. *)
Record GetPkpSessionSigs := mkGetPkpSessionSigs {
  pkp_sessionSigsProps : GetSessionSigsProps;
  pkp_pkpPublicKey : string;
  pkp_authMethods : option (list JsVal);
}.

(** The request that the callback of [getPkpSessionSigs] hands to
    [signSessionKey]. *)
Record SignSessionKeyProp := mkSignSessionKeyProp {
  ssk_sessionKey : option SessionKeyPair;
  ssk_statement : string;
  ssk_authMethods : list JsVal;
  ssk_pkpPublicKey : string;
  ssk_expiration : string;
  ssk_resources : list string;
  ssk_chainId : Z;
  ssk_resourceAbilityRequests : list LitResourceAbilityRequest;
  ssk_litActionCode : option string;
  ssk_litActionIpfsId : option string;
  ssk_jsParams : option JsVal;
}.

(** [signSessionKey] as [getPkpSessionSigs] uses it: a request to the
    nodes that yields the [authSig] of the response, or raises. *)
Class SessionKeySigner := {
  signSessionKey : LitNodeClientNodeJs -> SignSessionKeyProp -> M AuthSig;
}.

(** The [authNeededCallback] that [getPkpSessionSigs] installs. *)
Definition getPkpSessionSigs_callback `{SessionKeySigner} (this : LitNodeClientNodeJs)
    (params : GetPkpSessionSigs) : AuthCallback :=
  fun props =>
    match keep_truthy_string (cb_expiration props) with
    | None => throw (Error "[getPkpSessionSigs/callback] expiration is required")
    | Some expiration =>
        match cb_resources props with
        | None => throw (Error "[getPkpSessionSigs/callback]resources is required")
        | Some resources =>
            match cb_resourceAbilityRequests props with
            | None =>
                throw (Error "[getPkpSessionSigs/callback]resourceAbilityRequests is required")
            | Some resourceAbilityRequests =>
                if truthy_string (cb_litActionCode props)
                   && truthy_string (cb_litActionIpfsId props)
                then throw (Error "[getPkpSessionSigs/callback]litActionCode and litActionIpfsId cannot exist at the same time")
                else
                  let authMethods := nullish (pkp_authMethods params) [] in
                  signSessionKey this
                    {| ssk_sessionKey := cb_sessionKey props;
                       ssk_statement := or_else (cb_statement props) "Some custom statement.";
                       ssk_authMethods := authMethods;
                       ssk_pkpPublicKey := pkp_pkpPublicKey params;
                       ssk_expiration := expiration;
                       ssk_resources := resources;
                       ssk_chainId := 1;
                       ssk_resourceAbilityRequests := resourceAbilityRequests;
                       ssk_litActionCode := keep_truthy_string (cb_litActionCode props);
                       ssk_litActionIpfsId := keep_truthy_string (cb_litActionIpfsId props);
                       ssk_jsParams := if truthy (cb_jsParams props)
                                       then cb_jsParams props else None |}
            end
        end
    end.

(** The parameters of [getSessionSigs] with another callback. *)
Definition with_authNeededCallback (params : GetSessionSigsProps)
    (authNeededCallback : option AuthCallback) : GetSessionSigsProps :=
  {| p_sessionKey := p_sessionKey params;
     p_sessionCapabilityObject := p_sessionCapabilityObject params;
     p_resourceAbilityRequests := p_resourceAbilityRequests params;
     p_expiration := p_expiration params;
     p_authNeededCallback := authNeededCallback;
     p_chain := p_chain params;
     p_switchChain := p_switchChain params;
     p_litActionCode := p_litActionCode params;
     p_litActionIpfsId := p_litActionIpfsId params;
     p_jsParams := p_jsParams params;
     p_capabilityAuthSigs := p_capabilityAuthSigs params;
     p_capacityDelegationAuthSig := p_capacityDelegationAuthSig params |}.

(** The parameters of [getSessionSigs] with another chain. *)
Definition with_chain (params : GetSessionSigsProps) (chain : option string)
  : GetSessionSigsProps :=
  {| p_sessionKey := p_sessionKey params;
     p_sessionCapabilityObject := p_sessionCapabilityObject params;
     p_resourceAbilityRequests := p_resourceAbilityRequests params;
     p_expiration := p_expiration params;
     p_authNeededCallback := p_authNeededCallback params;
     p_chain := chain;
     p_switchChain := p_switchChain params;
     p_litActionCode := p_litActionCode params;
     p_litActionIpfsId := p_litActionIpfsId params;
     p_jsParams := p_jsParams params;
     p_capabilityAuthSigs := p_capabilityAuthSigs params;
     p_capacityDelegationAuthSig := p_capacityDelegationAuthSig params |}.

(** The three messages of the guards that open the callback of
    [getPkpSessionSigs]. *)
Definition callback_guard_errors : list Exn :=
  [Error "[getPkpSessionSigs/callback] expiration is required";
   Error "[getPkpSessionSigs/callback]resources is required";
   Error "[getPkpSessionSigs/callback]resourceAbilityRequests is required"].

(** [getPkpSessionSigs] *)
Definition getPkpSessionSigs `{Externals} `{SessionKeySigner} (this : LitNodeClientNodeJs)
    (params : GetPkpSessionSigs) : M (gmap string AuthSig) :=
  let chain := or_else (p_chain (pkp_sessionSigsProps params)) "ethereum" in
  (* [{ chain, ...params, authNeededCallback }]: the computed [chain] stands
     only where the caller gave none *)
  getSessionSigs this
    (with_authNeededCallback
       (with_chain (pkp_sessionSigsProps params)
          (Some (nullish (p_chain (pkp_sessionSigsProps params)) chain)))
       (Some (getPkpSessionSigs_callback this params))).

(** [getLitActionSessionSigs] *)
Definition getLitActionSessionSigs `{Externals} `{SessionKeySigner}
    (this : LitNodeClientNodeJs) (params : GetPkpSessionSigs)
  : M (gmap string AuthSig) :=
  let props := pkp_sessionSigsProps params in
  if negb (truthy_string (p_litActionCode props))
     && negb (truthy_string (p_litActionIpfsId props))
  then throw (Error "Either 'litActionCode' or 'litActionIpfsId' must be provided.")
  else if negb (truthy (p_jsParams props))
  then throw (Error "'jsParams' is required.")
  else getPkpSessionSigs this params.

(** ** Reference implementations of two collaborators

    SHA-256 (FIPS 180-4) as computed by [sha256] of ethers, and the ISO-8601
    formatting of [Date.prototype.toISOString]. They instantiate the
    collaborators when the definitions are run on concrete inputs. *)

Module SHA256.

Definition w32 (x : Z) : Z := (x mod 4294967296)%Z.
Definition rotr (n x : Z) : Z := Z.lor (Z.shiftr x n) (w32 (Z.shiftl x (32 - n))).
Definition Ch (x y z : Z) : Z := Z.lxor (Z.land x y) (Z.land (Z.lxor x 4294967295) z).
Definition Maj (x y z : Z) : Z := Z.lxor (Z.lxor (Z.land x y) (Z.land x z)) (Z.land y z).
Definition bigSigma0 (x : Z) : Z := Z.lxor (Z.lxor (rotr 2 x) (rotr 13 x)) (rotr 22 x).
Definition bigSigma1 (x : Z) : Z := Z.lxor (Z.lxor (rotr 6 x) (rotr 11 x)) (rotr 25 x).
Definition smallSigma0 (x : Z) : Z := Z.lxor (Z.lxor (rotr 7 x) (rotr 18 x)) (Z.shiftr x 3).
Definition smallSigma1 (x : Z) : Z := Z.lxor (Z.lxor (rotr 17 x) (rotr 19 x)) (Z.shiftr x 10).

(** The round constants: the first 32 bits of the fractional parts of the
    cube roots of the first 64 primes. *)
Definition K : list Z :=
  [
   1116352408; 1899447441; 3049323471; 3921009573;
   961987163; 1508970993; 2453635748; 2870763221;
   3624381080; 310598401; 607225278; 1426881987;
   1925078388; 2162078206; 2614888103; 3248222580;
   3835390401; 4022224774; 264347078; 604807628;
   770255983; 1249150122; 1555081692; 1996064986;
   2554220882; 2821834349; 2952996808; 3210313671;
   3336571891; 3584528711; 113926993; 338241895;
   666307205; 773529912; 1294757372; 1396182291;
   1695183700; 1986661051; 2177026350; 2456956037;
   2730485921; 2820302411; 3259730800; 3345764771;
   3516065817; 3600352804; 4094571909; 275423344;
   430227734; 506948616; 659060556; 883997877;
   958139571; 1322822218; 1537002063; 1747873779;
   1955562222; 2024104815; 2227730452; 2361852424;
   2428436474; 2756734187; 3204031479; 3329325298
  ]%Z.

(** The initial hash value: the same of the square roots of the first 8
    primes. *)
Definition H0 : list Z :=
  [
   1779033703; 3144134277; 1013904242; 2773480762;
   1359893119; 2600822924; 528734635; 1541459225
  ]%Z.

Definition bytes_of_string (s : string) : list Z :=
  map (fun c => Z.of_nat (nat_of_ascii c)) (String.list_ascii_of_string s).

Definition be_bytes (n : nat) (x : Z) : list Z :=
  map (fun i => (Z.shiftr x (8 * Z.of_nat i) mod 256)%Z) (rev (seq 0 n)).

Definition pad (msg : list Z) : list Z :=
  let l := Z.of_nat (length msg) in
  msg ++ [128%Z] ++ repeat 0%Z (Z.to_nat ((55 - l) mod 64)) ++ be_bytes 8 (8 * l).

Fixpoint to_words (bs : list Z) : list Z :=
  match bs with
  | a :: b :: c :: d :: rest => (((a * 256 + b) * 256 + c) * 256 + d)%Z :: to_words rest
  | _ => []
  end.

Fixpoint blocks (fuel : nat) (ws : list Z) : list (list Z) :=
  match fuel with
  | O => []
  | S fuel' =>
      match ws with
      | [] => []
      | _ => take 16 ws :: blocks fuel' (drop 16 ws)
      end
  end.

Fixpoint schedule (t : nat) (w : list Z) : list Z :=
  match t with
  | O => w
  | S t' =>
      let i := length w in
      schedule t'
        (w ++ [w32 (smallSigma1 (nth (i - 2) w 0) + nth (i - 7) w 0
                    + smallSigma0 (nth (i - 15) w 0) + nth (i - 16) w 0)%Z])
  end.

Definition round (st : list Z) (kw : Z * Z) : list Z :=
  match st with
  | [a; b; c; d; e; f; g; h] =>
      let t1 := (h + bigSigma1 e + Ch e f g + fst kw + snd kw)%Z in
      let t2 := (bigSigma0 a + Maj a b c)%Z in
      [w32 (t1 + t2); a; b; c; w32 (d + t1); e; f; g]
  | _ => st
  end.

Definition compress (h : list Z) (block : list Z) : list Z :=
  let st := fold_left round (combine K (schedule 48 block)) h in
  map (fun p => w32 (fst p + snd p)) (combine h st).

Definition digest (msg : list Z) : list Z :=
  let ws := to_words (pad msg) in
  fold_left compress (blocks (length ws) ws) H0.

Definition hex_byte (b : Z) : string :=
  String (hex_digit (Z.to_nat (b / 16))) (String (hex_digit (Z.to_nat (b mod 16))) EmptyString).

Definition hex_word (w : Z) : string :=
  String.concat "" (map hex_byte (be_bytes 4 w)).

(** [sha256] of ethers: the digest of the bytes as a 0x-prefixed hex string. *)
Definition sha256_hex (s : string) : string :=
  "0x" +:+ String.concat "" (map hex_word (digest (bytes_of_string s))).

Definition hex_value (c : ascii) : Z :=
  let n := Z.of_nat (nat_of_ascii c) in
  if (48 <=? n)%Z && (n <=? 57)%Z then (n - 48)%Z
  else if (97 <=? n)%Z && (n <=? 102)%Z then (n - 87)%Z
  else if (65 <=? n)%Z && (n <=? 70)%Z then (n - 55)%Z
  else 0%Z.

Fixpoint hex_to_Z (acc : Z) (s : string) : Z :=
  match s with
  | EmptyString => acc
  | String c rest => hex_to_Z (acc * 16 + hex_value c)%Z rest
  end.

(** [BigNumber.from] on a 0x-prefixed hex string. *)
Definition BigNumber_from_hex (s : string) : Z :=
  match s with
  | String _ (String _ digits) => hex_to_Z 0 digits
  | _ => 0%Z
  end.

End SHA256.

Module ISODate.

Fixpoint zeros (n : nat) : string :=
  match n with
  | O => EmptyString
  | S n' => String "0" (zeros n')
  end.

Definition pad_left (width : nat) (n : Z) : string :=
  let s := pretty (Z.to_nat n) in
  zeros (width - String.length s) +:+ s.

(** Civil date of a day number counted from 1970-01-01 (proleptic Gregorian
    calendar). *)
Definition civil_from_days (days : Z) : Z * Z * Z :=
  let z := (days + 719468)%Z in
  let era := (z / 146097)%Z in
  let doe := (z mod 146097)%Z in
  let yoe := ((doe - doe / 1460 + doe / 36524 - doe / 146096) / 365)%Z in
  let doy := (doe - (365 * yoe + yoe / 4 - yoe / 100))%Z in
  let mp := ((5 * doy + 2) / 153)%Z in
  let d := (doy - (153 * mp + 2) / 5 + 1)%Z in
  let m := (if (mp <? 10)%Z then mp + 3 else mp - 9)%Z in
  let y := (yoe + era * 400 + (if (m <=? 2)%Z then 1 else 0))%Z in
  (y, m, d).

Definition year_string (y : Z) : string :=
  if (0 <=? y)%Z && (y <=? 9999)%Z then pad_left 4 y
  else if (y <? 0)%Z then "-" +:+ pad_left 6 (- y)
  else "+" +:+ pad_left 6 y.

(** [new Date(ms).toISOString()] *)
Definition toISOString (ms : Z) : string :=
  let '(y, m, d) := civil_from_days (ms / 86400000) in
  let t := (ms mod 86400000)%Z in
  year_string y +:+ "-" +:+ pad_left 2 m +:+ "-" +:+ pad_left 2 d
  +:+ "T" +:+ pad_left 2 (t / 3600000)
  +:+ ":" +:+ pad_left 2 (t / 60000 mod 60)
  +:+ ":" +:+ pad_left 2 (t / 1000 mod 60)
  +:+ "." +:+ pad_left 3 (t mod 1000) +:+ "Z".

End ISODate.

(** ** The statements of the specification, as definitions *)

(** The four staleness conditions of the re-sign predicate, in the words of
    the specification, read on the SIWE message [m] of the AuthSig. *)
Definition fails_signature_verification `{Externals} (m : SiweMessage) (authSig : AuthSig)
  : Prop :=
  SiweMessage_validate m (sig authSig) = false.

(** The first condition, read on the AuthSig itself: its signature verifies
    when its signed message is a SIWE message that validates the signature. *)
Definition verifies `{Externals} (authSig : AuthSig) : Prop :=
  exists m,
    SiweMessage_new (signedMessage authSig) = Some m
    /\ SiweMessage_validate m (sig authSig) = true.

Definition uri_differs (m : SiweMessage) (sessionKeyUri : string) : Prop :=
  siwe_uri m <> sessionKeyUri.

Definition resources_missing_or_empty (m : SiweMessage) : Prop :=
  siwe_resources m = None \/ siwe_resources m = Some [].

Definition capability_fails_a_request `{Externals} (m : SiweMessage)
    (resourceAbilityRequests : list LitResourceAbilityRequest) : Prop :=
  exists first rest cap request,
    siwe_resources m = Some (first :: rest)
    /\ decode first = Some cap
    /\ request ∈ resourceAbilityRequests
    /\ verifyCapabilitiesForResource cap (resource request) (ability request) = false.

Definition spec_needToResign `{Externals} (m : SiweMessage) (authSig : AuthSig)
    (sessionKeyUri : string) (resourceAbilityRequests : list LitResourceAbilityRequest)
  : Prop :=
  fails_signature_verification m authSig
  \/ uri_differs m sessionKeyUri
  \/ resources_missing_or_empty m
  \/ capability_fails_a_request m resourceAbilityRequests.

(** The selection of the targeted nodes, in the words of the specification:
    for [c = 0, 1, 2, ...] let [h = SHA-256(str(c) + ":" + ipfsId)] and
    [idx = bigint(h) mod |U|]; keep [idx] if unseen; stop when [k] unique
    indices are selected. *)
Definition spec_index `{Hashing} (ipfsId : string) (n : Z) (c : nat) : Z :=
  (BigNumber_from (sha256 (pretty c +:+ ":" +:+ ipfsId)) mod n)%Z.

Inductive spec_selection `{Hashing} (ipfsId : string) (n k : Z)
  : nat -> list Z -> list Z -> Prop :=
| spec_stop (c : nat) (kept : list Z) :
    Z.of_nat (length kept) = k ->
    spec_selection ipfsId n k c kept kept
| spec_keep (c : nat) (kept selected : list Z) :
    (Z.of_nat (length kept) < k)%Z ->
    spec_index ipfsId n c ∉ kept ->
    spec_selection ipfsId n k (S c) (kept ++ [spec_index ipfsId n c]) selected ->
    spec_selection ipfsId n k c kept selected
| spec_skip (c : nat) (kept selected : list Z) :
    (Z.of_nat (length kept) < k)%Z ->
    spec_index ipfsId n c ∈ kept ->
    spec_selection ipfsId n k (S c) kept selected ->
    spec_selection ipfsId n k c kept selected.

(** How many different indices the counters below [bound] produce. *)
Definition distinct_indices `{Hashing} (ipfsId : string) (n : Z) (bound : nat) : nat :=
  length (remove_dups (map (spec_index ipfsId n) (seq 0 bound))).

(** A required field is missing from a response, in the words of the
    specification: the response has no such property, or an empty one
    ([null] or the empty string). *)
Definition field_missing (value : option JsVal) : bool :=
  match value with
  | None | Some JNull => true
  | Some (JStr s) => String.eqb s ""
  | Some _ => false
  end.

(** A response that no required field is missing from. *)
Definition is_complete (data : JsVal) : bool :=
  forallb (fun field => negb (field_missing (obj_get field data))) requiredFields.

(** A response as the nodes are declared to send it: an object in which no
    required field is the number 0 or [false]. *)
Definition is_object (data : JsVal) : bool :=
  match data with
  | JObj _ => true
  | _ => false
  end.

Definition neither_zero_nor_false (value : option JsVal) : bool :=
  match value with
  | Some (JNum n) => negb (n =? 0)%Z
  | Some (JBool b) => b
  | _ => true
  end.

Definition as_declared (data : JsVal) : bool :=
  is_object data
  && forallb (fun field => neither_zero_nor_false (obj_get field data)) requiredFields.

(** What is left of [getSessionSigs] once the session key is there and the
    stored wallet signature needs no renewal. *)
Definition session_from_stored `{Externals} (this : LitNodeClientNodeJs)
    (params : GetSessionSigsProps) (sessionKey : SessionKeyPair) (walletSig : AuthSig)
  : M (gmap string AuthSig) :=
  expiration <- match keep_truthy_string (p_expiration params) with
                | Some e => ret e
                | None => getExpiration
                end ;;
  nonce <- match keep_truthy_string (latestBlockhash this) with
           | Some h => ret h
           | None => throw (LitError INVALID_ETH_BLOCKHASH "Eth Blockhash is undefined.")
           end ;;
  if walletSig_is_blank walletSig
  then throw (LitError WALLET_SIGNATURE_NOT_FOUND_ERROR "No wallet signature found")
  else
    issuedAt <- Date_now ;;
    ret (fold_left
           (sign_for_node sessionKey
              (signingTemplate sessionKey (p_resourceAbilityRequests params)
                 (capabilities_of params walletSig) (toISOString issuedAt) expiration))
           (connectedNodes this) ∅).

(** What the bodies that [getSessionSigs] hands to the caller's callback
    have in common, in the first round and in the second. *)
Definition callback_body_of `{Externals} (params : GetSessionSigsProps)
    (props : AuthCallbackParams) : Prop :=
  cb_chain props = or_else (p_chain params) "ethereum"
  /\ cb_statement props = Some (statement (sessionCapabilityObject_of params))
  /\ cb_resources props = Some [encodeAsSiweResource (sessionCapabilityObject_of params)]
  /\ (exists sessionKey,
        cb_sessionKey props = Some sessionKey
        /\ cb_uri props = Some (getSessionKeyUri (publicKey sessionKey)))
  /\ cb_resourceAbilityRequests props = Some (p_resourceAbilityRequests params)
  /\ cb_litActionCode props = keep_truthy_string (p_litActionCode params)
  /\ cb_litActionIpfsId props = keep_truthy_string (p_litActionIpfsId params)
  /\ cb_jsParams props = p_jsParams params
  /\ exists expiration,
       cb_expiration props = Some expiration
       /\ (keep_truthy_string (p_expiration params) = Some expiration
           \/ exists now, expiration = toISOString (now + day_ms)).

(** ** A concrete instance of the collaborators

    Small stand-ins with the interface of the real ones: a line-based reader
    of SIWE messages ([URI: ] and the [- ] lines after [Resources:]), a
    signature check that accepts one marker, a textual encoding of
    capability objects, parsers that recognise what the client itself wrote,
    and the reference SHA-256 and date formatter. *)

Module Demo.

Definition LF : ascii := Eval cbv in ascii_of_nat 10.

Fixpoint split_on_aux (sep : ascii) (cur s : string) : list string :=
  match s with
  | EmptyString => [cur]
  | String c rest =>
      if Ascii.eqb c sep then cur :: split_on_aux sep EmptyString rest
      else split_on_aux sep (cur +:+ String c EmptyString) rest
  end.

Definition split_on (sep : ascii) (s : string) : list string :=
  split_on_aux sep EmptyString s.

Definition strip_prefix (pre s : string) : option string :=
  if String.prefix pre s
  then Some (String.substring (String.length pre) (String.length s - String.length pre) s)
  else None.

Definition siwe_parse (text : string) : option SiweMessage :=
  let lines := split_on LF text in
  match omap (strip_prefix "URI: ") lines with
  | [] => None
  | uri :: _ =>
      Some {| siwe_uri := uri;
              siwe_resources :=
                if existsb (String.eqb "Resources:") lines
                then Some (omap (strip_prefix "- ") lines)
                else None |}
  end.

Definition siwe_validate (_ : SiweMessage) (signature : string) : bool :=
  String.eqb signature "0xgood".

Definition ability_name (a : LitAbility) : string :=
  match a with
  | AccessControlConditionDecryption => "access-control-condition-decryption"
  | AccessControlConditionSigning => "access-control-condition-signing"
  | PKPSigning => "pkp-signing"
  | LitActionExecution => "lit-action-execution"
  end.

Definition tag_name (t : Tag) : string :=
  match t with
  | AnyAbility => "*"
  | Only a => ability_name a
  end.

Definition tag_of_name (s : string) : option Tag :=
  if String.eqb s "*" then Some AnyAbility
  else if String.eqb s "pkp-signing" then Some (Only PKPSigning)
  else if String.eqb s "lit-action-execution" then Some (Only LitActionExecution)
  else if String.eqb s "access-control-condition-signing"
       then Some (Only AccessControlConditionSigning)
  else if String.eqb s "access-control-condition-decryption"
       then Some (Only AccessControlConditionDecryption)
  else None.

Definition recap_encode (c : RecapSessionCapabilityObject) : string :=
  "urn:recap:"
  +:+ String.concat ";"
        (flat_map (fun kv => map (fun t => fst kv +:+ "=" +:+ tag_name t) (snd kv))
           (map_to_list (attenuations c))).

Definition recap_entry (c : option RecapSessionCapabilityObject) (entry : string)
  : option RecapSessionCapabilityObject :=
  match c, split_on "=" entry with
  | Some c, [key; name] =>
      match tag_of_name name with
      | Some t => Some (add_tag key t c)
      | None => None
      end
  | _, _ => None
  end.

Definition recap_decode (s : string) : option RecapSessionCapabilityObject :=
  match strip_prefix "urn:recap:" s with
  | None => None
  | Some body =>
      if String.eqb body EmptyString then Some (mkRecap ∅ [])
      else fold_left recap_entry (split_on ";" body) (Some (mkRecap ∅ []))
  end.

Definition resource_toJSON (r : ILitResource) : JsVal :=
  JObj [("resource", JStr (resource_id r));
        ("resourcePrefix", JStr (prefix_string (resourcePrefix r)))].

Definition request_toJSON (r : LitResourceAbilityRequest) : JsVal :=
  JObj [("resource", resource_toJSON (resource r));
        ("ability", JStr (ability_name (ability r)))].

Definition key_pair (n : nat) : SessionKeyPair :=
  {| publicKey := "pk" +:+ pretty n; secretKey := "sk" +:+ pretty n |}.

Definition siwe_text (uri : string) (resources : list string) : string :=
  String.concat (String LF EmptyString)
    (["example.com wants you to sign in with your Ethereum account:";
      "0xA1"; "URI: " +:+ uri; "Version: 1"; "Resources:"]
     ++ map (fun r => "- " +:+ r) resources).

Definition pkp_any : ILitResource := mkLitResource PKP "*".
Definition action_any : ILitResource := mkLitResource LitAction "*".

Definition requests : list LitResourceAbilityRequest :=
  [mkRequest pkp_any PKPSigning; mkRequest action_any LitActionExecution].

Definition full_capability : RecapSessionCapabilityObject :=
  addAllCapabilitiesForResource
    (addAllCapabilitiesForResource (mkRecap ∅ []) pkp_any) action_any.

(** A wallet signature over the session key [pk0] granting both wildcards. *)
Definition walletSig : AuthSig :=
  {| sig := "0xgood";
     derivedVia := "web3.eth.personal.sign";
     signedMessage := siwe_text "lit:session:pk0" [recap_encode full_capability];
     address := "0xA1";
     algo := None |}.

Definition known_walletSigs : list AuthSig := [walletSig].

Definition parse_AuthSig (s : string) : option AuthSig :=
  find (fun a => String.eqb s (JSON_stringify (AuthSig_toJSON a))) known_walletSigs.

Definition parse_SessionKeyPair (s : string) : option SessionKeyPair :=
  find (fun k => String.eqb s (JSON_stringify (SessionKeyPair_toJSON k)))
    (map key_pair (seq 0 4)).

#[global] Instance externals : Externals := {|
  SiweMessage_new := siwe_parse;
  SiweMessage_validate := siwe_validate;
  decode := recap_decode;
  encodeAsSiweResource := recap_encode;
  statement := fun _ => "I further authorize the stated URI to perform the listed actions.";
  JSON_parse_AuthSig := parse_AuthSig;
  JSON_parse_SessionKeyPair := parse_SessionKeyPair;
  generateSessionKeyPair := key_pair;
  nacl_sign_detached :=
    fun msg sk => "ed25519:" +:+ sk +:+ ":" +:+ pretty (String.length msg);
  toISOString := ISODate.toISOString;
  LitResourceAbilityRequest_toJSON := request_toJSON;
|}.

#[global] Instance hashing : Hashing := {|
  sha256 := SHA256.sha256_hex;
  BigNumber_from := SHA256.BigNumber_from_hex;
|}.

(** A callback standing for the wallet: it signs whatever it is asked. *)
Definition wallet : AuthCallback :=
  fun body =>
    ret {| sig := "0xgood";
           derivedVia := "web3.eth.personal.sign";
           signedMessage :=
             siwe_text (default EmptyString (cb_uri body))
               (default [] (cb_resources body));
           address := "0xA1";
           algo := None |}.

Definition nodes : list string :=
  ["https://node-a.example"; "https://node-b.example"; "https://node-c.example"].

Definition client : LitNodeClientNodeJs :=
  {| defaultAuthCallback := None;
     latestBlockhash := Some "0xb10c";
     connectedNodes := nodes;
     bootstrapUrls := nodes;
     minNodeCount := 2 |}.

Definition storage_with (slots : list (string * string)) : LocalStorage :=
  {| available := true; writable := true; removable := true; items := list_to_map slots |}.

Definition world_with (slots : list (string * string)) (now : Z) : World :=
  {| localStorage := storage_with slots;
     clock := fun _ => now;
     ticks := 0;
     entropy := 0;
     sent := [] |}.

Definition session_params (expiration : option string) : GetSessionSigsProps :=
  {| p_sessionKey := Some (key_pair 0);
     p_sessionCapabilityObject := Some full_capability;
     p_resourceAbilityRequests := requests;
     p_expiration := expiration;
     p_authNeededCallback := Some wallet;
     p_chain := None;
     p_switchChain := None;
     p_litActionCode := None;
     p_litActionIpfsId := None;
     p_jsParams := None;
     p_capabilityAuthSigs := None;
     p_capacityDelegationAuthSig := None |}.

(** The same request without a capability object of the caller's. *)
Definition bare_params : GetSessionSigsProps :=
  {| p_sessionKey := Some (key_pair 0);
     p_sessionCapabilityObject := None;
     p_resourceAbilityRequests := requests;
     p_expiration := None;
     p_authNeededCallback := Some wallet;
     p_chain := None;
     p_switchChain := None;
     p_litActionCode := None;
     p_litActionIpfsId := None;
     p_jsParams := None;
     p_capabilityAuthSigs := None;
     p_capacityDelegationAuthSig := None |}.

Definition session_sig (url : string) : AuthSig :=
  {| sig := "ed25519:" +:+ url;
     derivedVia := "litSessionSignViaNacl";
     signedMessage := "{}";
     address := "pk0";
     algo := Some "ed25519" |}.

Definition target_params : JsonExecutionSdkParamsTargetNode :=
  {| tn_code := Some "X";
     tn_ipfsId := None;
     tn_jsParams := None;
     tn_sessionSigs := list_to_map (map (fun url => (url, session_sig url)) nodes);
     tn_targetNodeRange := 2 |}.

Definition ipfsId : string := "QmUjX8MW6StQ7NKNdaS6g4RMkvN5hcgtKmEi8Mca6oX4t3".

(** A client with ten bootstrap nodes. *)
Definition ten_nodes : LitNodeClientNodeJs :=
  {| defaultAuthCallback := None;
     latestBlockhash := Some "0xb10c";
     connectedNodes := map (fun i : nat => "https://node-" +:+ pretty i +:+ ".example") (seq 0 10);
     bootstrapUrls := map (fun i : nat => "https://node-" +:+ pretty i +:+ ".example") (seq 0 10);
     minNodeCount := 7 |}.

(** Whether [needle] occurs in [text]. *)
Fixpoint occurs_in (needle text : string) : bool :=
  String.prefix needle text
  || match text with
     | EmptyString => false
     | String _ rest => occurs_in needle rest
     end.

Definition wallet_props (callback : option AuthCallback) : GetWalletSigProps :=
  {| ws_authNeededCallback := callback;
     ws_chain := "ethereum";
     ws_sessionCapabilityObject := full_capability;
     ws_switchChain := None;
     ws_expiration := "1970-01-02T00:00:00.000Z";
     ws_sessionKeyUri := "lit:session:pk0";
     ws_nonce := "0xb10c";
     ws_resourceAbilityRequests := Some requests;
     ws_litActionCode := None;
     ws_litActionIpfsId := None;
     ws_jsParams := None;
     ws_sessionKey := key_pair 0 |}.

Definition client_with (callback : option AuthCallback) : LitNodeClientNodeJs :=
  {| defaultAuthCallback := callback;
     latestBlockhash := Some "0xb10c";
     connectedNodes := nodes;
     bootstrapUrls := nodes;
     minNodeCount := 2 |}.

(** A slot content that is not JSON. *)
Definition broken_json : string := "{not json".

Definition share_with (signatureShare : JsVal) (shareIndex : Z) : JsVal :=
  JObj [("result", JStr "success");
        ("signatureShare", signatureShare);
        ("shareIndex", JNum shareIndex);
        ("curveType", JStr "BLS");
        ("siweMessage", JStr "example.com wants you to sign in");
        ("dataSigned", JStr "0xd47a");
        ("blsRootPubkey", JStr "0x8f3a")].

Definition good_share (shareIndex : Z) : JsVal :=
  share_with (JObj [("ProofOfPossession", JStr "0xa1b2")]) shareIndex.

(** All required fields, but a share without [ProofOfPossession]. *)
Definition share_without_proof : JsVal := share_with (JObj []) 3.

(** A response without [dataSigned]. *)
Definition incomplete_share : JsVal :=
  JObj [("result", JStr "success");
        ("signatureShare", JObj [("ProofOfPossession", JStr "0xa1b2")]);
        ("shareIndex", JNum 4);
        ("curveType", JStr "BLS");
        ("siweMessage", JStr "example.com wants you to sign in");
        ("blsRootPubkey", JStr "0x8f3a")].

(** The call of [getSessionSigs] that the examples share: the caller's
    session key and capability object, no expiration, an empty store, and a
    clock that reads 0. *)
Definition run : Res (gmap string AuthSig) * World :=
  getSessionSigs client (session_params None) (world_with [] 0).

Definition sigs : gmap string AuthSig :=
  match fst run with
  | Ok m => m
  | Throw _ => ∅
  end.

(** The template of that call and the entry made for a node. *)
Definition template : list (string * JsVal) :=
  signingTemplate (key_pair 0) requests [walletSig]
    "1970-01-01T00:00:00.000Z" "1970-01-02T00:00:00.000Z".

Definition entry (url : string) : AuthSig := sessionSig_of (key_pair 0) template url.

End Demo.

(** ** Inputs of the further properties *)

Module Scenario.

(** A wallet that answers with the signature it made for the session key
    [pk0], whatever it is asked. *)
Definition stubborn : AuthCallback := fun _ => ret Demo.walletSig.

(** A request for session signatures under the session key [pk1]. *)
Definition params_pk1 : GetSessionSigsProps :=
  {| p_sessionKey := Some (Demo.key_pair 1);
     p_sessionCapabilityObject := Some Demo.full_capability;
     p_resourceAbilityRequests := Demo.requests;
     p_expiration := Some "2030-01-01T00:00:00.000Z";
     p_authNeededCallback := Some stubborn;
     p_chain := None;
     p_switchChain := None;
     p_litActionCode := None;
     p_litActionIpfsId := None;
     p_jsParams := None;
     p_capabilityAuthSigs := None;
     p_capacityDelegationAuthSig := None |}.

(** A store that holds the wallet signature made for [pk0]. *)
Definition cached_world : World :=
  Demo.world_with
    [(LOCAL_STORAGE_KEYS_WALLET_SIGNATURE, JSON_stringify (AuthSig_toJSON Demo.walletSig))]
    0.

(** A world without a usable store, as under NodeJS. *)
Definition storeless_world : World :=
  {| localStorage :=
       {| available := false; writable := false; removable := false; items := ∅ |};
     clock := fun _ => 0%Z;
     ticks := 0;
     entropy := 0;
     sent := [] |}.

(** A store that refuses writes but not removals, with a stale value in the
    slot of the wallet signature. *)
Definition refusing_world : World :=
  {| localStorage :=
       {| available := true; writable := false; removable := true;
          items := {[ LOCAL_STORAGE_KEYS_WALLET_SIGNATURE := "stale" ]} |};
     clock := fun _ => 0%Z;
     ticks := 0;
     entropy := 0;
     sent := [] |}.

(** An AuthSig whose signed message is not a SIWE message. *)
Definition garbled_walletSig : AuthSig :=
  {| sig := "0xgood";
     derivedVia := "web3.eth.personal.sign";
     signedMessage := "this is not a SIWE message";
     address := "0xA1";
     algo := None |}.

Definition client_without_blockhash : LitNodeClientNodeJs :=
  {| defaultAuthCallback := None;
     latestBlockhash := None;
     connectedNodes := Demo.nodes;
     bootstrapUrls := Demo.nodes;
     minNodeCount := 2 |}.

(** Stand-ins for the collaborators of [#combineSharesAndGetJWT]: the
    combined signature lists the shares it was given, the most common string
    is the first one, and the converters copy the characters. *)
#[global] Instance combining : Combining := {|
  combineSignatureShares := fun shares => String.concat "+" (map JSON_stringify shares);
  mostCommonString := fun l => mjoin (head l);
  uint8arrayFromString := fun s _ => map byte_of_ascii (String.list_ascii_of_string s);
  uint8arrayToString := fun bytes _ => String.string_of_list_ascii (map ascii_of_byte bytes);
|}.

Definition bls_share (i : Z) : NodeBlsSigningShare :=
  {| shareIndex := i;
     unsignedJwt := Some "eyJhbGciOiJCTFMxMi0zODEifQ.eyJpc3MiOiJMSVQifQ";
     signatureShare := JObj [("ProofOfPossession", JStr ("0x5a" +:+ pretty i))] |}.

(** The answers of the action that computes an IPFS id. *)
Definition ipfs_reply (success : bool) : JsVal :=
  JObj [("res", JObj [("success", JBool success); ("data", JStr Demo.ipfsId)])].

(** A parser that recognises those two answers. *)
#[global] Instance json : Json := {|
  JSON_parse := fun s =>
    find (fun v => String.eqb s (JSON_stringify v)) [ipfs_reply true; ipfs_reply false];
|}.

(** The nodes sign whatever session key they are asked to. *)
#[global] Instance signer : SessionKeySigner := {|
  signSessionKey := fun _ request =>
    ret {| sig := "0xgood";
           derivedVia := "lit.bls";
           signedMessage :=
             Demo.siwe_text
               (getSessionKeyUri (default EmptyString (publicKey <$> ssk_sessionKey request)))
               (ssk_resources request);
           address := "0xA1";
           algo := Some "LIT_BLS" |};
|}.

(** A request for the session signatures of a PKP that names both the code
    of an action and the IPFS id of one. *)
Definition pkp_params (litActionIpfsId : option string) : GetPkpSessionSigs :=
  {| pkp_sessionSigsProps :=
       {| p_sessionKey := Some (Demo.key_pair 0);
          p_sessionCapabilityObject := Some Demo.full_capability;
          p_resourceAbilityRequests := Demo.requests;
          p_expiration := None;
          p_authNeededCallback := None;
          p_chain := None;
          p_switchChain := None;
          p_litActionCode := Some "(async () => {})();";
          p_litActionIpfsId := litActionIpfsId;
          p_jsParams := Some (JObj [("publicKey", JStr "0x04ab")]);
          p_capabilityAuthSigs := None;
          p_capacityDelegationAuthSig := None |};
     pkp_pkpPublicKey := "0x04ab";
     pkp_authMethods := None |}.

(** The request that names both, against an empty store. *)
Definition pkp_run : Res (gmap string AuthSig) * World :=
  getPkpSessionSigs Demo.client (pkp_params (Some Demo.ipfsId)) (Demo.world_with [] 0).

End Scenario.

(** * Properties *)

(** ** The re-sign predicate *)

Lemma capabilities_do_not_match_true (cap : RecapSessionCapabilityObject)
    (requests : list LitResourceAbilityRequest) :
  capabilities_do_not_match cap requests = true <->
  exists request, request ∈ requests
    /\ verifyCapabilitiesForResource cap (resource request) (ability request) = false.
Proof.
  induction requests as [|r rest IH]; simpl.
  - split; [discriminate|]. intros (x & Hx & _). by apply elem_of_nil in Hx.
  - destruct (verifyCapabilitiesForResource cap (resource r) (ability r)) eqn:Hv; simpl.
    + rewrite IH. split.
      * intros (x & Hx & Hf). exists x. split; [apply elem_of_cons; by right|done].
      * intros (x & Hx & Hf). apply elem_of_cons in Hx as [->|Hx]; [congruence|eauto].
    + split; [|done]. intros _. exists r. split; [apply elem_of_cons; by left|done].
Qed.

(** A SIWE text that the constructor rejects makes the check raise: it
    answers neither [true] nor [false]. *)
Lemma checkNeedToResignSessionKey_unparsable `{Externals} (authSig : AuthSig)
    (sessionKeyUri : string) (requests : list LitResourceAbilityRequest) :
  SiweMessage_new (signedMessage authSig) = None ->
  is_ok (checkNeedToResignSessionKey authSig sessionKeyUri requests) = false.
Proof. intros Hp. unfold checkNeedToResignSessionKey. by rewrite Hp. Qed.

(** C1. The re-sign predicate does not answer [true] for every AuthSig that
    fails signature verification. The SIWE message is built from the signed
    message before the [try] that turns a failed verification into [true]:
    for an AuthSig whose signed message the constructor rejects, whose
    signature therefore does not verify, the predicate raises, whatever the
    session-key URI and the requests. *)
Theorem checkNeedToResignSessionKey_raises `{Externals} (authSig : AuthSig)
    (sessionKeyUri : string) (requests : list LitResourceAbilityRequest) :
  SiweMessage_new (signedMessage authSig) = None ->
  ~ verifies authSig
  /\ checkNeedToResignSessionKey authSig sessionKeyUri requests <> Ok true
  /\ exists e, checkNeedToResignSessionKey authSig sessionKeyUri requests = Throw e.
Proof.
  intros Hnew. split; [|split].
  - intros (m & Hm & _). congruence.
  - unfold checkNeedToResignSessionKey. by rewrite Hnew.
  - unfold checkNeedToResignSessionKey. rewrite Hnew. eauto.
Qed.

Lemma checkNeedToResignSessionKey_raises_witness :
  ~ verifies Scenario.garbled_walletSig
  /\ checkNeedToResignSessionKey Scenario.garbled_walletSig "lit:session:pk0" Demo.requests
     <> Ok true
  /\ exists e,
       checkNeedToResignSessionKey Scenario.garbled_walletSig "lit:session:pk0"
         Demo.requests = Throw e.
Proof.
  apply (checkNeedToResignSessionKey_raises Scenario.garbled_walletSig "lit:session:pk0"
           Demo.requests).
  vm_compute; reflexivity.
Defined.

(** On the AuthSigs whose signed message is a SIWE message [m], the
    predicate returns true if and only if at least one of the four staleness
    conditions holds: [m] fails signature verification; its uri differs from
    the session-key URI; its resources are missing or empty; the capability
    object decoded from its first resource fails
    [verifyCapabilitiesForResource] for some required pair. *)
Lemma checkNeedToResignSessionKey_iff `{Externals} (authSig : AuthSig)
    (sessionKeyUri : string) (requests : list LitResourceAbilityRequest)
    (m : SiweMessage) :
  SiweMessage_new (signedMessage authSig) = Some m ->
  checkNeedToResignSessionKey authSig sessionKeyUri requests = Ok true
  <-> spec_needToResign m authSig sessionKeyUri requests.
Proof.
  intros Hm. unfold checkNeedToResignSessionKey, spec_needToResign,
    fails_signature_verification, uri_differs, resources_missing_or_empty,
    capability_fails_a_request.
  rewrite Hm.
  destruct (SiweMessage_validate m (sig authSig)) eqn:Hval; simpl;
    [|split; [intros _; by left | done]].
  destruct (String.eqb_spec (siwe_uri m) sessionKeyUri) as [Huri|Huri]; simpl;
    [|split; [intros _; right; by left | done]].
  destruct (siwe_resources m) as [[|first rest]|] eqn:Hres;
    [split; [intros _; right; right; left; by right | done]
    | | split; [intros _; right; right; left; by left | done]].
  destruct (decode first) as [cap|] eqn:Hdec.
  - split.
    + intros Hloop. injection Hloop as Hloop.
      apply capabilities_do_not_match_true in Hloop as (request & Hin & Hf).
      right; right; right. exists first, rest, cap, request. done.
    + intros [Hc|[Hc|[[Hc|Hc]|(f & r & c & request & Heq & Hd & Hin & Hf)]]];
        try done.
      injection Heq as -> ->. rewrite Hdec in Hd. injection Hd as ->.
      f_equal. apply capabilities_do_not_match_true. eauto.
  - split; [discriminate|].
    intros [Hc|[Hc|[[Hc|Hc]|(f & r & c & request & Heq & Hd & Hin & Hf)]]];
      try done.
    injection Heq as -> ->. congruence.
Qed.

(** The wallet signature of the instance, checked against another session
    key: the uri differs, and the predicate answers [true]. *)
Lemma checkNeedToResignSessionKey_iff_witness :
  SiweMessage_new (signedMessage Demo.walletSig)
    = Some {| siwe_uri := "lit:session:pk0";
              siwe_resources := Some ["urn:recap:lit-litaction://*=*;lit-pkp://*=*"] |}
  /\ (checkNeedToResignSessionKey Demo.walletSig "lit:session:pk1" Demo.requests = Ok true
      <-> spec_needToResign
            {| siwe_uri := "lit:session:pk0";
               siwe_resources := Some ["urn:recap:lit-litaction://*=*;lit-pkp://*=*"] |}
            Demo.walletSig "lit:session:pk1" Demo.requests).
Proof.
  split; [vm_compute; reflexivity|].
  apply (checkNeedToResignSessionKey_iff Demo.walletSig "lit:session:pk1" Demo.requests).
  vm_compute; reflexivity.
Defined.

(** ** The generated capability object *)

Lemma grants_at_add_tag (key key' : string) (t : Tag) (c : RecapSessionCapabilityObject) :
  grants_at (add_tag key t c) key'
  = if decide (key = key') then t :: grants_at c key else grants_at c key'.
Proof.
  unfold grants_at, add_tag; simpl. rewrite lookup_insert.
  destruct (decide (key = key')); done.
Qed.

Lemma verify_empty (r : ILitResource) (a : LitAbility) :
  verifyCapabilitiesForResource (mkRecap ∅ []) r a = false.
Proof.
  unfold verifyCapabilitiesForResource, grants_at; simpl.
  by rewrite !lookup_empty.
Qed.

(** A wildcard tag under the key of [r] is kept by every later addition. *)
Lemma wildcard_kept (rs : list ILitResource) (c : RecapSessionCapabilityObject)
    (r : ILitResource) :
  AnyAbility ∈ grants_at c (getResourceKey r) ->
  AnyAbility ∈ grants_at (fold_left addAllCapabilitiesForResource rs c) (getResourceKey r).
Proof.
  revert c. induction rs as [|r' rs IH]; intros c Hin; simpl; [done|].
  apply IH. unfold addAllCapabilitiesForResource. rewrite grants_at_add_tag.
  destruct (decide (getResourceKey r' = getResourceKey r)) as [Heq|Hne].
  - apply elem_of_cons. by left.
  - done.
Qed.

Lemma wildcard_added (rs : list ILitResource) (c : RecapSessionCapabilityObject)
    (r : ILitResource) :
  r ∈ rs ->
  AnyAbility ∈ grants_at (fold_left addAllCapabilitiesForResource rs c) (getResourceKey r).
Proof.
  revert c. induction rs as [|r' rs IH]; intros c Hin; simpl.
  - by apply elem_of_nil in Hin.
  - apply elem_of_cons in Hin as [->|Hin]; [|by apply IH].
    apply wildcard_kept. unfold addAllCapabilitiesForResource.
    rewrite grants_at_add_tag. rewrite decide_True by done.
    apply elem_of_cons. by left.
Qed.

Lemma verify_wildcard (c : RecapSessionCapabilityObject) (r : ILitResource)
    (a : LitAbility) :
  AnyAbility ∈ grants_at c (getResourceKey r) ->
  verifyCapabilitiesForResource c r a = true.
Proof.
  intros Hin. unfold verifyCapabilitiesForResource.
  apply orb_true_iff. left. apply existsb_exists.
  exists AnyAbility. split; [by apply list_elem_of_In|done].
Qed.

(** C2, as the code has it. When the caller supplies no session capability
    object, [getSessionSigs] works with the object generated without the
    [addAllCapabilities] flag, which is the empty one: it grants no ability
    on any resource. Wildcard abilities for every listed resource are
    granted only by the static generator called with the flag set. *)
Theorem generated_capability_object_grants_nothing (params : GetSessionSigsProps) :
  p_sessionCapabilityObject params = None ->
  (forall r a,
      verifyCapabilitiesForResource (sessionCapabilityObject_of params) r a = false)
  /\ Forall (fun r => forall a,
        verifyCapabilitiesForResource
          (generateSessionCapabilityObjectWithWildcards_static
             (map (fun q => resource q) (p_resourceAbilityRequests params)) (Some true))
          r a = true)
       (map (fun q => resource q) (p_resourceAbilityRequests params)).
Proof.
  intros Hnone. split.
  - intros r a. unfold sessionCapabilityObject_of. rewrite Hnone.
    apply verify_empty.
  - apply Forall_forall. intros r Hin a.
    unfold generateSessionCapabilityObjectWithWildcards_static; simpl.
    apply verify_wildcard, wildcard_added. done.
Qed.

Lemma generated_capability_object_grants_nothing_witness :
  p_sessionCapabilityObject Demo.bare_params = None
  /\ ((forall r a,
         verifyCapabilitiesForResource (sessionCapabilityObject_of Demo.bare_params) r a
         = false)
      /\ Forall (fun r => forall a,
            verifyCapabilitiesForResource
              (generateSessionCapabilityObjectWithWildcards_static
                 (map (fun q => resource q) (p_resourceAbilityRequests Demo.bare_params))
                 (Some true))
              r a = true)
           (map (fun q => resource q) (p_resourceAbilityRequests Demo.bare_params))).
Proof.
  split; [reflexivity|].
  apply (generated_capability_object_grants_nothing Demo.bare_params). reflexivity.
Defined.

(** The claim as stated fails: without a capability object of the caller's,
    the generated one does not cover the first listed resource. *)
Lemma generated_capability_object_counterexample :
  ~ (forall (params : GetSessionSigsProps) (r : ILitResource) (a : LitAbility),
        p_sessionCapabilityObject params = None ->
        r ∈ map (fun q => resource q) (p_resourceAbilityRequests params) ->
        verifyCapabilitiesForResource (sessionCapabilityObject_of params) r a = true).
Proof.
  intros Hclaim.
  specialize (Hclaim Demo.bare_params Demo.pkp_any PKPSigning eq_refl).
  assert (Hin : Demo.pkp_any
                ∈ map (fun q => resource q) (p_resourceAbilityRequests Demo.bare_params)).
  { apply elem_of_cons. by left. }
  specialize (Hclaim Hin). vm_compute in Hclaim. discriminate.
Qed.

(** ** Targeted execution: what is sent *)

Lemma props_get_app (k : string) (l1 l2 : list (string * JsVal)) :
  props_get k (l1 ++ l2)
  = match props_get k l1 with
    | Some v => Some v
    | None => props_get k l2
    end.
Proof.
  induction l1 as [|[k' v] l1 IH]; simpl; [done|].
  destruct (String.eqb k k'); done.
Qed.

Lemma props_get_opt_prop (k k' : string) (v : option JsVal) :
  k <> k' -> props_get k (opt_prop k' v) = None.
Proof.
  intros Hne. destruct v; simpl; [|done].
  destruct (String.eqb_spec k k'); done.
Qed.

(** The caller's params carry no [authSig] property. *)
Lemma params_have_no_authSig (params : JsonExecutionSdkParamsTargetNode) :
  obj_get "authSig" (JObj (params_props params)) = None.
Proof.
  unfold params_props; simpl.
  rewrite !props_get_app, !props_get_opt_prop by discriminate. reflexivity.
Qed.

Lemma props_get_set_eq (k : string) (v : JsVal) (ps : list (string * JsVal)) :
  props_get k (props_set k v ps) = Some v.
Proof.
  induction ps as [|[k' v'] ps IH]; simpl.
  - by rewrite String.eqb_refl.
  - destruct (String.eqb k k') eqn:Hk; simpl; rewrite ?String.eqb_refl, ?Hk; done.
Qed.

(** The composed request body does carry the session signature. *)
Lemma reqBody_has_authSig (params : JsonExecutionSdkParamsTargetNode) (s : AuthSig) :
  obj_get "authSig" (reqBody_of params s) = Some (AuthSig_toJSON s).
Proof. apply props_get_set_eq. Qed.

(** Whatever the selected indexes, every command that the wrapper sends
    carries the bare params. *)
Lemma targeted_node_promises_sent (this : LitNodeClientNodeJs)
    (params : JsonExecutionSdkParamsTargetNode) (id : string) (indexes : list Z)
    (w w' : World) (r : Res unit) :
  targeted_node_promises this params id indexes w = (r, w') ->
  exists cmds, sent w' = sent w ++ cmds
    /\ Forall (fun c => cmd_data c = JObj (params_props params)) cmds.
Proof.
  revert w. induction indexes as [|i rest IH]; intros w Hrun; simpl in Hrun.
  - injection Hrun as <- <-. exists []. by rewrite app_nil_r.
  - destruct (bootstrapUrls this !! Z.to_nat i) as [url|].
    + unfold bind, _getSessionSigByUrl in Hrun.
      destruct (tn_sessionSigs params !! url) as [s|]; simpl in Hrun.
      * apply IH in Hrun as (cmds & Hsent & Hall). simpl in Hsent.
        eexists (_ :: cmds). rewrite Hsent, <- app_assoc. split; [done|].
        constructor; done.
      * injection Hrun as <- <-. exists []. by rewrite app_nil_r.
    + injection Hrun as <- <-. exists []. by rewrite app_nil_r.
Qed.

(** C3, at the failing input. Two of three nodes are selected and both hold
    a session signature for the caller, yet the data of each command sent is
    the bare params object, without [authSig]; the request body composed for
    the same node has it. *)
Theorem runOnTargetedNodes_omits_session_sig :
  exists run w',
    runOnTargetedNodes 8 Demo.client Demo.target_params Demo.ipfsId "req-1" = Some run
    /\ run (Demo.world_with [] 0) = (Ok tt, w')
    /\ length (sent w') = 2%nat
    /\ Forall (fun c =>
          exists s, tn_sessionSigs Demo.target_params !! cmd_url c = Some s
            /\ cmd_data c = JObj (params_props Demo.target_params)
            /\ obj_get "authSig" (cmd_data c) = None
            /\ obj_get "authSig" (reqBody_of Demo.target_params s)
               = Some (AuthSig_toJSON s))
         (sent w').
Proof.
  eexists _, _. split; [vm_compute; reflexivity|].
  split; [vm_compute; reflexivity|].
  split; [reflexivity|].
  repeat constructor;
    (eexists; split; [vm_compute; reflexivity|];
     split; [reflexivity|]; split; [reflexivity|apply reqBody_has_authSig]).
Qed.

(** ** Targeted execution: the selection of the nodes *)

Section Selection.
Context `{Hashing}.
Variables (ipfsId : string) (n k : Z).
Hypothesis n_pos : (0 < n)%Z.

Local Abbreviation idx := (spec_index ipfsId n).

Lemma nodeIndex_of_spec (c : nat) : nodeIndex_of ipfsId n c = idx c.
Proof. reflexivity. Qed.

Lemma idx_range (c : nat) : (0 <= idx c < n)%Z.
Proof. unfold spec_index. apply Z.mod_pos_bound, n_pos. Qed.

Lemma includes_spec (x : Z) (l : list Z) : includes x l = true <-> x ∈ l.
Proof.
  unfold includes. rewrite existsb_exists. split.
  - intros (y & Hin & Heq). apply Z.eqb_eq in Heq as ->. by apply list_elem_of_In.
  - intros Hin. exists x. split; [by apply list_elem_of_In|apply Z.eqb_refl].
Qed.

Local Abbreviation step := (select_step ipfsId n).

Lemma step_cases (selected : list Z) (c : nat) :
  ((idx c ∈ selected) /\ step selected c = selected)
  \/ ((idx c ∉ selected) /\ step selected c = selected ++ [idx c]).
Proof.
  unfold select_step, nodeIndex_of. fold (idx c). pose proof (idx_range c) as [_ Hlt].
  apply Z.ltb_lt in Hlt. rewrite Hlt, andb_true_r.
  destruct (includes (idx c) selected) eqn:Hinc; simpl.
  - left. split; [by apply includes_spec|done].
  - right. split; [|done]. intros Hin. apply includes_spec in Hin. congruence.
Qed.

Lemma select_loop_unfold (fuel : nat) (selected : list Z) (c : nat) :
  select_loop fuel ipfsId n k selected c
  = if (Z.of_nat (length selected) <? k)%Z
    then match fuel with
         | O => None
         | S fuel' => select_loop fuel' ipfsId n k (step selected c) (S c)
         end
    else Some selected.
Proof. destruct fuel; reflexivity. Qed.

(** What a returned selection satisfies. *)
Lemma select_loop_sound (fuel : nat) : forall (selected : list Z) (c : nat) (r : list Z),
  NoDup selected ->
  Forall (fun i => (0 <= i < n)%Z) selected ->
  (Z.of_nat (length selected) <= k)%Z ->
  select_loop fuel ipfsId n k selected c = Some r ->
  spec_selection ipfsId n k c selected r
  /\ Z.of_nat (length r) = k /\ NoDup r /\ Forall (fun i => (0 <= i < n)%Z) r.
Proof.
  induction fuel as [|fuel IH]; intros selected c r Hnd Hrange Hlen;
    rewrite select_loop_unfold;
    destruct (Z.ltb_spec (Z.of_nat (length selected)) k) as [Hlt|Hge]; intros Hrun;
    try discriminate.
  - injection Hrun as <-. split; [apply spec_stop; lia|]. split; [lia|done].
  - destruct (step_cases selected c) as [[Hin Hstep]|[Hnin Hstep]];
      rewrite Hstep in Hrun.
    + apply IH in Hrun as (Hspec & Hrest); [|done..].
      split; [by apply spec_skip|done].
    + apply IH in Hrun as (Hspec & Hrest).
      * split; [by apply spec_keep|done].
      * apply NoDup_app. split; [done|]. split; [|apply NoDup_singleton].
        intros x Hx Hx'. apply list_elem_of_singleton in Hx' as ->. done.
      * apply Forall_app. split; [done|]. constructor; [apply idx_range|constructor].
      * rewrite length_app; simpl. lia.
  - injection Hrun as <-. split; [apply spec_stop; lia|]. split; [lia|done].
Qed.

(** A returned selection does not depend on the bound of the iterations. *)
Lemma select_loop_fuel (fuel : nat) : forall (fuel' : nat) (selected : list Z) (c : nat)
    (r r' : list Z),
  select_loop fuel ipfsId n k selected c = Some r ->
  select_loop fuel' ipfsId n k selected c = Some r' ->
  r = r'.
Proof.
  induction fuel as [|fuel IH]; intros fuel' selected c r r' Hrun Hrun';
    rewrite select_loop_unfold in Hrun;
    rewrite (select_loop_unfold fuel') in Hrun';
    destruct (Z.of_nat (length selected) <? k)%Z; try congruence.
  destruct fuel'; [discriminate|]. eapply IH; eassumption.
Qed.

Lemma distinct_same_elements (l1 l2 : list Z) :
  (forall x, x ∈ l1 <-> x ∈ l2) ->
  length (remove_dups l1) = length (remove_dups l2).
Proof.
  intros Hsame. apply Permutation_length, NoDup_Permutation;
    [apply NoDup_remove_dups..|].
  intros x. rewrite !elem_of_remove_dups. apply Hsame.
Qed.

Lemma distinct_NoDup (l : list Z) : NoDup l -> length (remove_dups l) = length l.
Proof.
  intros Hnd. apply Permutation_length, NoDup_Permutation;
    [apply NoDup_remove_dups|done|apply elem_of_remove_dups].
Qed.

(** The loop returns within [m] iterations as soon as the indices selected
    so far and the next [m] ones count [k] different values. *)
Lemma select_loop_returns (m : nat) : forall (selected : list Z) (c : nat),
  NoDup selected ->
  (Z.of_nat (length selected) <= k)%Z ->
  (k <= Z.of_nat (length (remove_dups (selected ++ map idx (seq c m)))))%Z ->
  is_Some (select_loop m ipfsId n k selected c).
Proof.
  induction m as [|m IH]; intros selected c Hnd Hlen Hcount;
    rewrite select_loop_unfold;
    destruct (Z.ltb_spec (Z.of_nat (length selected)) k) as [Hlt|Hge]; try done.
  - simpl in Hcount. rewrite app_nil_r, distinct_NoDup in Hcount by done. lia.
  - assert (Hsame : forall l x, x ∈ selected ++ idx c :: l <-> x ∈ step selected c ++ l).
    { intros l x. destruct (step_cases selected c) as [[Hin ->]|[Hnin ->]].
      - rewrite !elem_of_app, elem_of_cons.
        split; [intros [?|[->|?]]; auto|intros [?|?]; auto].
      - by rewrite <- app_assoc. }
    apply IH.
    + destruct (step_cases selected c) as [[Hin ->]|[Hnin ->]]; [done|].
      apply NoDup_app. split; [done|]. split; [|apply NoDup_singleton].
      intros x Hx Hx'. apply list_elem_of_singleton in Hx' as ->. done.
    + destruct (step_cases selected c) as [[Hin ->]|[Hnin ->]]; [lia|].
      rewrite length_app; simpl. lia.
    + simpl in Hcount. by rewrite (distinct_same_elements _ _ (Hsame _)) in Hcount.
Qed.

(** Every selected index is the index of a counter that the loop went
    through. *)
Lemma select_loop_elements (fuel : nat) : forall (selected : list Z) (c : nat) (r : list Z),
  select_loop fuel ipfsId n k selected c = Some r ->
  forall x, x ∈ r -> x ∈ selected \/ x ∈ map idx (seq c fuel).
Proof.
  induction fuel as [|fuel IH]; intros selected c r; rewrite select_loop_unfold;
    destruct (Z.of_nat (length selected) <? k)%Z; intros Hrun x Hx;
    try discriminate; try (injection Hrun as <-; by left).
  destruct (IH _ _ _ Hrun x Hx) as [Hstep|Hlater].
  - destruct (step_cases selected c) as [[_ Heq]|[_ Heq]]; rewrite Heq in Hstep.
    + by left.
    + apply elem_of_app in Hstep as [?|Hnew]; [by left|].
      apply list_elem_of_singleton in Hnew as ->.
      right. cbn [seq map]. apply elem_of_cons. by left.
  - right. cbn [seq map]. apply elem_of_cons. by right.
Qed.

(** The condition on the counters is also necessary: a run that returns
    within [fuel] iterations has met [k] different indices by then. *)
Lemma select_loop_needs_distinct (fuel : nat) (r : list Z) :
  (0 <= k)%Z ->
  select_loop fuel ipfsId n k [] 0 = Some r ->
  (k <= Z.of_nat (distinct_indices ipfsId n fuel))%Z.
Proof.
  intros Hk Hrun.
  destruct (select_loop_sound fuel [] 0%nat r) as (_ & Hlen & Hnd & _);
    [apply NoDup_nil_2|constructor|simpl; lia|done|].
  rewrite <- Hlen. apply inj_le. unfold distinct_indices.
  apply submseteq_length, NoDup_submseteq; [done|].
  intros x Hx. apply elem_of_remove_dups.
  destruct (select_loop_elements fuel [] 0%nat r Hrun x Hx) as [Hnil|Hin]; [|done].
  by apply elem_of_nil in Hnil.
Qed.

End Selection.

(** C4. For a fixed ipfsId, node URL list [U] and [0 < k <= |U|], whenever
    the first [bound] counters hit [k] different indices the selection of
    [runOnTargetedNodes] returns within [bound] iterations; what it returns
    is the selection of the specified algorithm, [k] distinct indices into
    [U]; and every run on the same inputs that returns, whatever its bound,
    returns exactly that selection. *)
Theorem selectNodeIndexes_deterministic `{Hashing} (this : LitNodeClientNodeJs)
    (ipfsId : string) (k : Z) (bound : nat) :
  (0 < k <= Z.of_nat (length (bootstrapUrls this)))%Z ->
  (k <= Z.of_nat (distinct_indices ipfsId (Z.of_nat (length (bootstrapUrls this))) bound))%Z ->
  exists selected,
    selectNodeIndexes bound this ipfsId k = Some (Ok selected)
    /\ spec_selection ipfsId (Z.of_nat (length (bootstrapUrls this))) k 0 [] selected
    /\ Z.of_nat (length selected) = k
    /\ NoDup selected
    /\ Forall (fun i => (0 <= i < Z.of_nat (length (bootstrapUrls this)))%Z) selected
    /\ forall fuel r, selectNodeIndexes fuel this ipfsId k = Some r -> r = Ok selected.
Proof.
  intros [Hk Hkn] Hcount. unfold selectNodeIndexes, distinct_indices in *.
  set (n := Z.of_nat (length (bootstrapUrls this))) in *.
  assert (Hn : (0 < n)%Z) by lia.
  replace (n =? 0)%Z with false by (symmetry; apply Z.eqb_neq; lia).
  rewrite andb_false_r.
  destruct (select_loop_returns ipfsId n k Hn bound [] 0%nat) as [selected Hrun];
    [apply NoDup_nil_2|simpl; lia|done|].
  exists selected. rewrite Hrun. split; [done|].
  destruct (select_loop_sound ipfsId n k Hn bound [] 0%nat selected)
    as (Hspec & Hlen & Hnd & Hrange); [apply NoDup_nil_2|constructor|simpl; lia|done|].
  repeat (split; [done|]).
  intros fuel r Hr.
  destruct (select_loop fuel ipfsId n k [] 0%nat) as [r'|] eqn:Hrun'; [|done].
  injection Hr as <-. f_equal. symmetry.
  eapply select_loop_fuel; eassumption.
Qed.

(** Three of ten nodes, for the hash of the action of the documentation. *)
Lemma selectNodeIndexes_deterministic_witness :
  (0 < 3 <= Z.of_nat (length (bootstrapUrls Demo.ten_nodes)))%Z
  /\ (3 <= Z.of_nat (distinct_indices Demo.ipfsId
                       (Z.of_nat (length (bootstrapUrls Demo.ten_nodes))) 3))%Z
  /\ exists selected,
      selectNodeIndexes 3 Demo.ten_nodes Demo.ipfsId 3 = Some (Ok selected)
      /\ spec_selection Demo.ipfsId (Z.of_nat (length (bootstrapUrls Demo.ten_nodes))) 3 0 []
           selected
      /\ Z.of_nat (length selected) = 3%Z
      /\ NoDup selected
      /\ Forall (fun i => (0 <= i < Z.of_nat (length (bootstrapUrls Demo.ten_nodes)))%Z)
           selected
      /\ forall fuel r,
           selectNodeIndexes fuel Demo.ten_nodes Demo.ipfsId 3 = Some r -> r = Ok selected.
Proof.
  split; [vm_compute; split; [reflexivity|discriminate]|].
  split; [vm_compute; discriminate|].
  apply (selectNodeIndexes_deterministic Demo.ten_nodes Demo.ipfsId 3 3).
  - vm_compute; split; [reflexivity|discriminate].
  - vm_compute; discriminate.
Defined.

(** The selection of the witness, computed: counters 0, 1, 2 give 7, 5, 1. *)
Example selectNodeIndexes_example :
  selectNodeIndexes 3 Demo.ten_nodes Demo.ipfsId 3 = Some (Ok [7; 5; 1]%Z).
Proof. vm_compute. reflexivity. Qed.

(** With five nodes asked for, counter 4 repeats index 3 and is skipped. *)
Example selectNodeIndexes_skips :
  selectNodeIndexes 6 Demo.ten_nodes Demo.ipfsId 5 = Some (Ok [7; 5; 1; 3; 6]%Z)
  /\ selectNodeIndexes 5 Demo.ten_nodes Demo.ipfsId 5 = None.
Proof. split; vm_compute; reflexivity. Qed.

(** ** Session signatures *)

Lemma bind_Ok {A B : Type} (m : M A) (k : A -> M B) (w w' : World) (b : B) :
  bind m k w = (Ok b, w') ->
  exists a w1, m w = (Ok a, w1) /\ k a w1 = (Ok b, w').
Proof.
  unfold bind. destruct (m w) as [[a|e] w1]; [eauto|discriminate].
Qed.

Lemma lift_Ok {A : Type} (r : Res A) (w w' : World) (a : A) :
  lift r w = (Ok a, w') -> r = Ok a /\ w' = w.
Proof. unfold lift. intros Heq. injection Heq as -> ->. done. Qed.

(** The entries of the map built by the [forEach]. *)
Lemma sign_for_node_lookup `{Externals} (sessionKey : SessionKeyPair)
    (template : list (string * JsVal)) (nodes : list string)
    (init : gmap string AuthSig) (url : string) :
  fold_left (sign_for_node sessionKey template) nodes init !! url
  = if decide (url ∈ nodes) then Some (sessionSig_of sessionKey template url)
    else init !! url.
Proof.
  revert init. induction nodes as [|node nodes IH]; intros init.
  - destruct (decide (url ∈ [])) as [Hin|_]; [by apply elem_of_nil in Hin|done].
  - cbn [fold_left]. rewrite IH. unfold sign_for_node at 1.
    destruct (decide (url ∈ nodes)) as [Hin|Hnin];
      destruct (decide (url ∈ node :: nodes)) as [Hin'|Hnin']; try done.
    + exfalso. apply Hnin'. apply elem_of_cons. by right.
    + apply elem_of_cons in Hin' as [->|Hin']; [|done].
      by rewrite lookup_insert_eq.
    + rewrite lookup_insert_ne; [done|].
      intros ->. apply Hnin'. apply elem_of_cons. by left.
Qed.

(** The shape of every successful call of [getSessionSigs]: one session key,
    one expiration, one list of capabilities ending with the wallet
    signature, one time of issue, and one template signed for every
    connected node. *)
Lemma getSessionSigs_Ok `{Externals} (this : LitNodeClientNodeJs)
    (params : GetSessionSigsProps) (w w' : World) (sigs : gmap string AuthSig) :
  getSessionSigs this params w = (Ok sigs, w') ->
  exists sessionKey w1 expiration authSig issuedAt,
    sessionKey_source params w = (Ok sessionKey, w1)
    /\ expiration
       = match keep_truthy_string (p_expiration params) with
         | Some e => e
         | None => toISOString (clock w1 (ticks w1) + day_ms)
         end
    /\ sigs
       = fold_left
           (sign_for_node sessionKey
              (signingTemplate sessionKey (p_resourceAbilityRequests params)
                 (nullish (p_capabilityAuthSigs params) []
                  ++ match p_capacityDelegationAuthSig params with
                     | Some d => [d; authSig]
                     | None => [authSig]
                     end)
                 (toISOString issuedAt) expiration))
           (connectedNodes this) ∅.
Proof.
  unfold getSessionSigs. intros Hrun.
  apply bind_Ok in Hrun as (sessionKey & w1 & Hkey & Hrun).
  apply bind_Ok in Hrun as (expiration & w2 & Hexp & Hrun).
  apply bind_Ok in Hrun as (nonce & w3 & Hnonce & Hrun).
  apply bind_Ok in Hrun as (walletSig' & w4 & Hwallet & Hrun).
  destruct walletSig' as [walletSig|]; [|discriminate].
  apply bind_Ok in Hrun as (need & w5 & Hneed & Hrun).
  apply bind_Ok in Hrun as (authSig & w6 & Hresign & Hrun).
  destruct (walletSig_is_blank authSig); [discriminate|].
  apply bind_Ok in Hrun as (sessionExpiration & w7 & Hse & Hrun).
  injection Hse as <- <-.
  apply bind_Ok in Hrun as (issuedAt & w8 & Hissued & Hrun).
  injection Hrun as <- <-.
  exists sessionKey, w1, expiration, authSig, issuedAt.
  split; [exact Hkey|]. split.
  - destruct (keep_truthy_string (p_expiration params)) as [e|].
    + by injection Hexp as <- <-.
    + unfold getExpiration, bind, Date_now, ret in Hexp. by injection Hexp as <- <-.
  - destruct (p_capacityDelegationAuthSig params); done.
Qed.

(** The call shared by the examples succeeds. *)
Lemma Demo_run_Ok : Demo.run = (Ok Demo.sigs, snd Demo.run).
Proof.
  assert (Hok : is_ok (fst Demo.run) = true) by (vm_compute; reflexivity).
  unfold Demo.sigs. destruct Demo.run as [[m|e] w']; [reflexivity|discriminate].
Qed.

(** Each connected node has the entry made from the one template. *)
Lemma Demo_sigs_entries :
  Forall (fun url => Demo.sigs !! url = Some (Demo.entry url)) (connectedNodes Demo.client).
Proof.
  apply Forall_cons. split; [vm_compute; reflexivity|].
  apply Forall_cons. split; [vm_compute; reflexivity|].
  apply Forall_cons. split; [vm_compute; reflexivity|].
  apply Forall_nil_2.
Qed.

(** C10. For every successful call to [getSessionSigs] there are one session
    key (the caller's, or the one of the key store), one list of
    capabilities, one time of issue and one expiration such that every entry
    of the returned map is the signature, under the session secret key, of
    the serialisation of a template with those fields and with [nodeAddress]
    equal to the key of the entry; and the address of every entry is the
    public key of the session key. *)
Theorem getSessionSigs_templates_agree `{Externals} (this : LitNodeClientNodeJs)
    (params : GetSessionSigsProps) (w w' : World) (sigs : gmap string AuthSig) :
  getSessionSigs this params w = (Ok sigs, w') ->
  exists sessionKey w1 capabilities issuedAt expiration,
    sessionKey_source params w = (Ok sessionKey, w1)
    /\ forall url s, sigs !! url = Some s ->
        exists toSign,
          signedMessage s = JSON_stringify toSign
          /\ sig s = nacl_sign_detached (signedMessage s) (secretKey sessionKey)
          /\ address s = publicKey sessionKey
          /\ obj_keys toSign = template_keys
          /\ obj_get "sessionKey" toSign = Some (JStr (publicKey sessionKey))
          /\ obj_get "resourceAbilityRequests" toSign
             = Some (JArr (map LitResourceAbilityRequest_toJSON
                             (p_resourceAbilityRequests params)))
          /\ obj_get "capabilities" toSign = Some (JArr (map AuthSig_toJSON capabilities))
          /\ obj_get "issuedAt" toSign = Some (JStr issuedAt)
          /\ obj_get "expiration" toSign = Some (JStr expiration)
          /\ obj_get "nodeAddress" toSign = Some (JStr url).
Proof.
  intros Hrun.
  apply getSessionSigs_Ok in Hrun
    as (sessionKey & w1 & expiration & authSig & issuedAt & Hkey & Hexp & ->).
  eexists sessionKey, w1, _, (toISOString issuedAt), expiration.
  split; [exact Hkey|].
  intros url s Hs. rewrite sign_for_node_lookup in Hs.
  destruct (decide (url ∈ connectedNodes this)); [|by rewrite lookup_empty in Hs].
  injection Hs as <-.
  eexists. split; [reflexivity|]. repeat (split; [reflexivity|]). reflexivity.
Qed.

Lemma getSessionSigs_templates_agree_witness :
  Demo.run = (Ok Demo.sigs, snd Demo.run)
  /\ exists sessionKey w1 capabilities issuedAt expiration,
      sessionKey_source (Demo.session_params None) (Demo.world_with [] 0)
      = (Ok sessionKey, w1)
      /\ forall url s, Demo.sigs !! url = Some s ->
          exists toSign,
            signedMessage s = JSON_stringify toSign
            /\ sig s = nacl_sign_detached (signedMessage s) (secretKey sessionKey)
            /\ address s = publicKey sessionKey
            /\ obj_keys toSign = template_keys
            /\ obj_get "sessionKey" toSign = Some (JStr (publicKey sessionKey))
            /\ obj_get "resourceAbilityRequests" toSign
               = Some (JArr (map LitResourceAbilityRequest_toJSON
                               (p_resourceAbilityRequests (Demo.session_params None))))
            /\ obj_get "capabilities" toSign
               = Some (JArr (map AuthSig_toJSON capabilities))
            /\ obj_get "issuedAt" toSign = Some (JStr issuedAt)
            /\ obj_get "expiration" toSign = Some (JStr expiration)
            /\ obj_get "nodeAddress" toSign = Some (JStr url).
Proof.
  assert (Hrun : Demo.run = (Ok Demo.sigs, snd Demo.run)).
  { assert (Hok : is_ok (fst Demo.run) = true) by (vm_compute; reflexivity).
    unfold Demo.sigs. destruct Demo.run as [[m|e] w']; [reflexivity|discriminate]. }
  split; [exact Hrun|].
  exact (getSessionSigs_templates_agree Demo.client (Demo.session_params None)
           (Demo.world_with [] 0) (snd Demo.run) Demo.sigs Hrun).
Defined.

(** Every connected node gets its entry. *)
Lemma getSessionSigs_covers_nodes `{Externals} (this : LitNodeClientNodeJs)
    (params : GetSessionSigsProps) (w w' : World) (sigs : gmap string AuthSig) (url : string) :
  getSessionSigs this params w = (Ok sigs, w') ->
  url ∈ connectedNodes this <-> is_Some (sigs !! url).
Proof.
  intros Hrun.
  apply getSessionSigs_Ok in Hrun as (? & ? & ? & ? & ? & _ & _ & ->).
  rewrite sign_for_node_lookup.
  destruct (decide (url ∈ connectedNodes this)) as [Hin|Hnin].
  - split; [eauto|done].
  - rewrite lookup_empty. split; [done|]. by intros [? ?].
Qed.

(** One entry of a successful call. *)
Lemma getSessionSigs_entry `{Externals} (this : LitNodeClientNodeJs)
    (params : GetSessionSigsProps) (w w' : World) (sigs : gmap string AuthSig)
    (url : string) (s : AuthSig) :
  getSessionSigs this params w = (Ok sigs, w') ->
  sigs !! url = Some s ->
  exists sessionKey capabilities issuedAt expiration,
    s = sessionSig_of sessionKey
          (signingTemplate sessionKey (p_resourceAbilityRequests params) capabilities
             issuedAt expiration)
          url.
Proof.
  intros Hrun Hs.
  apply getSessionSigs_Ok in Hrun
    as (sessionKey & w1 & expiration & authSig & issuedAt & Hkey & Hexp & ->).
  rewrite sign_for_node_lookup in Hs.
  destruct (decide (url ∈ connectedNodes this)); [|by rewrite lookup_empty in Hs].
  injection Hs as <-. eauto.
Qed.

(** C8, as the code has it. The object serialised in the signed message of a
    session signature has no [uri] property; it records the public key of
    the session key under [sessionKey], and that key is the address of the
    signature, so the SessionKeyUri of the address is [lit:session:]
    followed by the recorded session key. *)
Theorem session_sig_records_session_key `{Externals} (this : LitNodeClientNodeJs)
    (params : GetSessionSigsProps) (w w' : World) (sigs : gmap string AuthSig)
    (url : string) (s : AuthSig) :
  getSessionSigs this params w = (Ok sigs, w') ->
  sigs !! url = Some s ->
  exists toSign,
    signedMessage s = JSON_stringify toSign
    /\ obj_get "uri" toSign = None
    /\ obj_get "sessionKey" toSign = Some (JStr (address s))
    /\ getSessionKeyUri (address s) = "lit:session:" +:+ address s.
Proof.
  intros Hrun Hs.
  apply getSessionSigs_Ok in Hrun
    as (sessionKey & w1 & expiration & authSig & issuedAt & Hkey & Hexp & ->).
  rewrite sign_for_node_lookup in Hs.
  destruct (decide (url ∈ connectedNodes this)); [|by rewrite lookup_empty in Hs].
  injection Hs as <-.
  eexists. split; [reflexivity|]. repeat (split; [reflexivity|]). reflexivity.
Qed.

Lemma session_sig_records_session_key_witness :
  Demo.run = (Ok Demo.sigs, snd Demo.run)
  /\ Demo.sigs !! "https://node-a.example" = Some (Demo.entry "https://node-a.example")
  /\ exists toSign,
      signedMessage (Demo.entry "https://node-a.example") = JSON_stringify toSign
      /\ obj_get "uri" toSign = None
      /\ obj_get "sessionKey" toSign
         = Some (JStr (address (Demo.entry "https://node-a.example")))
      /\ getSessionKeyUri (address (Demo.entry "https://node-a.example"))
         = "lit:session:" +:+ address (Demo.entry "https://node-a.example").
Proof.
  assert (Hrun : Demo.run = (Ok Demo.sigs, snd Demo.run)).
  { assert (Hok : is_ok (fst Demo.run) = true) by (vm_compute; reflexivity).
    unfold Demo.sigs. destruct Demo.run as [[m|e] w']; [reflexivity|discriminate]. }
  assert (Hentry : Demo.sigs !! "https://node-a.example"
                   = Some (Demo.entry "https://node-a.example"))
    by (vm_compute; reflexivity).
  split; [exact Hrun|]. split; [exact Hentry|].
  exact (session_sig_records_session_key Demo.client (Demo.session_params None)
           (Demo.world_with [] 0) (snd Demo.run) Demo.sigs "https://node-a.example"
           (Demo.entry "https://node-a.example") Hrun Hentry).
Defined.

(** The claim as stated fails: the object that a session signature
    serialises has no [uri] at all. *)
Lemma session_sig_uri_counterexample :
  ~ (forall (this : LitNodeClientNodeJs) (params : GetSessionSigsProps) (w w' : World)
            (sigs : gmap string AuthSig) (url : string) (s : AuthSig) (toSign : JsVal),
        getSessionSigs this params w = (Ok sigs, w') ->
        sigs !! url = Some s ->
        signedMessage s = JSON_stringify toSign ->
        obj_get "uri" toSign = Some (JStr ("lit:session:" +:+ address s))).
Proof.
  intros Hclaim.
  pose proof Demo_sigs_entries as Hentries.
  apply Forall_cons in Hentries as [Hentry _].
  specialize (Hclaim Demo.client (Demo.session_params None) (Demo.world_with [] 0)
                (snd Demo.run) Demo.sigs "https://node-a.example"
                (Demo.entry "https://node-a.example")
                (toSign_of Demo.template "https://node-a.example")
                Demo_run_Ok Hentry eq_refl).
  discriminate Hclaim.
Qed.

(** The signed message of that run, as text: it names the session key and
    nowhere a uri. *)
Example session_sig_text_has_no_uri :
  Demo.occurs_in (quote "uri") (signedMessage (Demo.entry "https://node-a.example")) = false
  /\ Demo.occurs_in (quote "sessionKey" +:+ ":" +:+ quote "pk0")
       (signedMessage (Demo.entry "https://node-a.example"))
     = true.
Proof. split; vm_compute; reflexivity. Qed.

(** With no expiration of the caller's, the template of every entry expires
    one day after the reading of the clock taken once the session key is
    there. *)
Lemma getSessionSigs_default_expiration `{Externals} (this : LitNodeClientNodeJs)
    (params : GetSessionSigsProps) (w w' : World) (sigs : gmap string AuthSig) :
  keep_truthy_string (p_expiration params) = None ->
  getSessionSigs this params w = (Ok sigs, w') ->
  exists sessionKey w1,
    sessionKey_source params w = (Ok sessionKey, w1)
    /\ forall url s, sigs !! url = Some s ->
        exists toSign,
          signedMessage s = JSON_stringify toSign
          /\ obj_get "expiration" toSign
             = Some (JStr (toISOString (clock w1 (ticks w1) + day_ms))).
Proof.
  intros Hnone Hrun.
  apply getSessionSigs_Ok in Hrun
    as (sessionKey & w1 & expiration & authSig & issuedAt & Hkey & Hexp & ->).
  rewrite Hnone in Hexp. subst expiration.
  exists sessionKey, w1. split; [exact Hkey|].
  intros url s Hs. rewrite sign_for_node_lookup in Hs.
  destruct (decide (url ∈ connectedNodes this)); [|by rewrite lookup_empty in Hs].
  injection Hs as <-. eexists. split; reflexivity.
Qed.

(** C5, at the failing input. No expiration is given and every reading of
    the clock is 0, the epoch. The template signed for each node is issued
    at the epoch and expires one day later, at 1970-01-02T00:00:00.000Z;
    five minutes after the epoch would be 1970-01-01T00:05:00.000Z. *)
Theorem getSessionSigs_default_expiration_is_one_day :
  p_expiration (Demo.session_params None) = None
  /\ Demo.run = (Ok Demo.sigs, snd Demo.run)
  /\ Forall (fun url =>
        exists s,
          Demo.sigs !! url = Some s
          /\ signedMessage s
             = JSON_stringify
                 (toSign_of
                    (signingTemplate (Demo.key_pair 0) Demo.requests [Demo.walletSig]
                       "1970-01-01T00:00:00.000Z" "1970-01-02T00:00:00.000Z")
                    url))
       (connectedNodes Demo.client)
  /\ toISOString (0 + day_ms) = "1970-01-02T00:00:00.000Z"
  /\ toISOString (0 + five_minutes_ms) = "1970-01-01T00:05:00.000Z".
Proof.
  split; [reflexivity|]. split; [exact Demo_run_Ok|].
  split; [|split; vm_compute; reflexivity].
  eapply Forall_impl; [exact Demo_sigs_entries|].
  intros url Hentry. exists (Demo.entry url). split; [exact Hentry|reflexivity].
Qed.

(** ** The wallet signature and the session key store *)

Lemma slot_is_missing_ERight (v : string) :
  slot_is_missing (ERight v) = String.eqb v EmptyString.
Proof.
  unfold slot_is_missing; simpl.
  destruct (String.eqb_spec v EmptyString) as [->|Hne]; [done|].
  simpl. apply bool_decide_eq_false. congruence.
Qed.

(** A stored, non-empty value is parsed; the world is left as it is, and no
    callback is involved. A value that does not parse gives [undefined]. *)
Lemma getWalletSig_stored `{Externals} (this : LitNodeClientNodeJs) (p : GetWalletSigProps)
    (w : World) (v : string) :
  read_slot LOCAL_STORAGE_KEYS_WALLET_SIGNATURE (localStorage w) = ERight v ->
  v <> EmptyString ->
  getWalletSig this p w = (Ok (JSON_parse_AuthSig v), w).
Proof.
  intros Hread Hne. unfold getWalletSig, bind, getStorageItem.
  rewrite Hread, slot_is_missing_ERight.
  destruct (String.eqb_spec v EmptyString) as [?|_]; [done|].
  unfold try_catch; simpl. destruct (JSON_parse_AuthSig v); reflexivity.
Qed.

(** With the slot absent, whatever the caller's callback answers is what
    [#getWalletSig] returns, whether or not the store takes the new value. *)
Lemma getWalletSig_callback `{Externals} (this : LitNodeClientNodeJs) (p : GetWalletSigProps)
    (w w1 : World) (cb : AuthCallback) (a : AuthSig) :
  slot_is_missing (read_slot LOCAL_STORAGE_KEYS_WALLET_SIGNATURE (localStorage w)) = true ->
  ws_authNeededCallback p = Some cb ->
  cb (walletSig_callback_body p) w = (Ok a, w1) ->
  getWalletSig this p w
  = (Ok (Some a),
     snd (setStorageItem LOCAL_STORAGE_KEYS_WALLET_SIGNATURE
            (JSON_stringify (AuthSig_toJSON a)) w1)).
Proof.
  intros Hmiss Hcb Hrun. unfold getWalletSig, bind, getStorageItem.
  rewrite Hmiss, Hcb, Hrun.
  destruct (setStorageItem _ _ w1) as [[r|e] w2] eqn:Hset; [done|].
  unfold setStorageItem in Hset.
  destruct (available (localStorage w1) && writable (localStorage w1)); discriminate.
Qed.

(** Without a callback of the caller's, the configured default is asked. *)
Lemma getWalletSig_default `{Externals} (this : LitNodeClientNodeJs) (p : GetWalletSigProps)
    (w w1 : World) (dcb : AuthCallback) (a : AuthSig) :
  slot_is_missing (read_slot LOCAL_STORAGE_KEYS_WALLET_SIGNATURE (localStorage w)) = true ->
  ws_authNeededCallback p = None ->
  defaultAuthCallback this = Some dcb ->
  dcb (walletSig_default_body p) w = (Ok a, w1) ->
  getWalletSig this p w
  = (Ok (Some a),
     snd (setStorageItem LOCAL_STORAGE_KEYS_WALLET_SIGNATURE
            (JSON_stringify (AuthSig_toJSON a)) w1)).
Proof.
  intros Hmiss Hcb Hdcb Hrun. unfold getWalletSig, bind, getStorageItem.
  rewrite Hmiss, Hcb, Hdcb, Hrun.
  destruct (setStorageItem _ _ w1) as [[r|e] w2] eqn:Hset; [done|].
  unfold setStorageItem in Hset.
  destruct (available (localStorage w1) && writable (localStorage w1)); discriminate.
Qed.

(** With neither callback, the call fails with ParamsMissing. *)
Lemma getWalletSig_no_callback `{Externals} (this : LitNodeClientNodeJs)
    (p : GetWalletSigProps) (w : World) :
  slot_is_missing (read_slot LOCAL_STORAGE_KEYS_WALLET_SIGNATURE (localStorage w)) = true ->
  ws_authNeededCallback p = None ->
  defaultAuthCallback this = None ->
  getWalletSig this p w
  = (Throw (LitError PARAMS_MISSING_ERROR "No default auth callback provided"), w).
Proof.
  intros Hmiss Hcb Hdcb. unfold getWalletSig, bind, getStorageItem.
  by rewrite Hmiss, Hcb, Hdcb.
Qed.

(** C6, at the failing input. The wallet-signature slot holds text that is
    not JSON. Whatever callbacks the caller and the client have,
    [#getWalletSig] invokes none of them: it returns [undefined] and leaves
    the world, the stored text included, as it was. *)
Theorem getWalletSig_unparsable_returns_undefined
    (callback defaultCallback : option AuthCallback) :
  JSON_parse_AuthSig Demo.broken_json = None
  /\ getWalletSig (Demo.client_with defaultCallback) (Demo.wallet_props callback)
       (Demo.world_with [(LOCAL_STORAGE_KEYS_WALLET_SIGNATURE, Demo.broken_json)] 0)
     = (Ok None,
        Demo.world_with [(LOCAL_STORAGE_KEYS_WALLET_SIGNATURE, Demo.broken_json)] 0).
Proof.
  split; [reflexivity|].
  rewrite (getWalletSig_stored _ _ _ Demo.broken_json); [reflexivity| |discriminate].
  vm_compute. reflexivity.
Qed.

(** [getSessionSigs] then fails on that [undefined]. *)
Example getSessionSigs_unparsable_wallet_signature :
  fst (getSessionSigs Demo.client (Demo.session_params None)
         (Demo.world_with [(LOCAL_STORAGE_KEYS_WALLET_SIGNATURE, Demo.broken_json)] 0))
  = Throw TypeError.
Proof. vm_compute. reflexivity. Qed.

(** An absent session key is replaced by a fresh pair, whether or not the
    store takes it. *)
Lemma getSessionKey_absent `{Externals} (w : World) :
  slot_is_missing (read_slot LOCAL_STORAGE_KEYS_SESSION_KEY (localStorage w)) = true ->
  exists w', getSessionKey w = (Ok (generateSessionKeyPair (entropy w)), w')
    /\ entropy w' = S (entropy w).
Proof.
  intros Hmiss. unfold getSessionKey, bind, getStorageItem. rewrite Hmiss.
  unfold new_key_pair, try_catch, localStorage_setItem, ret; simpl.
  destruct (available (localStorage w) && writable (localStorage w));
    eexists; split; reflexivity.
Qed.

(** A stored, non-empty session key is parsed, and a parse error is raised
    to the caller. *)
Lemma getSessionKey_stored `{Externals} (w : World) (v : string) :
  read_slot LOCAL_STORAGE_KEYS_SESSION_KEY (localStorage w) = ERight v ->
  v <> EmptyString ->
  getSessionKey w
  = (match JSON_parse_SessionKeyPair v with
     | Some k => Ok k
     | None => Throw SyntaxError
     end, w).
Proof.
  intros Hread Hne. unfold getSessionKey, bind, getStorageItem.
  rewrite Hread, slot_is_missing_ERight.
  destruct (String.eqb_spec v EmptyString) as [?|_]; [done|].
  simpl. destruct (JSON_parse_SessionKeyPair v); reflexivity.
Qed.




(** ** The shares of [signSessionKey] *)

(** On a response that is not [null] the inner loop raises nothing, and
    finds a field missing exactly when one of them is falsy: the comparison
    with the empty string adds nothing to the test [!data[key]]. *)
Lemma some_field_missing_not_null (data : JsVal) (fields : list string) :
  is_null data = false ->
  some_field_missing data fields
  = Ok (negb (forallb (fun field => truthy (obj_get field data)) fields)).
Proof.
  intros Hnull. induction fields as [|f rest IH]; [reflexivity|].
  cbn [some_field_missing forallb].
  assert (get_property f (Some data) = Ok (obj_get f data)) as ->
    by (by destruct data).
  destruct (truthy (obj_get f data)) eqn:Ht; simpl; [|reflexivity].
  assert (is_empty_string (obj_get f data) = false) as ->; [|exact IH].
  destruct (obj_get f data) as [[]|]; simpl in *; try done.
  by destruct (String.eqb s "").
Qed.

Lemma validate_response_not_null (data : JsVal) :
  is_null data = false ->
  validate_response data
  = if every_field_truthy data
    then if has_ProofOfPossession data
         then Ok (Some data)
         else Throw (Error ProofOfPossession_is_missing)
    else Ok None.
Proof.
  intros Hnull. unfold validate_response, every_field_truthy.
  rewrite some_field_missing_not_null by done.
  destruct (forallb _ requiredFields); simpl; [|reflexivity].
  by destruct (has_ProofOfPossession data).
Qed.

(** The list of the signed data: reading [dataSigned] of a response that is
    [null] raises. *)
Lemma map_res_dataSigned (responseData : list JsVal) :
  map_res (fun s => get_property "dataSigned" (Some s)) responseData
  = if existsb is_null responseData
    then Throw TypeError
    else Ok (map (obj_get "dataSigned") responseData).
Proof.
  induction responseData as [|d rest IH]; [reflexivity|].
  cbn [map_res existsb map]. rewrite IH.
  destruct d; try reflexivity; by destruct (existsb is_null rest).
Qed.

(** What the mapping of the responses gives when none is [null]: an
    exception as soon as a response that the loop lets through carries no
    proof, else those responses, with [null] in place of the others. *)
Lemma map_res_validate_response (responseData : list JsVal) :
  existsb is_null responseData = false ->
  map_res validate_response responseData
  = if existsb (fun d => every_field_truthy d && negb (has_ProofOfPossession d))
         responseData
    then Throw (Error ProofOfPossession_is_missing)
    else Ok (map (fun d => if every_field_truthy d then Some d else None) responseData).
Proof.
  induction responseData as [|d rest IH]; [reflexivity|].
  intros Hnull. cbn [existsb] in Hnull. apply orb_false_iff in Hnull as [Hd Hrest].
  cbn [map_res existsb map]. rewrite validate_response_not_null by done.
  destruct (every_field_truthy d); simpl.
  - destruct (has_ProofOfPossession d); simpl; [|reflexivity].
    rewrite IH by done. clear IH Hrest. by destruct (existsb _ rest).
  - rewrite IH by done. clear IH Hrest. by destruct (existsb _ rest).
Qed.

Lemma filter_not_null_complete (responseData : list JsVal) :
  filter_not_null (map (fun d => if every_field_truthy d then Some d else None) responseData)
  = List.filter every_field_truthy responseData.
Proof.
  induction responseData as [|d rest IH]; [reflexivity|].
  unfold filter_not_null in *. cbn [map omap list_omap List.filter].
  destruct (every_field_truthy d); simpl; by rewrite IH.
Qed.

(** The validation in closed form, in the order in which the code can
    fail. *)
Lemma validate_shares_closed (this : LitNodeClientNodeJs) (responseData : list JsVal) :
  validate_shares this responseData
  = if existsb is_null responseData then Throw TypeError
    else if (Z.of_nat (length responseData) <=? 0)%Z
    then Throw (Error "[signSessionKey] signedDataList is empty.")
    else if existsb (fun d => every_field_truthy d && negb (has_ProofOfPossession d))
              responseData
    then Throw (Error ProofOfPossession_is_missing)
    else if (Z.of_nat (length (List.filter every_field_truthy responseData))
             <? minNodeCount this)%Z
    then Throw (Error (not_enough_nodes (minNodeCount this)
                         (Z.of_nat (length (List.filter every_field_truthy responseData)))))
    else Ok (List.filter every_field_truthy responseData).
Proof.
  unfold validate_shares. rewrite map_res_dataSigned.
  destruct (existsb is_null responseData) eqn:Hnull; [reflexivity|].
  rewrite length_map.
  destruct (Z.of_nat (length responseData) <=? 0)%Z; [reflexivity|].
  rewrite map_res_validate_response by done. clear Hnull.
  destruct (existsb _ responseData); [reflexivity|].
  by rewrite filter_not_null_complete.
Qed.

(** On a field that is neither the number 0 nor [false], the test of the
    code and the reading of the specification agree. *)
Lemma truthy_field_missing (value : option JsVal) :
  neither_zero_nor_false value = true -> truthy value = negb (field_missing value).
Proof. by destruct value as [[]|]. Qed.

Lemma as_declared_complete (data : JsVal) :
  as_declared data = true ->
  is_null data = false /\ every_field_truthy data = is_complete data.
Proof.
  unfold as_declared, every_field_truthy, is_complete.
  intros [Hobj Hfields]%andb_true_iff. split; [by destruct data|].
  induction requiredFields as [|f rest IH]; [reflexivity|].
  cbn [forallb] in *. apply andb_true_iff in Hfields as [Hf Hrest].
  by rewrite truthy_field_missing, IH.
Qed.

Lemma as_declared_all (responseData : list JsVal) (P : JsVal -> bool) :
  Forall (fun d => as_declared d = true) responseData ->
  existsb is_null responseData = false
  /\ existsb (fun d => every_field_truthy d && P d) responseData
     = existsb (fun d => is_complete d && P d) responseData
  /\ List.filter every_field_truthy responseData = List.filter is_complete responseData.
Proof.
  induction 1 as [|d rest Hd _ (IH1 & IH2 & IH3)]; [done|].
  apply as_declared_complete in Hd as [Hnull Heq].
  cbn [existsb List.filter]. by rewrite Hnull, Heq, IH1, IH2, IH3.
Qed.

(** C9, as the code has it by design. On the BLS combining path, for a
    client that needs at least one share and responses as the nodes are
    declared to send them: a response that a required field is missing from
    (absent, [null] or empty) is dropped without failing the call; a
    response with every required field whose share carries no
    ProofOfPossession makes the call fail; otherwise the call fails exactly
    when fewer than minNodeCount responses remain, and the remaining ones
    are the complete responses in their order. *)
Theorem validate_shares_spec (this : LitNodeClientNodeJs) (responseData : list JsVal) :
  (0 < minNodeCount this)%Z ->
  Forall (fun d => as_declared d = true) responseData ->
  if existsb (fun d => is_complete d && negb (has_ProofOfPossession d)) responseData
  then validate_shares this responseData = Throw (Error ProofOfPossession_is_missing)
  else (is_ok (validate_shares this responseData) = false
        <-> (Z.of_nat (length (List.filter is_complete responseData)) < minNodeCount this)%Z)
       /\ (is_ok (validate_shares this responseData) = true ->
           validate_shares this responseData = Ok (List.filter is_complete responseData)).
Proof.
  intros Hmin Hdeclared. rewrite validate_shares_closed.
  destruct (as_declared_all responseData (fun d => negb (has_ProofOfPossession d))
              Hdeclared) as (-> & -> & ->).
  destruct (Z.leb_spec (Z.of_nat (length responseData)) 0) as [Hempty|Hsome].
  - assert (responseData = []) as -> by (destruct responseData; [done|simpl in *; lia]).
    simpl. split; [|done]. split; [lia|done].
  - destruct (existsb _ responseData); [reflexivity|].
    destruct (Z.ltb_spec (Z.of_nat (length (List.filter is_complete responseData)))
                (minNodeCount this)) as [Hlt|Hge]; simpl.
    + split; [|done]. split; [done|done].
    + split; [|done]. split; [done|lia].
Qed.

Lemma validate_shares_spec_witness :
  (is_ok (validate_shares Demo.client
            [Demo.good_share 1; Demo.incomplete_share; Demo.good_share 2]) = false
   <-> (Z.of_nat (length (List.filter is_complete
                            [Demo.good_share 1; Demo.incomplete_share; Demo.good_share 2]))
        < minNodeCount Demo.client)%Z)
  /\ (is_ok (validate_shares Demo.client
               [Demo.good_share 1; Demo.incomplete_share; Demo.good_share 2]) = true ->
      validate_shares Demo.client
        [Demo.good_share 1; Demo.incomplete_share; Demo.good_share 2]
      = Ok (List.filter is_complete
              [Demo.good_share 1; Demo.incomplete_share; Demo.good_share 2])).
Proof.
  apply (validate_shares_spec Demo.client
           [Demo.good_share 1; Demo.incomplete_share; Demo.good_share 2]).
  - reflexivity.
  - repeat (apply Forall_cons; split; [reflexivity|]). apply Forall_nil_2.
Defined.

(** The claim as stated fails: two complete shares with their proofs are
    enough for a client that needs two, yet a third response, which has
    every required field but no proof in its share, fails the call. *)
Lemma validate_shares_counterexample :
  ~ (forall (this : LitNodeClientNodeJs) (responseData : list JsVal),
        is_ok (validate_shares this responseData) = false
        <-> (Z.of_nat (length (List.filter is_complete responseData)) < minNodeCount this)%Z).
Proof.
  intros Hclaim.
  destruct (Hclaim Demo.client
              [Demo.good_share 1; Demo.good_share 2; Demo.share_without_proof])
    as [Hfails _].
  specialize (Hfails eq_refl). vm_compute in Hfails. discriminate.
Qed.

(** An incomplete response is dropped and the call goes on. *)
Example validate_shares_drops_incomplete :
  validate_shares Demo.client
    [Demo.good_share 1; Demo.incomplete_share; Demo.good_share 2]
  = Ok [Demo.good_share 1; Demo.good_share 2].
Proof. reflexivity. Qed.

(** The test of the code is one of truthiness: a share of index 0, which
    has its index, is dropped as well. *)
Example validate_shares_drops_index_zero :
  validate_shares Demo.client
    [Demo.good_share 0; Demo.good_share 1; Demo.good_share 2]
  = Ok [Demo.good_share 1; Demo.good_share 2].
Proof. reflexivity. Qed.

(** A response that is [null] makes the call raise a TypeError. *)
Example validate_shares_null_response :
  validate_shares Demo.client [Demo.good_share 1; JNull; Demo.good_share 2]
  = Throw TypeError.
Proof. reflexivity. Qed.

(** * Further properties *)

(** ** The two persisted slots *)

Lemma JSON_stringify_object_not_empty (ps : list (string * JsVal)) :
  JSON_stringify (JObj ps) <> EmptyString.
Proof. discriminate. Qed.

Lemma read_slot_insert (key value : string) (s : LocalStorage) :
  available s = true ->
  read_slot key (mkStorage (available s) (writable s) (removable s) (<[key := value]> (items s)))
  = ERight value.
Proof. intros Ha. unfold read_slot; simpl. by rewrite Ha, lookup_insert_eq. Qed.

(** X1. [getSessionKey] on a usable store without a session key: the pair it
    generates is written to the slot, and the next call returns that same
    pair from the store, generating nothing (the parser reading back what
    [JSON.stringify] wrote). *)
Theorem getSessionKey_persists `{Externals} (w : World) :
  slot_is_missing (read_slot LOCAL_STORAGE_KEYS_SESSION_KEY (localStorage w)) = true ->
  available (localStorage w) = true ->
  writable (localStorage w) = true ->
  JSON_parse_SessionKeyPair
    (JSON_stringify (SessionKeyPair_toJSON (generateSessionKeyPair (entropy w))))
  = Some (generateSessionKeyPair (entropy w)) ->
  exists w',
    getSessionKey w = (Ok (generateSessionKeyPair (entropy w)), w')
    /\ items (localStorage w') !! LOCAL_STORAGE_KEYS_SESSION_KEY
       = Some (JSON_stringify (SessionKeyPair_toJSON (generateSessionKeyPair (entropy w))))
    /\ getSessionKey w' = (Ok (generateSessionKeyPair (entropy w)), w').
Proof.
  intros Hmiss Ha Hw Hparse.
  eexists. split; [|split].
  - unfold getSessionKey, bind, getStorageItem. rewrite Hmiss.
    unfold new_key_pair, try_catch, localStorage_setItem, ret; simpl.
    rewrite Ha, Hw; simpl. reflexivity.
  - simpl. apply lookup_insert_eq.
  - rewrite (getSessionKey_stored _
               (JSON_stringify (SessionKeyPair_toJSON (generateSessionKeyPair (entropy w))))).
    + by rewrite Hparse.
    + unfold read_slot; simpl. by rewrite ?Ha, lookup_insert_eq.
    + apply JSON_stringify_object_not_empty.
Qed.

Lemma getSessionKey_persists_witness :
  slot_is_missing
    (read_slot LOCAL_STORAGE_KEYS_SESSION_KEY (localStorage (Demo.world_with [] 0))) = true
  /\ exists w',
      getSessionKey (Demo.world_with [] 0)
      = (Ok (generateSessionKeyPair (entropy (Demo.world_with [] 0))), w')
      /\ items (localStorage w') !! LOCAL_STORAGE_KEYS_SESSION_KEY
         = Some (JSON_stringify
                   (SessionKeyPair_toJSON
                      (generateSessionKeyPair (entropy (Demo.world_with [] 0)))))
      /\ getSessionKey w'
         = (Ok (generateSessionKeyPair (entropy (Demo.world_with [] 0))), w').
Proof.
  split; [vm_compute; reflexivity|].
  apply (getSessionKey_persists (Demo.world_with [] 0)); vm_compute; reflexivity.
Defined.

(** X2. [getSessionKey] without a store it can write to (the slot being
    absent): it never fails, nothing is kept, and every call generates
    another pair. *)
Theorem getSessionKey_without_store `{Externals} (w : World) :
  slot_is_missing (read_slot LOCAL_STORAGE_KEYS_SESSION_KEY (localStorage w)) = true ->
  available (localStorage w) && writable (localStorage w) = false ->
  exists w1 w2,
    getSessionKey w = (Ok (generateSessionKeyPair (entropy w)), w1)
    /\ getSessionKey w1 = (Ok (generateSessionKeyPair (S (entropy w))), w2)
    /\ localStorage w1 = localStorage w
    /\ localStorage w2 = localStorage w.
Proof.
  intros Hmiss Hstore.
  assert (Hcall : forall w0, localStorage w0 = localStorage w ->
            getSessionKey w0
            = (Ok (generateSessionKeyPair (entropy w0)),
               mkWorld (localStorage w0) (clock w0) (ticks w0) (S (entropy w0)) (sent w0))).
  { intros w0 Heq. unfold getSessionKey, bind, getStorageItem. rewrite Heq, Hmiss.
    unfold new_key_pair, try_catch, localStorage_setItem, ret; simpl.
    rewrite Heq, Hstore. reflexivity. }
  eexists _, _. split; [apply Hcall; reflexivity|].
  split; [rewrite Hcall by reflexivity; reflexivity|]. split; reflexivity.
Qed.

Lemma getSessionKey_without_store_witness :
  slot_is_missing
    (read_slot LOCAL_STORAGE_KEYS_SESSION_KEY (localStorage Scenario.storeless_world)) = true
  /\ exists w1 w2,
      getSessionKey Scenario.storeless_world
      = (Ok (generateSessionKeyPair (entropy Scenario.storeless_world)), w1)
      /\ getSessionKey w1
         = (Ok (generateSessionKeyPair (S (entropy Scenario.storeless_world))), w2)
      /\ localStorage w1 = localStorage Scenario.storeless_world
      /\ localStorage w2 = localStorage Scenario.storeless_world.
Proof.
  split; [vm_compute; reflexivity|].
  apply (getSessionKey_without_store Scenario.storeless_world); vm_compute; reflexivity.
Defined.

(** X3. [#getWalletSig] writes through: when the slot is absent and the
    store takes the answer of the caller's callback, every later call, with
    any callbacks or none, returns that answer from the store and leaves the
    world alone. *)
Theorem getWalletSig_then_cached `{Externals} (this : LitNodeClientNodeJs)
    (p : GetWalletSigProps) (w w1 : World) (cb : AuthCallback) (a : AuthSig) :
  slot_is_missing (read_slot LOCAL_STORAGE_KEYS_WALLET_SIGNATURE (localStorage w)) = true ->
  ws_authNeededCallback p = Some cb ->
  cb (walletSig_callback_body p) w = (Ok a, w1) ->
  available (localStorage w1) = true ->
  writable (localStorage w1) = true ->
  JSON_parse_AuthSig (JSON_stringify (AuthSig_toJSON a)) = Some a ->
  exists w2,
    getWalletSig this p w = (Ok (Some a), w2)
    /\ forall this' p', getWalletSig this' p' w2 = (Ok (Some a), w2).
Proof.
  intros Hmiss Hcb Hrun Ha Hw Hparse.
  eexists. split; [by apply (getWalletSig_callback this p w w1 cb a)|].
  intros this' p'.
  rewrite (getWalletSig_stored this' p' _ (JSON_stringify (AuthSig_toJSON a))).
  - by rewrite Hparse.
  - unfold setStorageItem. rewrite Ha, Hw. unfold read_slot; simpl.
    by rewrite ?Ha, lookup_insert_eq.
  - apply JSON_stringify_object_not_empty.
Qed.

Lemma getWalletSig_then_cached_witness :
  slot_is_missing
    (read_slot LOCAL_STORAGE_KEYS_WALLET_SIGNATURE (localStorage (Demo.world_with [] 0)))
  = true
  /\ exists w2,
      getWalletSig Demo.client (Demo.wallet_props (Some Demo.wallet)) (Demo.world_with [] 0)
      = (Ok (Some Demo.walletSig), w2)
      /\ forall this' p', getWalletSig this' p' w2 = (Ok (Some Demo.walletSig), w2).
Proof.
  split; [vm_compute; reflexivity|].
  apply (getWalletSig_then_cached Demo.client (Demo.wallet_props (Some Demo.wallet))
           (Demo.world_with [] 0) (Demo.world_with [] 0) Demo.wallet Demo.walletSig);
    vm_compute; reflexivity.
Defined.



(** ** More on [getSessionSigs] *)

(** The shape of a successful call, with what is known of the wallet
    signature it lists. *)
Lemma getSessionSigs_shape `{Externals} (this : LitNodeClientNodeJs)
    (params : GetSessionSigsProps) (w w' : World) (sigs : gmap string AuthSig) :
  getSessionSigs this params w = (Ok sigs, w') ->
  exists sessionKey authSig issuedAt expiration,
    walletSig_is_blank authSig = false
    /\ sigs
       = fold_left
           (sign_for_node sessionKey
              (signingTemplate sessionKey (p_resourceAbilityRequests params)
                 (capabilities_of params authSig) issuedAt expiration))
           (connectedNodes this) ∅.
Proof.
  unfold getSessionSigs. intros Hrun.
  apply bind_Ok in Hrun as (sessionKey & w1 & Hkey & Hrun).
  apply bind_Ok in Hrun as (expiration & w2 & Hexp & Hrun).
  apply bind_Ok in Hrun as (nonce & w3 & Hnonce & Hrun).
  apply bind_Ok in Hrun as (walletSig' & w4 & Hwallet & Hrun).
  destruct walletSig' as [walletSig|]; [|discriminate].
  apply bind_Ok in Hrun as (need & w5 & Hneed & Hrun).
  apply bind_Ok in Hrun as (authSig & w6 & Hresign & Hrun).
  destruct (walletSig_is_blank authSig) eqn:Hblank; [discriminate|].
  apply bind_Ok in Hrun as (sessionExpiration & w7 & Hse & Hrun).
  injection Hse as <- <-.
  apply bind_Ok in Hrun as (issuedAt & w8 & Hissued & Hrun).
  injection Hrun as <- <-.
  exists sessionKey, authSig, (toISOString issuedAt), expiration.
  split; [exact Hblank|]. unfold capabilities_of.
  destruct (p_capacityDelegationAuthSig params); reflexivity.
Qed.

Lemma walletSig_is_blank_false (a : AuthSig) :
  walletSig_is_blank a = false ->
  address a <> EmptyString /\ derivedVia a <> EmptyString
  /\ sig a <> EmptyString /\ signedMessage a <> EmptyString.
Proof.
  unfold walletSig_is_blank. intros Hb.
  apply orb_false_iff in Hb as [Hb Hm]. apply orb_false_iff in Hb as [Hb Hs].
  apply orb_false_iff in Hb as [Ha Hd].
  repeat split; intros Heq; rewrite Heq in *; discriminate.
Qed.

(** X5. Every entry of a successful [getSessionSigs] is marked as a NaCl
    session signature (derivedVia [litSessionSignViaNacl], algo [ed25519]),
    and the capabilities of its template end with one wallet signature, the
    same for all entries, whose address, derivedVia, sig and signedMessage
    are all non-empty. *)
Theorem getSessionSigs_lists_wallet_signature `{Externals} (this : LitNodeClientNodeJs)
    (params : GetSessionSigsProps) (w w' : World) (sigs : gmap string AuthSig) :
  getSessionSigs this params w = (Ok sigs, w') ->
  exists authSig,
    address authSig <> EmptyString /\ derivedVia authSig <> EmptyString
    /\ sig authSig <> EmptyString /\ signedMessage authSig <> EmptyString
    /\ forall url s, sigs !! url = Some s ->
        derivedVia s = "litSessionSignViaNacl"
        /\ algo s = Some "ed25519"
        /\ exists toSign,
            signedMessage s = JSON_stringify toSign
            /\ obj_get "capabilities" toSign
               = Some (JArr (map AuthSig_toJSON (capabilities_of params authSig)))
            /\ last (capabilities_of params authSig) = Some authSig.
Proof.
  intros Hrun.
  apply getSessionSigs_shape in Hrun
    as (sessionKey & authSig & issuedAt & expiration & Hblank & ->).
  exists authSig.
  destruct (walletSig_is_blank_false _ Hblank) as (Ha & Hd & Hs & Hm).
  repeat (split; [assumption|]).
  intros url s Hs'. rewrite sign_for_node_lookup in Hs'.
  destruct (decide (url ∈ connectedNodes this)); [|by rewrite lookup_empty in Hs'].
  injection Hs' as <-. split; [reflexivity|]. split; [reflexivity|].
  eexists. split; [reflexivity|]. split; [reflexivity|].
  unfold capabilities_of. destruct (p_capacityDelegationAuthSig params).
  - rewrite last_app. reflexivity.
  - rewrite last_app. reflexivity.
Qed.

Lemma getSessionSigs_lists_wallet_signature_witness :
  Demo.run = (Ok Demo.sigs, snd Demo.run)
  /\ exists authSig,
      address authSig <> EmptyString /\ derivedVia authSig <> EmptyString
      /\ sig authSig <> EmptyString /\ signedMessage authSig <> EmptyString
      /\ forall url s, Demo.sigs !! url = Some s ->
          derivedVia s = "litSessionSignViaNacl"
          /\ algo s = Some "ed25519"
          /\ exists toSign,
              signedMessage s = JSON_stringify toSign
              /\ obj_get "capabilities" toSign
                 = Some (JArr (map AuthSig_toJSON
                                 (capabilities_of (Demo.session_params None) authSig)))
              /\ last (capabilities_of (Demo.session_params None) authSig) = Some authSig.
Proof.
  assert (Hrun : Demo.run = (Ok Demo.sigs, snd Demo.run)).
  { assert (Hok : is_ok (fst Demo.run) = true) by (vm_compute; reflexivity).
    unfold Demo.sigs. destruct Demo.run as [[m|e] w']; [reflexivity|discriminate]. }
  split; [exact Hrun|].
  exact (getSessionSigs_lists_wallet_signature Demo.client (Demo.session_params None)
           (Demo.world_with [] 0) (snd Demo.run) Demo.sigs Hrun).
Defined.

(** X6. The map that a successful [getSessionSigs] returns has an entry for
    each connected node and for nothing else. *)
Theorem getSessionSigs_keys `{Externals} (this : LitNodeClientNodeJs)
    (params : GetSessionSigsProps) (w w' : World) (sigs : gmap string AuthSig) :
  getSessionSigs this params w = (Ok sigs, w') ->
  dom sigs = list_to_set (connectedNodes this).
Proof.
  intros Hrun. apply set_eq. intros url.
  rewrite elem_of_dom, elem_of_list_to_set.
  apply getSessionSigs_shape in Hrun as (? & ? & ? & ? & _ & ->).
  rewrite sign_for_node_lookup.
  destruct (decide (url ∈ connectedNodes this)) as [Hin|Hnin].
  - split; [done|eauto].
  - rewrite lookup_empty. split; [by intros [? ?]|done].
Qed.

Lemma getSessionSigs_keys_witness :
  Demo.run = (Ok Demo.sigs, snd Demo.run)
  /\ dom Demo.sigs = list_to_set (connectedNodes Demo.client).
Proof.
  assert (Hrun : Demo.run = (Ok Demo.sigs, snd Demo.run)).
  { assert (Hok : is_ok (fst Demo.run) = true) by (vm_compute; reflexivity).
    unfold Demo.sigs. destruct Demo.run as [[m|e] w']; [reflexivity|discriminate]. }
  split; [exact Hrun|].
  exact (getSessionSigs_keys Demo.client (Demo.session_params None)
           (Demo.world_with [] 0) (snd Demo.run) Demo.sigs Hrun).
Defined.

(** X7. Without a latest blockhash [getSessionSigs] fails with
    InvalidEthBlockhash once the session key is there: no callback is
    invoked and the wallet signature is neither read nor written, but a
    session key that had to be generated stays generated and stored. *)
Theorem getSessionSigs_without_blockhash `{Externals} (this : LitNodeClientNodeJs)
    (params : GetSessionSigsProps) (w w1 : World) (sessionKey : SessionKeyPair) :
  keep_truthy_string (latestBlockhash this) = None ->
  sessionKey_source params w = (Ok sessionKey, w1) ->
  exists w',
    getSessionSigs this params w
    = (Throw (LitError INVALID_ETH_BLOCKHASH "Eth Blockhash is undefined."), w')
    /\ localStorage w' = localStorage w1
    /\ entropy w' = entropy w1
    /\ sent w' = sent w1.
Proof.
  intros Hhash Hkey. unfold getSessionSigs, bind at 1. rewrite Hkey.
  unfold bind at 1.
  destruct (keep_truthy_string (p_expiration params)) as [e|].
  - unfold ret, bind. rewrite Hhash. unfold throw. eauto.
  - unfold getExpiration, bind, Date_now, ret. rewrite Hhash. unfold throw.
    eexists. split; [reflexivity|]. simpl. auto.
Qed.

Lemma getSessionSigs_without_blockhash_witness :
  keep_truthy_string (latestBlockhash Scenario.client_without_blockhash) = None
  /\ exists w',
      getSessionSigs Scenario.client_without_blockhash Demo.bare_params
        (Demo.world_with [] 0)
      = (Throw (LitError INVALID_ETH_BLOCKHASH "Eth Blockhash is undefined."), w')
      /\ localStorage w' = localStorage (Demo.world_with [] 0)
      /\ entropy w' = entropy (Demo.world_with [] 0)
      /\ sent w' = sent (Demo.world_with [] 0).
Proof.
  split; [reflexivity|].
  apply (getSessionSigs_without_blockhash Scenario.client_without_blockhash
           Demo.bare_params (Demo.world_with [] 0) (Demo.world_with [] 0)
           (Demo.key_pair 0)); reflexivity.
Defined.

Lemma bind_run {A B : Type} (m : M A) (k : A -> M B) (w w1 : World) (a : A) :
  m w = (Ok a, w1) -> bind m k w = k a w1.
Proof. intros Hm. unfold bind. by rewrite Hm. Qed.

(** The store is the only part of the world that the write-back touches. *)
Lemma authCallbackAndUpdateStorageItem_clock `{Externals} (this : LitNodeClientNodeJs)
    (authCallbackParams : AuthCallbackParams) (cb : AuthCallback) (w w1 : World)
    (a : AuthSig) :
  cb authCallbackParams w = (Ok a, w1) ->
  exists w2,
    authCallbackAndUpdateStorageItem this authCallbackParams (Some cb) w = (Ok a, w2)
    /\ clock w2 = clock w1 /\ ticks w2 = ticks w1.
Proof.
  intros Hrun. unfold authCallbackAndUpdateStorageItem, bind. rewrite Hrun.
  unfold setStorageItem, removeStorageItem, ret.
  destruct (available (localStorage w1) && writable (localStorage w1)) eqn:Hs; simpl.
  - eexists. split; [reflexivity|]. split; reflexivity.
  - destruct (removable (localStorage w1)); eexists; (split; [reflexivity|]);
      split; reflexivity.
Qed.

(** X8. The second round is not checked. When the stored wallet signature
    is stale for the session key, the caller's callback is asked again with
    the session key uri, and whatever non-blank AuthSig it answers becomes
    the wallet signature of every template: the re-sign predicate is not
    applied to it. *)
Theorem getSessionSigs_second_round_unchecked `{Externals} (this : LitNodeClientNodeJs)
    (params : GetSessionSigsProps) (w w1 : World) (sessionKey : SessionKeyPair)
    (expiration nonce stored : string) (cached a : AuthSig) (cb : AuthCallback) :
  p_sessionKey params = Some sessionKey ->
  keep_truthy_string (p_expiration params) = Some expiration ->
  keep_truthy_string (latestBlockhash this) = Some nonce ->
  read_slot LOCAL_STORAGE_KEYS_WALLET_SIGNATURE (localStorage w) = ERight stored ->
  stored <> EmptyString ->
  JSON_parse_AuthSig stored = Some cached ->
  checkNeedToResignSessionKey cached (getSessionKeyUri (publicKey sessionKey))
    (p_resourceAbilityRequests params) = Ok true ->
  p_authNeededCallback params = Some cb ->
  cb (resign_params params (sessionCapabilityObject_of params) expiration sessionKey
        (getSessionKeyUri (publicKey sessionKey)) nonce) w = (Ok a, w1) ->
  walletSig_is_blank a = false ->
  exists w',
    getSessionSigs this params w
    = (Ok (fold_left
             (sign_for_node sessionKey
                (signingTemplate sessionKey (p_resourceAbilityRequests params)
                   (capabilities_of params a)
                   (toISOString (clock w1 (ticks w1))) expiration))
             (connectedNodes this) ∅), w').
Proof.
  intros Hkey Hexp Hnonce Hread Hne Hparse Hstale Hcb Hrun Hblank.
  destruct (authCallbackAndUpdateStorageItem_clock this _ cb w w1 a Hrun)
    as (w2 & Hresign & Hclock & Hticks).
  unfold getSessionSigs.
  erewrite bind_run by (unfold sessionKey_source; rewrite Hkey; reflexivity).
  erewrite bind_run by (rewrite Hexp; reflexivity).
  erewrite bind_run by (rewrite Hnonce; reflexivity).
  erewrite bind_run by (apply getWalletSig_stored; eassumption).
  rewrite Hparse.
  erewrite bind_run by (unfold lift; rewrite Hstale; reflexivity).
  rewrite Hcb. erewrite bind_run by exact Hresign.
  rewrite Hblank.
  erewrite bind_run by reflexivity.
  erewrite bind_run by reflexivity.
  unfold ret. rewrite Hclock, Hticks. eexists. unfold capabilities_of.
  destruct (p_capacityDelegationAuthSig params); reflexivity.
Qed.

(** The stored signature is for [pk0], the request for [pk1]: the wallet is
    asked again, answers with the same stale signature, and the session
    signatures of [pk1] list it. *)
Lemma getSessionSigs_second_round_unchecked_witness :
  checkNeedToResignSessionKey Demo.walletSig
    (getSessionKeyUri (publicKey (Demo.key_pair 1))) Demo.requests = Ok true
  /\ exists w',
      getSessionSigs Demo.client Scenario.params_pk1 Scenario.cached_world
      = (Ok (fold_left
               (sign_for_node (Demo.key_pair 1)
                  (signingTemplate (Demo.key_pair 1)
                     (p_resourceAbilityRequests Scenario.params_pk1)
                     (capabilities_of Scenario.params_pk1 Demo.walletSig)
                     (toISOString
                        (clock Scenario.cached_world (ticks Scenario.cached_world)))
                     "2030-01-01T00:00:00.000Z"))
               (connectedNodes Demo.client) ∅), w').
Proof.
  split; [vm_compute; reflexivity|].
  apply (getSessionSigs_second_round_unchecked Demo.client Scenario.params_pk1
           Scenario.cached_world Scenario.cached_world (Demo.key_pair 1)
           "2030-01-01T00:00:00.000Z" "0xb10c"
           (JSON_stringify (AuthSig_toJSON Demo.walletSig))
           Demo.walletSig Demo.walletSig Scenario.stubborn);
    first [discriminate | vm_compute; reflexivity].
Defined.

(** ** More on the targeted execution *)

(** Distinct indices below [n] are at most [n]. *)
Lemma distinct_in_range (n : Z) (l : list Z) :
  (0 <= n)%Z ->
  NoDup l -> Forall (fun i => (0 <= i < n)%Z) l -> (Z.of_nat (length l) <= n)%Z.
Proof.
  intros Hn Hnd Hrange.
  assert (Hsub : l ⊆+ map Z.of_nat (seq 0 (Z.to_nat n))).
  { apply NoDup_submseteq; [done|]. intros x Hx.
    rewrite Forall_forall in Hrange. specialize (Hrange x Hx). cbv beta in Hrange.
    apply list_elem_of_In, in_map_iff. exists (Z.to_nat x).
    split; [lia|]. apply in_seq. lia. }
  apply submseteq_length in Hsub. rewrite length_map, length_seq in Hsub. lia.
Qed.

(** X9. Asked for more nodes than there are bootstrap URLs, the selection
    loop of [runOnTargetedNodes] never ends: it cannot find that many
    different indices, whatever the hash, and no number of iterations makes
    it return. *)
Theorem selectNodeIndexes_never_returns `{Hashing} (this : LitNodeClientNodeJs)
    (ipfsId : string) (k : Z) (fuel : nat) :
  (0 < Z.of_nat (length (bootstrapUrls this)) < k)%Z ->
  selectNodeIndexes fuel this ipfsId k = None.
Proof.
  intros [Hn Hk]. unfold selectNodeIndexes.
  replace (Z.of_nat (length (bootstrapUrls this)) =? 0)%Z with false
    by (symmetry; apply Z.eqb_neq; lia).
  rewrite andb_false_r.
  destruct (select_loop fuel ipfsId (Z.of_nat (length (bootstrapUrls this))) k [] 0)
    as [r|] eqn:Hrun; [|reflexivity].
  exfalso.
  destruct (select_loop_sound ipfsId (Z.of_nat (length (bootstrapUrls this))) k Hn
              fuel [] 0%nat r) as (_ & Hlen & Hnd & Hrange);
    [apply NoDup_nil_2|constructor|simpl; lia|done|].
  pose proof (distinct_in_range _ _ (Z.lt_le_incl _ _ Hn) Hnd Hrange). lia.
Qed.

Lemma selectNodeIndexes_never_returns_witness :
  (0 < Z.of_nat (length (bootstrapUrls Demo.client)) < 4)%Z
  /\ selectNodeIndexes 50 Demo.client Demo.ipfsId 4 = None.
Proof.
  split; [vm_compute; split; reflexivity|].
  apply (selectNodeIndexes_never_returns Demo.client Demo.ipfsId 4 50).
  vm_compute; split; reflexivity.
Defined.

(** The URL of a selected index. *)
Lemma targeted_node_promises_all (this : LitNodeClientNodeJs)
    (params : JsonExecutionSdkParamsTargetNode) (id : string) (indexes : list Z) :
  forall w,
  Forall (fun i => exists url, bootstrapUrls this !! Z.to_nat i = Some url
                     /\ is_Some (tn_sessionSigs params !! url)) indexes ->
  exists w' cmds,
    targeted_node_promises this params id indexes w = (Ok tt, w')
    /\ sent w' = sent w ++ cmds
    /\ Forall2 (fun i c => bootstrapUrls this !! Z.to_nat i = Some (cmd_url c)
                           /\ cmd_requestId c = id) indexes cmds.
Proof.
  induction indexes as [|i rest IH]; intros w Hall.
  - exists w, []. simpl. rewrite app_nil_r. repeat split; constructor.
  - apply Forall_cons in Hall as [(url & Hurl & [s Hs]) Hrest].
    cbn [targeted_node_promises]. rewrite Hurl.
    unfold bind at 1, _getSessionSigByUrl. rewrite Hs. unfold ret at 1.
    unfold bind at 1, _sendCommandToNode at 1.
    destruct (IH (mkWorld (localStorage w) (clock w) (ticks w) (entropy w)
                    (sent w ++ [{| cmd_url := url;
                                   cmd_data := JObj (params_props params);
                                   cmd_requestId := id |}])) Hrest)
      as (w' & cmds & Hrun & Hsent & Hcmds).
    exists w', ({| cmd_url := url; cmd_data := JObj (params_props params);
                  cmd_requestId := id |} :: cmds).
    split; [exact Hrun|]. split.
    + rewrite Hsent. simpl. by rewrite <- app_assoc.
    + constructor; [done|exact Hcmds].
Qed.



(** ** More on the shares of [signSessionKey] *)

Lemma every_field_truthy_Forall (data : JsVal) :
  every_field_truthy data = true
  <-> Forall (fun field => truthy (obj_get field data) = true) requiredFields.
Proof.
  unfold every_field_truthy. rewrite forallb_forall, Forall_forall.
  split; intros Hall field Hin; apply Hall; by apply list_elem_of_In.
Qed.

Lemma filter_sublist {A : Type} (f : A -> bool) (l : list A) :
  List.filter f l `sublist_of` l.
Proof.
  induction l as [|x l IH]; simpl; [constructor|].
  destruct (f x); by constructor.
Qed.

(** X11. The shares that the validation of [signSessionKey] lets through:
    they are responses of the nodes, in the order of the responses, at
    least minNodeCount of them, each with every required field truthy and
    with the ProofOfPossession of its share. *)
Theorem validate_shares_survivors (this : LitNodeClientNodeJs)
    (responseData kept : list JsVal) :
  validate_shares this responseData = Ok kept ->
  kept `sublist_of` responseData
  /\ (minNodeCount this <= Z.of_nat (length kept))%Z
  /\ Forall (fun data =>
               Forall (fun field => truthy (obj_get field data) = true) requiredFields
               /\ has_ProofOfPossession data = true) kept.
Proof.
  rewrite validate_shares_closed.
  destruct (existsb is_null responseData); [done|].
  destruct (Z.of_nat (length responseData) <=? 0)%Z; [done|].
  destruct (existsb (fun d => every_field_truthy d && negb (has_ProofOfPossession d))
              responseData) eqn:Hex; [done|].
  destruct (Z.ltb_spec (Z.of_nat (length (List.filter every_field_truthy responseData)))
              (minNodeCount this)) as [Hlt|Hge]; [done|].
  intros [= <-]. split; [apply filter_sublist|]. split; [done|].
  apply Forall_forall. intros data Hin.
  apply list_elem_of_In, filter_In in Hin as [Hin Hc].
  split; [by apply every_field_truthy_Forall|].
  destruct (has_ProofOfPossession data) eqn:Hp; [done|].
  assert (existsb (fun d => every_field_truthy d && negb (has_ProofOfPossession d))
            responseData = true); [|congruence].
  apply existsb_exists. exists data. by rewrite Hc, Hp.
Qed.

Lemma validate_shares_survivors_witness :
  [Demo.good_share 1; Demo.good_share 2]
    `sublist_of` [Demo.good_share 1; Demo.incomplete_share; Demo.good_share 2]
  /\ (minNodeCount Demo.client <= Z.of_nat (length [Demo.good_share 1; Demo.good_share 2]))%Z
  /\ Forall (fun data =>
               Forall (fun field => truthy (obj_get field data) = true) requiredFields
               /\ has_ProofOfPossession data = true)
       [Demo.good_share 1; Demo.good_share 2].
Proof.
  apply (validate_shares_survivors Demo.client
           [Demo.good_share 1; Demo.incomplete_share; Demo.good_share 2]).
  reflexivity.
Defined.

(** X12. A response that is not [null] and in which some required field is
    falsy (absent, null, empty, [false] or the number 0) does not count, as
    long as it is not the only response: with or without it, and whatever
    its share carries, the validation gives the same shares or the same
    error. *)
Theorem validate_shares_skips_incomplete (this : LitNodeClientNodeJs)
    (before after : list JsVal) (data : JsVal) (field : string) :
  data <> JNull ->
  before ++ after <> [] ->
  field ∈ requiredFields ->
  truthy (obj_get field data) = false ->
  validate_shares this (before ++ data :: after) = validate_shares this (before ++ after).
Proof.
  intros Hdata Hothers Hfield Hfalsy.
  assert (Hnull : is_null data = false) by (by destruct data).
  assert (Hc : every_field_truthy data = false).
  { destruct (every_field_truthy data) eqn:Hall; [|done].
    apply every_field_truthy_Forall in Hall.
    rewrite Forall_forall in Hall. specialize (Hall field Hfield). congruence. }
  rewrite !validate_shares_closed.
  rewrite !existsb_app, !List.filter_app. cbn [existsb List.filter].
  rewrite Hnull, Hc. cbn [andb orb].
  replace (Z.of_nat (length (before ++ data :: after)) <=? 0)%Z with false
    by (symmetry; apply Z.leb_gt; rewrite length_app; simpl; lia).
  replace (Z.of_nat (length (before ++ after)) <=? 0)%Z with false; [done|].
  symmetry. apply Z.leb_gt. destruct (before ++ after); [done|simpl; lia].
Qed.

Lemma validate_shares_skips_incomplete_witness :
  validate_shares Demo.client
    ([Demo.good_share 1] ++ Demo.share_with (JObj []) 0 :: [Demo.good_share 2])
  = validate_shares Demo.client ([Demo.good_share 1] ++ [Demo.good_share 2]).
Proof.
  apply (validate_shares_skips_incomplete Demo.client [Demo.good_share 1]
           [Demo.good_share 2] (Demo.share_with (JObj []) 0) "shareIndex").
  - discriminate.
  - discriminate.
  - unfold requiredFields. rewrite !elem_of_cons. tauto.
  - reflexivity.
Defined.

(** ** More on the re-sign predicate *)

Lemma capabilities_do_not_match_false (cap : RecapSessionCapabilityObject)
    (resourceAbilityRequests : list LitResourceAbilityRequest) :
  capabilities_do_not_match cap resourceAbilityRequests = false
  <-> Forall (fun r => verifyCapabilitiesForResource cap (resource r) (ability r) = true)
        resourceAbilityRequests.
Proof.
  induction resourceAbilityRequests as [|r rest IH]; simpl.
  - split; [constructor|done].
  - destruct (verifyCapabilitiesForResource cap (resource r) (ability r)) eqn:Hv; simpl.
    + rewrite IH. split; [by constructor|by inversion 1].
    + split; [done|]. inversion 1; congruence.
Qed.

(** X13. Asking for less never forces a new wallet signature: when
    [#checkNeedToResignSessionKey] answers [false] for a list of requests,
    it answers [false] for every list made of some of them, in any order
    and with repetitions. *)
Theorem checkNeedToResignSessionKey_fewer_requests `{Externals} (authSig : AuthSig)
    (sessionKeyUri : string) (asked fewer : list LitResourceAbilityRequest) :
  fewer ⊆ asked ->
  checkNeedToResignSessionKey authSig sessionKeyUri asked = Ok false ->
  checkNeedToResignSessionKey authSig sessionKeyUri fewer = Ok false.
Proof.
  intros Hsub. unfold checkNeedToResignSessionKey.
  destruct (SiweMessage_new (signedMessage authSig)) as [m|]; [|done].
  destruct (negb (SiweMessage_validate m (sig authSig))); [done|].
  destruct (negb (String.eqb (siwe_uri m) sessionKeyUri)); [done|].
  destruct (siwe_resources m) as [[|first rest]|]; [done| |done].
  destruct (decode first) as [cap|]; [|done].
  intros [= Hasked]. f_equal.
  apply capabilities_do_not_match_false. apply capabilities_do_not_match_false in Hasked.
  rewrite Forall_forall in Hasked. apply Forall_forall. intros r Hr.
  apply Hasked, Hsub, Hr.
Qed.

Lemma checkNeedToResignSessionKey_fewer_requests_witness :
  [mkRequest Demo.action_any LitActionExecution] ⊆ Demo.requests
  /\ checkNeedToResignSessionKey Demo.walletSig "lit:session:pk0" Demo.requests = Ok false
  /\ checkNeedToResignSessionKey Demo.walletSig "lit:session:pk0"
       [mkRequest Demo.action_any LitActionExecution] = Ok false.
Proof.
  assert (Hsub : [mkRequest Demo.action_any LitActionExecution] ⊆ Demo.requests).
  { intros r Hr. apply list_elem_of_singleton in Hr as ->.
    unfold Demo.requests. rewrite !elem_of_cons. tauto. }
  assert (Hasked : checkNeedToResignSessionKey Demo.walletSig "lit:session:pk0"
                     Demo.requests = Ok false) by (vm_compute; reflexivity).
  split; [exact Hsub|]. split; [exact Hasked|].
  exact (checkNeedToResignSessionKey_fewer_requests Demo.walletSig "lit:session:pk0"
           Demo.requests _ Hsub Hasked).
Defined.

(** ** The shares of the network signature *)

Lemma insert_share_Permutation (a : NodeBlsSigningShare) (l : list NodeBlsSigningShare) :
  insert_share a l ≡ₚ a :: l.
Proof.
  induction l as [|b l IH]; simpl; [done|].
  destruct (0 <? shareIndex a - shareIndex b)%Z; [|done].
  rewrite IH. apply perm_swap.
Qed.

Lemma sort_by_shareIndex_Permutation (l : list NodeBlsSigningShare) :
  sort_by_shareIndex l ≡ₚ l.
Proof.
  induction l as [|a l IH]; [done|].
  unfold sort_by_shareIndex in *. simpl.
  rewrite insert_share_Permutation. by f_equiv.
Qed.

Lemma insert_share_sorted (a : NodeBlsSigningShare) (l : list NodeBlsSigningShare) :
  StronglySorted (fun x y => (shareIndex x <= shareIndex y)%Z) l ->
  StronglySorted (fun x y => (shareIndex x <= shareIndex y)%Z) (insert_share a l).
Proof.
  induction 1 as [|b l Hs IH Hall]; simpl.
  - repeat constructor.
  - destruct (Z.ltb_spec 0 (shareIndex a - shareIndex b)) as [Hlt|Hge].
    + constructor; [done|]. apply Forall_forall. intros x Hx.
      rewrite insert_share_Permutation in Hx. apply elem_of_cons in Hx as [->|Hx]; [lia|].
      rewrite Forall_forall in Hall. by apply Hall.
    + constructor; [by constructor|]. constructor; [lia|].
      eapply Forall_impl; [exact Hall|]. simpl. intros; lia.
Qed.

Lemma sort_by_shareIndex_sorted (l : list NodeBlsSigningShare) :
  StronglySorted (fun x y => (shareIndex x <= shareIndex y)%Z) (sort_by_shareIndex l).
Proof.
  induction l as [|a l IH]; [constructor|].
  unfold sort_by_shareIndex in *. simpl. by apply insert_share_sorted.
Qed.

Lemma NoDup_map_inj_on {A B : Type} (f : A -> B) (l : list A) (x y : A) :
  NoDup (map f l) -> x ∈ l -> y ∈ l -> f x = f y -> x = y.
Proof.
  induction l as [|a l IH]; simpl; [by intros _ ?%elem_of_nil|].
  intros [Hnin Hnd]%NoDup_cons [->|Hx]%elem_of_cons [->|Hy]%elem_of_cons Heq;
    [done| | |by apply IH].
  - exfalso. apply Hnin. rewrite Heq. by apply (list_elem_of_fmap_2 f).
  - exfalso. apply Hnin. rewrite <- Heq. by apply (list_elem_of_fmap_2 f).
Qed.

(** X14. [#combineSharesAndGetJWT] does not depend on the order in which
    the shares arrive, as long as no two of them have the same index: the
    shares are combined in ascending order of their index, and the JWT is
    the same for any rearrangement of them. *)
Theorem combineSharesAndGetJWT_any_order `{Combining}
    (arrived rearranged : list NodeBlsSigningShare) :
  arrived ≡ₚ rearranged ->
  NoDup (map shareIndex arrived) ->
  StronglySorted (fun x y => (shareIndex x <= shareIndex y)%Z) (sort_by_shareIndex arrived)
  /\ combineSharesAndGetJWT arrived = combineSharesAndGetJWT rearranged.
Proof.
  intros Hperm Hnd. split; [apply sort_by_shareIndex_sorted|].
  unfold combineSharesAndGetJWT.
  assert (sort_by_shareIndex arrived = sort_by_shareIndex rearranged) as ->; [|done].
  apply (StronglySorted_unique_strong (fun x y => (shareIndex x <= shareIndex y)%Z));
    [|apply sort_by_shareIndex_sorted..|by rewrite !sort_by_shareIndex_Permutation].
  intros x1 x2 Hx1 Hx2 H12 H21.
  rewrite sort_by_shareIndex_Permutation in Hx1.
  rewrite sort_by_shareIndex_Permutation, <- Hperm in Hx2.
  apply (NoDup_map_inj_on shareIndex arrived); [done..|lia].
Qed.

Lemma combineSharesAndGetJWT_any_order_witness :
  StronglySorted (fun x y => (shareIndex x <= shareIndex y)%Z)
    (sort_by_shareIndex [Scenario.bls_share 2; Scenario.bls_share 1; Scenario.bls_share 3])
  /\ combineSharesAndGetJWT [Scenario.bls_share 2; Scenario.bls_share 1; Scenario.bls_share 3]
     = combineSharesAndGetJWT [Scenario.bls_share 1; Scenario.bls_share 2; Scenario.bls_share 3].
Proof.
  apply (combineSharesAndGetJWT_any_order
           [Scenario.bls_share 2; Scenario.bls_share 1; Scenario.bls_share 3]
           [Scenario.bls_share 1; Scenario.bls_share 2; Scenario.bls_share 3]).
  - apply perm_swap.
  - apply (bool_decide_unpack _). vm_compute. exact I.
Defined.

(** ** [isSessionKeyPair] and [getIpfsId] *)

(** X15. [isSessionKeyPair] answers [true] exactly for an object whose
    [publicKey] and [secretKey] are strings, as the serialised session key
    is; it raises a TypeError on [null], and only there. *)
Theorem isSessionKeyPair_spec (obj : option JsVal) :
  (forall e, isSessionKeyPair obj = Throw e <-> obj = Some JNull /\ e = TypeError)
  /\ (isSessionKeyPair obj = Ok true
      <-> exists props pk sk,
            obj = Some (JObj props)
            /\ props_get "publicKey" props = Some (JStr pk)
            /\ props_get "secretKey" props = Some (JStr sk))
  /\ forall k, isSessionKeyPair (Some (SessionKeyPair_toJSON k)) = Ok true.
Proof.
  split; [|split]; [| |done].
  - intros e. destruct obj as [[| | | | |props]|]; simpl;
      try (split; [done|by intros [[=] _]]).
    + unfold isSessionKeyPair; simpl. split; [by intros [= <-]|by intros [_ ->]].
    + unfold isSessionKeyPair; simpl. split; [|by intros [[=] _]].
      destruct (props_get "publicKey" props) as [pk|]; simpl; [|done].
      destruct (props_get "secretKey" props) as [sk|]; simpl; [|done].
      by destruct pk.
  - destruct obj as [[| | | | |props]|]; simpl;
      try (split; [done|by intros (? & ? & ? & [=] & _)]).
    unfold isSessionKeyPair; simpl. split.
    + destruct (props_get "publicKey" props) as [pk|] eqn:Hpk; simpl; [|done].
      destruct (props_get "secretKey" props) as [sk|] eqn:Hsk; simpl; [|done].
      destruct pk; simpl; try done. destruct sk; simpl; try done. eauto 6.
    + intros (props' & pk & sk & [= <-] & -> & ->). done.
Qed.

(** X16. [getIpfsId] returns a value only when the response of the action
    is a string, parses as JSON to an object, and that object has an object
    under [res] with the value under [data]; whether [success] is set there
    makes no difference. *)
Theorem getIpfsId_returns_a_value `{Json} (response : option JsVal) (v : JsVal) :
  getIpfsId_of_response response = Ok (Some v)
  <-> exists s parsed res,
        response = Some (JStr s)
        /\ JSON_parse s = Some (JObj parsed)
        /\ props_get "res" parsed = Some (JObj res)
        /\ props_get "data" res = Some v.
Proof.
  unfold getIpfsId_of_response. split.
  - destruct response as [[| | |s| |]|]; simpl; try done.
    destruct (JSON_parse s) as [parsed|] eqn:Hparse; simpl; [|done].
    destruct parsed as [| | | | |parsed]; simpl; try done.
    destruct (props_get "res" parsed) as [[| | | | |res]|] eqn:Hres; simpl; try done.
    intros [= Hdata]. eauto 8.
  - intros (s & parsed & res & -> & Hparse & Hres & Hdata).
    rewrite Hparse. simpl. rewrite Hres. simpl. by rewrite Hdata.
Qed.

(** X17. A response that is not a string, such as one that [executeJs]
    has already parsed into an object, makes [getIpfsId] raise a TypeError:
    nothing is assigned to [data] before its [success] is read. *)
Theorem getIpfsId_needs_a_string `{Json} (response : option JsVal) :
  (forall s, response <> Some (JStr s)) ->
  getIpfsId_of_response response = Throw TypeError.
Proof.
  intros Hstr. unfold getIpfsId_of_response.
  destruct response as [[| | |s| |]|]; simpl; try done.
  by destruct (Hstr s).
Qed.

Lemma getIpfsId_needs_a_string_witness :
  getIpfsId_of_response (obj_get "res" (Scenario.ipfs_reply true)) = Throw TypeError.
Proof.
  apply (getIpfsId_needs_a_string (obj_get "res" (Scenario.ipfs_reply true))).
  intros s. simpl. discriminate.
Defined.

(** ** Callbacks, and the session signatures of a PKP *)

Lemma bind_Throw {A B : Type} (m : M A) (k : A -> M B) (w w' : World) (e : Exn) :
  bind m k w = (Throw e, w') ->
  m w = (Throw e, w')
  \/ exists a w1, m w = (Ok a, w1) /\ k a w1 = (Throw e, w').
Proof.
  unfold bind. destruct (m w) as [[a|e0] w1]; [eauto|]. intros [= -> ->]. by left.
Qed.

Lemma keep_truthy_string_Some (x : option string) (s : string) :
  keep_truthy_string x = Some s -> x = Some s /\ s <> EmptyString.
Proof.
  unfold keep_truthy_string, truthy_string. destruct x as [s0|]; [|done].
  destruct (String.eqb_spec s0 ""); simpl; [done|]. by intros [= ->].
Qed.

Lemma keep_truthy_string_idem (x : option string) :
  keep_truthy_string (keep_truthy_string x) = keep_truthy_string x.
Proof.
  unfold keep_truthy_string. destruct (truthy_string x) eqn:Hx; [by rewrite Hx|done].
Qed.

(** The session key of a call: only the parser of the stored key raises. *)
Lemma sessionKey_source_Throw `{Externals} (params : GetSessionSigsProps) (w w' : World)
    (e : Exn) :
  sessionKey_source params w = (Throw e, w') -> e = SyntaxError.
Proof.
  unfold sessionKey_source. destruct (p_sessionKey params); [done|].
  unfold getSessionKey, bind, getStorageItem.
  destruct (slot_is_missing _).
  - unfold new_key_pair, try_catch, localStorage_setItem, ret. simpl.
    by destruct (available (localStorage w) && writable (localStorage w)).
  - destruct (JSON_parse_SessionKeyPair _); [done|]. by intros [= <- _].
Qed.

(** The expiration of a call: the caller's when it is not empty, else one
    read off the clock; nothing raises. *)
Lemma expiration_source `{Externals} (params : GetSessionSigsProps) (w w' : World)
    (r : Res string) :
  match keep_truthy_string (p_expiration params) with
  | Some e => ret e
  | None => getExpiration
  end w = (r, w') ->
  exists expiration,
    r = Ok expiration
    /\ localStorage w' = localStorage w /\ sent w' = sent w /\ entropy w' = entropy w
    /\ (keep_truthy_string (p_expiration params) = Some expiration
        \/ exists now, expiration = toISOString (now + day_ms)).
Proof.
  destruct (keep_truthy_string (p_expiration params)) as [e|].
  - intros [= <- <-]. eauto 10.
  - unfold getExpiration, bind, Date_now, ret. intros [= <- <-]. simpl. eauto 10.
Qed.

Lemma first_body_of `{Externals} (params : GetSessionSigsProps) (cb : option AuthCallback)
    (sessionKey : SessionKeyPair) (expiration nonce : string) :
  (keep_truthy_string (p_expiration params) = Some expiration
   \/ exists now, expiration = toISOString (now + day_ms)) ->
  callback_body_of params
    (walletSig_callback_body
       {| ws_authNeededCallback := cb;
          ws_chain := or_else (p_chain params) "ethereum";
          ws_sessionCapabilityObject := sessionCapabilityObject_of params;
          ws_switchChain := p_switchChain params;
          ws_expiration := expiration;
          ws_sessionKeyUri := getSessionKeyUri (publicKey sessionKey);
          ws_nonce := nonce;
          ws_resourceAbilityRequests := Some (p_resourceAbilityRequests params);
          ws_litActionCode := keep_truthy_string (p_litActionCode params);
          ws_litActionIpfsId := keep_truthy_string (p_litActionIpfsId params);
          ws_jsParams := p_jsParams params;
          ws_sessionKey := sessionKey |}).
Proof.
  intros Hexp. unfold callback_body_of, walletSig_callback_body; simpl.
  rewrite !keep_truthy_string_idem. repeat split; eauto.
Qed.

Lemma second_body_of `{Externals} (params : GetSessionSigsProps)
    (sessionKey : SessionKeyPair) (expiration nonce : string) :
  (keep_truthy_string (p_expiration params) = Some expiration
   \/ exists now, expiration = toISOString (now + day_ms)) ->
  callback_body_of params
    (resign_params params (sessionCapabilityObject_of params) expiration sessionKey
       (getSessionKeyUri (publicKey sessionKey)) nonce).
Proof.
  intros Hexp. unfold callback_body_of, resign_params; simpl. repeat split; eauto.
Qed.

(** Where an exception of [getSessionSigs] can come from, when the caller
    gave a callback: the parsers, the reading of a wallet signature that is
    [undefined], a structured error of the client, the constructors of the
    re-sign check, or the callback itself, on one of the bodies above. *)
Lemma getSessionSigs_throws `{Externals} (this : LitNodeClientNodeJs)
    (params : GetSessionSigsProps) (cb : AuthCallback) (w w' : World) (e : Exn) :
  p_authNeededCallback params = Some cb ->
  getSessionSigs this params w = (Throw e, w') ->
  e = SyntaxError \/ e = TypeError \/ (exists kind msg, e = LitError kind msg)
  \/ e = Error "Invalid SIWE message" \/ e = Error "Invalid session capability object"
  \/ exists props w0, callback_body_of params props /\ cb props w0 = (Throw e, w').
Proof.
  intros Hcb Hrun. unfold getSessionSigs in Hrun. rewrite Hcb in Hrun.
  apply bind_Throw in Hrun as [Hkey|(sessionKey & w1 & _ & Hrun)].
  { left. by eapply sessionKey_source_Throw. }
  apply bind_Throw in Hrun as [Hexp|(expiration & w2 & Hexp & Hrun)].
  { by apply expiration_source in Hexp as (? & [=] & _). }
  apply expiration_source in Hexp as (? & [= <-] & _ & _ & _ & Hexp).
  apply bind_Throw in Hrun as [Hnonce|(nonce & w3 & _ & Hrun)].
  { destruct (keep_truthy_string (latestBlockhash this)); [done|].
    injection Hnonce as <- _. right; right; left. eauto. }
  apply bind_Throw in Hrun as [Hwallet|(authSig & w4 & _ & Hrun)].
  { unfold getWalletSig in Hwallet. cbn [ws_authNeededCallback] in Hwallet.
    apply bind_Throw in Hwallet as [Hget|(stored & w3' & _ & Hwallet)]; [done|].
    destruct (slot_is_missing stored).
    - apply bind_Throw in Hwallet as [Hcall|(a & w3'' & _ & Hwallet)].
      + do 5 right. eexists _, _. split; [|exact Hcall]. by apply first_body_of.
      + apply bind_Throw in Hwallet as [Hset|(? & ? & _ & ?)]; [|done].
        unfold setStorageItem in Hset.
        by destruct (available (localStorage w3'') && writable (localStorage w3'')).
    - unfold try_catch in Hwallet.
      by destruct (JSON_parse_AuthSig _). }
  destruct authSig as [walletSig|]; [|injection Hrun as <- _; auto].
  apply bind_Throw in Hrun as [Hcheck|(need & w5 & _ & Hrun)].
  { unfold lift in Hcheck. injection Hcheck as Hcheck _.
    unfold checkNeedToResignSessionKey in Hcheck.
    destruct (SiweMessage_new _) as [m|]; [|injection Hcheck as <-; auto 6].
    destruct (negb (SiweMessage_validate m _)); [done|].
    destruct (negb (String.eqb _ _)); [done|].
    destruct (siwe_resources m) as [[|first rest]|]; [done| |done].
    destruct (decode first); [done|]. injection Hcheck as <-; auto 6. }
  apply bind_Throw in Hrun as [Hresign|(authSig & w6 & _ & Hrun)].
  { destruct need; [|done]. unfold authCallbackAndUpdateStorageItem in Hresign.
    apply bind_Throw in Hresign as [Hcall|(a & w5' & _ & Hresign)].
    - do 5 right. eexists _, _. split; [|exact Hcall]. by apply second_body_of.
    - apply bind_Throw in Hresign as [Hset|(stored & w5'' & _ & Hresign)].
      + unfold setStorageItem in Hset.
        by destruct (available (localStorage w5') && writable (localStorage w5')).
      + destruct (negb (is_ERROR stored)); [done|].
        apply bind_Throw in Hresign as [Hrm|(? & ? & _ & ?)]; [|done].
        unfold removeStorageItem in Hrm.
        by destruct (removable (localStorage w5'')). }
  destruct (walletSig_is_blank authSig).
  { injection Hrun as <- _. right; right; left. eauto. }
  apply bind_Throw in Hrun as [Hse|(? & ? & _ & Hrun)]; [done|].
  apply bind_Throw in Hrun as [Hnow|(? & ? & _ & Hrun)]; done.
Qed.

Lemma bind_fails {A B : Type} (m : M A) (k : A -> M B) (w w1 : World) (e : Exn) :
  m w = (Throw e, w1) -> bind m k w = (Throw e, w1).
Proof. intros Hm. unfold bind. by rewrite Hm. Qed.

Lemma keep_truthy_string_nonempty (s : string) :
  s <> EmptyString -> keep_truthy_string (Some s) = Some s.
Proof.
  intros Hs. unfold keep_truthy_string, truthy_string.
  by destruct (String.eqb_spec s "").
Qed.

Lemma truthy_string_keep (x : option string) :
  truthy_string (keep_truthy_string x) = truthy_string x.
Proof. unfold keep_truthy_string. by destruct (truthy_string x) eqn:Hx. Qed.

Lemma not_a_guard_error (e : Exn) :
  (forall m, e = Error m -> String.prefix "[getPkpSessionSigs/callback]" m = false
                            \/ m = "[getPkpSessionSigs/callback]litActionCode and litActionIpfsId cannot exist at the same time") ->
  e ∉ callback_guard_errors.
Proof.
  intros He. unfold callback_guard_errors. rewrite !elem_of_cons, elem_of_nil.
  intros [->|[->|[->|[]]]]; (destruct (He _ eq_refl) as [Hp|Hm]; [by vm_compute in Hp|done]).
Qed.

(** X18. The three guards that open the callback of [getPkpSessionSigs]
    never fire: whenever [getSessionSigs] calls it, the body carries an
    expiration that is not empty, the resources and the requests. Provided
    that the date formatter never gives an empty string and that
    [signSessionKey] raises none of their three errors, no call of
    [getPkpSessionSigs] fails with one of them. *)
Theorem getPkpSessionSigs_guards_never_fire `{Externals} `{SessionKeySigner}
    (this : LitNodeClientNodeJs) (params : GetPkpSessionSigs) (w w' : World) (e : Exn) :
  (forall ms, toISOString ms <> EmptyString) ->
  (forall request w0 w1 e0,
      signSessionKey this request w0 = (Throw e0, w1) -> e0 ∉ callback_guard_errors) ->
  getPkpSessionSigs this params w = (Throw e, w') ->
  e ∉ callback_guard_errors.
Proof.
  intros Hiso Hsigner Hrun. unfold getPkpSessionSigs in Hrun.
  eapply getSessionSigs_throws in Hrun; [|reflexivity].
  destruct Hrun as [->|[->|[(kind & msg & ->)|[->|[->|(props & w0 & Hbody & Hcall)]]]]];
    try (apply not_a_guard_error; intros m [= <-]; left; reflexivity);
    try (apply not_a_guard_error; by intros m [=]).
  destruct Hbody as (_ & _ & Hres & _ & Hreq & _ & _ & _ & expiration & Hexp & Hfrom).
  assert (Hne : expiration <> EmptyString).
  { destruct Hfrom as [Hgiven|[now ->]]; [|apply Hiso].
    by apply keep_truthy_string_Some in Hgiven as [_ ?]. }
  unfold getPkpSessionSigs_callback in Hcall.
  rewrite Hexp, (keep_truthy_string_nonempty _ Hne), Hres in Hcall.
  cbn [p_resourceAbilityRequests with_authNeededCallback with_chain] in Hreq.
  rewrite Hreq in Hcall.
  destruct (truthy_string (cb_litActionCode props) && truthy_string (cb_litActionIpfsId props)).
  - injection Hcall as <- _. apply not_a_guard_error. intros m [= <-]. by right.
  - by eapply Hsigner.
Qed.

Lemma ISODate_toISOString_not_empty (ms : Z) : ISODate.toISOString ms <> EmptyString.
Proof.
  unfold ISODate.toISOString.
  destruct (ISODate.civil_from_days (ms / 86400000)) as [[y m] d].
  by destruct (ISODate.year_string y).
Qed.

Lemma getPkpSessionSigs_guards_never_fire_witness :
  fst Scenario.pkp_run
  = Throw (Error "[getPkpSessionSigs/callback]litActionCode and litActionIpfsId cannot exist at the same time")
  /\ Error "[getPkpSessionSigs/callback]litActionCode and litActionIpfsId cannot exist at the same time"
     ∉ callback_guard_errors.
Proof.
  assert (Hfst : fst Scenario.pkp_run
                 = Throw (Error "[getPkpSessionSigs/callback]litActionCode and litActionIpfsId cannot exist at the same time"))
    by (vm_compute; reflexivity).
  split; [exact Hfst|].
  apply (getPkpSessionSigs_guards_never_fire Demo.client
           (Scenario.pkp_params (Some Demo.ipfsId)) (Demo.world_with [] 0)
           (snd Scenario.pkp_run)).
  - exact ISODate_toISOString_not_empty.
  - intros request w0 w1 e0 Hrun. discriminate Hrun.
  - change (Scenario.pkp_run
            = (Throw (Error "[getPkpSessionSigs/callback]litActionCode and litActionIpfsId cannot exist at the same time"),
               snd Scenario.pkp_run)).
    destruct Scenario.pkp_run as [r w']. simpl in *. by rewrite Hfst.
Defined.


(** X19. [getLitActionSessionSigs] lets a request through that names both
    the code of an action and the IPFS id of one; with no wallet signature
    in the store, the request then fails in the callback, before anything
    is asked of the nodes: the store, the commands sent and the keys
    generated are as they were. *)
Theorem getLitActionSessionSigs_code_and_ipfsId `{Externals} `{SessionKeySigner}
    (this : LitNodeClientNodeJs) (params : GetPkpSessionSigs) (w : World)
    (sessionKey : SessionKeyPair) (nonce : string) :
  (forall ms, toISOString ms <> EmptyString) ->
  truthy_string (p_litActionCode (pkp_sessionSigsProps params)) = true ->
  truthy_string (p_litActionIpfsId (pkp_sessionSigsProps params)) = true ->
  truthy (p_jsParams (pkp_sessionSigsProps params)) = true ->
  p_sessionKey (pkp_sessionSigsProps params) = Some sessionKey ->
  keep_truthy_string (latestBlockhash this) = Some nonce ->
  slot_is_missing (read_slot LOCAL_STORAGE_KEYS_WALLET_SIGNATURE (localStorage w)) = true ->
  exists w',
    getLitActionSessionSigs this params w
    = (Throw (Error "[getPkpSessionSigs/callback]litActionCode and litActionIpfsId cannot exist at the same time"), w')
    /\ localStorage w' = localStorage w /\ sent w' = sent w /\ entropy w' = entropy w.
Proof.
  intros Hiso Hcode Hipfs Hjs Hkey Hnonce Hmiss.
  unfold getLitActionSessionSigs. rewrite Hcode, Hipfs, Hjs. cbn [negb andb].
  unfold getPkpSessionSigs, getSessionSigs, sessionKey_source.
  cbn [with_authNeededCallback with_chain p_sessionKey p_expiration
       p_authNeededCallback p_litActionCode p_litActionIpfsId].
  rewrite Hkey, Hnonce.
  erewrite bind_run by reflexivity.
  destruct (match keep_truthy_string (p_expiration (pkp_sessionSigsProps params)) with
            | Some e => ret e
            | None => getExpiration
            end w) as [r w2] eqn:Hexp.
  pose proof Hexp as Hexp'.
  apply expiration_source in Hexp' as (expiration & -> & Hls & Hsent & Hent & Hfrom).
  assert (Hne : expiration <> EmptyString).
  { destruct Hfrom as [Hgiven|[now ->]]; [|apply Hiso].
    by apply keep_truthy_string_Some in Hgiven as [_ ?]. }
  erewrite bind_run by exact Hexp.
  erewrite bind_run by reflexivity.
  exists w2. split; [|done].
  apply bind_fails. unfold getWalletSig. cbn [ws_authNeededCallback].
  erewrite bind_run by reflexivity. rewrite Hls, Hmiss.
  apply bind_fails. unfold getPkpSessionSigs_callback, walletSig_callback_body.
  cbn [cb_expiration cb_resources cb_resourceAbilityRequests ws_expiration
       ws_resourceAbilityRequests cb_litActionCode cb_litActionIpfsId
       ws_litActionCode ws_litActionIpfsId].
  rewrite (keep_truthy_string_nonempty _ Hne), !truthy_string_keep, Hcode, Hipfs.
  reflexivity.
Qed.

Lemma getLitActionSessionSigs_code_and_ipfsId_witness :
  exists w',
    getLitActionSessionSigs Demo.client (Scenario.pkp_params (Some Demo.ipfsId))
      (Demo.world_with [] 0)
    = (Throw (Error "[getPkpSessionSigs/callback]litActionCode and litActionIpfsId cannot exist at the same time"), w')
    /\ localStorage w' = localStorage (Demo.world_with [] 0)
    /\ sent w' = sent (Demo.world_with [] 0)
    /\ entropy w' = entropy (Demo.world_with [] 0).
Proof.
  apply (getLitActionSessionSigs_code_and_ipfsId Demo.client
           (Scenario.pkp_params (Some Demo.ipfsId)) (Demo.world_with [] 0)
           (Demo.key_pair 0) "0xb10c");
    [exact ISODate_toISOString_not_empty|reflexivity..].
Defined.


Lemma bind_ext_run {A B : Type} (m1 m2 : M A) (k1 k2 : A -> M B) (w : World) :
  m1 w = m2 w ->
  (forall a w', m2 w = (Ok a, w') -> k1 a w' = k2 a w') ->
  bind m1 k1 w = bind m2 k2 w.
Proof.
  intros Hm Hk. unfold bind. rewrite Hm.
  destruct (m2 w) as [[a|e] w']; [by apply Hk|done].
Qed.

(** With the session key there and a stored wallet signature that needs no
    renewal, [getSessionSigs] goes straight to the signing. *)
Lemma getSessionSigs_fresh_run `{Externals} (this : LitNodeClientNodeJs)
    (params : GetSessionSigsProps) (w w1 : World) (sessionKey : SessionKeyPair)
    (stored : string) (cached : AuthSig) :
  sessionKey_source params w = (Ok sessionKey, w1) ->
  read_slot LOCAL_STORAGE_KEYS_WALLET_SIGNATURE (localStorage w1) = ERight stored ->
  stored <> EmptyString ->
  JSON_parse_AuthSig stored = Some cached ->
  checkNeedToResignSessionKey cached (getSessionKeyUri (publicKey sessionKey))
    (p_resourceAbilityRequests params) = Ok false ->
  getSessionSigs this params w = session_from_stored this params sessionKey cached w1.
Proof.
  intros Hkey Hread Hne Hparse Hcheck.
  unfold getSessionSigs, session_from_stored.
  erewrite bind_run by exact Hkey.
  apply bind_ext_run; [reflexivity|]. intros expiration w2 Hexp.
  apply expiration_source in Hexp as (? & _ & Hls & _).
  apply bind_ext_run; [reflexivity|]. intros nonce w3 Hnonce.
  assert (w3 = w2) as ->.
  { destruct (keep_truthy_string (latestBlockhash this)); [|done].
    by injection Hnonce as _ <-. }
  erewrite bind_run; [|apply (getWalletSig_stored _ _ _ stored); [by rewrite Hls|done]].
  rewrite Hparse, Hcheck.
  erewrite bind_run by reflexivity. erewrite bind_run by reflexivity.
  destruct (walletSig_is_blank cached); [reflexivity|].
  erewrite bind_run by reflexivity.
  unfold capabilities_of. by destruct (p_capacityDelegationAuthSig params).
Qed.

Lemma session_from_stored_world `{Externals} (this : LitNodeClientNodeJs)
    (params : GetSessionSigsProps) (sessionKey : SessionKeyPair) (walletSig : AuthSig)
    (w w' : World) (r : Res (gmap string AuthSig)) :
  session_from_stored this params sessionKey walletSig w = (r, w') ->
  localStorage w' = localStorage w /\ sent w' = sent w /\ entropy w' = entropy w.
Proof.
  unfold session_from_stored, bind at 1.
  destruct (match keep_truthy_string (p_expiration params) with
            | Some e => ret e
            | None => getExpiration
            end w) as [r2 w2] eqn:Hexp.
  apply expiration_source in Hexp as (expiration & -> & Hls & Hsent & Hent & _).
  rewrite <- Hls, <- Hsent, <- Hent.
  destruct (keep_truthy_string (latestBlockhash this)); unfold bind, ret, throw, Date_now;
    [|by intros [= _ <-]].
  destruct (walletSig_is_blank walletSig); by intros [= _ <-].
Qed.

(** X20. With the session key there and a stored wallet signature that
    needs no renewal, [getSessionSigs] asks nobody: the result is the same
    for any callback and any chain, and the store, the commands sent and
    the keys generated are those that the session key left. *)
Theorem getSessionSigs_fresh_signature_asks_nobody `{Externals}
    (this : LitNodeClientNodeJs) (params : GetSessionSigsProps) (w w1 : World)
    (sessionKey : SessionKeyPair) (stored : string) (cached : AuthSig) :
  sessionKey_source params w = (Ok sessionKey, w1) ->
  read_slot LOCAL_STORAGE_KEYS_WALLET_SIGNATURE (localStorage w1) = ERight stored ->
  stored <> EmptyString ->
  JSON_parse_AuthSig stored = Some cached ->
  checkNeedToResignSessionKey cached (getSessionKeyUri (publicKey sessionKey))
    (p_resourceAbilityRequests params) = Ok false ->
  (forall callback chain,
      getSessionSigs this (with_chain (with_authNeededCallback params callback) chain) w
      = getSessionSigs this params w)
  /\ localStorage (snd (getSessionSigs this params w)) = localStorage w1
  /\ sent (snd (getSessionSigs this params w)) = sent w1
  /\ entropy (snd (getSessionSigs this params w)) = entropy w1.
Proof.
  intros Hkey Hread Hne Hparse Hcheck.
  rewrite (getSessionSigs_fresh_run this params w w1 sessionKey stored cached) by done.
  split.
  - intros callback chain.
    by rewrite (getSessionSigs_fresh_run this _ w w1 sessionKey stored cached).
  - apply (session_from_stored_world this params sessionKey cached w1 _
             (fst (session_from_stored this params sessionKey cached w1))).
    by destruct (session_from_stored this params sessionKey cached w1).
Qed.

Lemma getSessionSigs_fresh_signature_asks_nobody_witness :
  (forall callback chain,
      getSessionSigs Demo.client
        (with_chain (with_authNeededCallback (Demo.session_params None) callback) chain)
        Scenario.cached_world
      = getSessionSigs Demo.client (Demo.session_params None) Scenario.cached_world)
  /\ localStorage (snd (getSessionSigs Demo.client (Demo.session_params None)
                          Scenario.cached_world))
     = localStorage Scenario.cached_world
  /\ sent (snd (getSessionSigs Demo.client (Demo.session_params None)
                  Scenario.cached_world))
     = sent Scenario.cached_world
  /\ entropy (snd (getSessionSigs Demo.client (Demo.session_params None)
                     Scenario.cached_world))
     = entropy Scenario.cached_world.
Proof.
  apply (getSessionSigs_fresh_signature_asks_nobody Demo.client (Demo.session_params None)
           Scenario.cached_world Scenario.cached_world (Demo.key_pair 0)
           (JSON_stringify (AuthSig_toJSON Demo.walletSig)) Demo.walletSig).
  - reflexivity.
  - vm_compute; reflexivity.
  - apply JSON_stringify_object_not_empty.
  - vm_compute; reflexivity.
  - vm_compute; reflexivity.
Defined.


(** X21. With a stored wallet signature that needs no renewal,
    [getPkpSessionSigs] is [getSessionSigs] on the same request: the nodes
    are not asked to sign the session key, whatever [signSessionKey] would
    do, and what the request says about an action is not looked at. *)
Theorem getPkpSessionSigs_fresh_signature `{Externals} `{SessionKeySigner}
    (this : LitNodeClientNodeJs) (params : GetPkpSessionSigs) (w w1 : World)
    (sessionKey : SessionKeyPair) (stored : string) (cached : AuthSig) :
  sessionKey_source (pkp_sessionSigsProps params) w = (Ok sessionKey, w1) ->
  read_slot LOCAL_STORAGE_KEYS_WALLET_SIGNATURE (localStorage w1) = ERight stored ->
  stored <> EmptyString ->
  JSON_parse_AuthSig stored = Some cached ->
  checkNeedToResignSessionKey cached (getSessionKeyUri (publicKey sessionKey))
    (p_resourceAbilityRequests (pkp_sessionSigsProps params)) = Ok false ->
  getPkpSessionSigs this params w = getSessionSigs this (pkp_sessionSigsProps params) w.
Proof.
  intros Hkey Hread Hne Hparse Hcheck. unfold getPkpSessionSigs.
  rewrite (getSessionSigs_fresh_run this _ w w1 sessionKey stored cached) by done.
  by rewrite (getSessionSigs_fresh_run this (pkp_sessionSigsProps params) w w1 sessionKey
                stored cached).
Qed.

Lemma getPkpSessionSigs_fresh_signature_witness :
  getPkpSessionSigs Demo.client (Scenario.pkp_params (Some Demo.ipfsId))
    Scenario.cached_world
  = getSessionSigs Demo.client
      (pkp_sessionSigsProps (Scenario.pkp_params (Some Demo.ipfsId))) Scenario.cached_world.
Proof.
  apply (getPkpSessionSigs_fresh_signature Demo.client
           (Scenario.pkp_params (Some Demo.ipfsId))
           Scenario.cached_world Scenario.cached_world (Demo.key_pair 0)
           (JSON_stringify (AuthSig_toJSON Demo.walletSig)) Demo.walletSig).
  - reflexivity.
  - vm_compute; reflexivity.
  - apply JSON_stringify_object_not_empty.
  - vm_compute; reflexivity.
  - vm_compute; reflexivity.
Defined.
